(** * Jazjo ordering backend: order builder, lifecycle manager and webhook
      reconciliation of [server/index.mjs], embedded over an explicit model
      of the hosted data store.

    Conventions of the embedding.
    - JavaScript strings are [string]s of bytes; [trim], [toUpperCase] and
      [toLowerCase] act on the ASCII range.
    - Money amounts (JavaScript numbers read from [numeric] columns) are
      exact rationals [Q]; counts of cases are integers [Z].
    - A table of the data store is the list of its rows in insertion order;
      a filtered read returns the matching rows in that order, [limit=1]
      keeps the first one, a [PATCH] rewrites every matching row and a
      [POST] appends.  Every request is answered: transport failures of the
      store are outside the model.
    - A function that throws returns [Throw e] together with the store as it
      is at that point, so that writes made before a failure stay visible.
    - The clock, the random order code and the identifier the store assigns
      to a new order are explicit arguments. *)

From Stdlib Require Import Ascii QArith Qround Lqa.
From stdpp Require Import base tactics option list strings gmap sorting.

Local Open Scope Z_scope.

(** ** JavaScript string helpers *)

Module Js.

Definition truthy (s : string) : bool :=
  match s with "" => false | _ => true end.

Definition upper_char (c : ascii) : ascii :=
  let n := N_of_ascii c in
  if ((97 <=? n) && (n <=? 122))%N then ascii_of_N (n - 32) else c.

Definition lower_char (c : ascii) : ascii :=
  let n := N_of_ascii c in
  if ((65 <=? n) && (n <=? 90))%N then ascii_of_N (n + 32) else c.

Fixpoint map_chars (f : ascii → ascii) (s : string) : string :=
  match s with
  | "" => ""
  | String c r => String (f c) (map_chars f r)
  end.

Definition toUpperCase : string → string := map_chars upper_char.
Definition toLowerCase : string → string := map_chars lower_char.

Fixpoint trimStart (s : string) : string :=
  match s with
  | String c r => if Ascii.is_space c then trimStart r else s
  | "" => ""
  end.

Definition trim (s : string) : string :=
  String.rev (trimStart (String.rev (trimStart s))).

Fixpoint startsWith (p s : string) : bool :=
  match p, s with
  | "", _ => true
  | String a p', String b s' => if decide (a = b) then startsWith p' s' else false
  | String _ _, "" => false
  end.

Fixpoint includes (s p : string) : bool :=
  startsWith p s ||
  match s with
  | "" => false
  | String _ r => includes r p
  end.

(** [s.split(sep)] for a one-character separator. *)
Fixpoint split_go (sep : ascii) (cur : string) (s : string) : list string :=
  match s with
  | "" => [String.rev cur]
  | String c r =>
      if decide (c = sep) then String.rev cur :: split_go sep "" r
      else split_go sep (String c cur) r
  end.

Definition split (sep : ascii) (s : string) : list string := split_go sep "" s.

(** [escapeCsvValues] deletes every double quote (character 34) of a
    value before it is quoted. *)
Fixpoint removeQuotes (s : string) : string :=
  match s with
  | "" => ""
  | String c r =>
      if decide (c = "034"%char) then removeQuotes r else String c (removeQuotes r)
  end.

End Js.

(** ** Errors and the store-passing monad *)

Record error := Error { message : string; status_code : option Z }.

(** The top-level handler answers [Number(err.status || 500)]. *)
Definition http_status (e : error) : Z := default 500 (status_code e).

Inductive outcome (A : Type) :=
  | Ok (a : A)
  | Throw (e : error).
Arguments Ok {A} a.
Arguments Throw {A} e.

Definition is_throw {A} (r : outcome A) : Prop :=
  match r with Throw _ => True | Ok _ => False end.

(** ** Data model: the rows of the hosted data store *)

(** The [status] column of [orders] and [order_status_events]: the seven
    values the server names. *)
Inductive status :=
  | pending_payment | order_placed | preparing | in_transit
  | out_for_delivery | delivered | cancelled.

Global Instance status_eq_dec : EqDecision status.
Proof. solve_decision. Defined.

(** Modelled from the spec: the schema of the data store is not part of the
    sources; the payment status of an order and of a payment row is one of
    [pending], [paid], [failed], [cancelled]. *)
Inductive payment_status := pay_pending | pay_paid | pay_failed | pay_cancelled.

Global Instance payment_status_eq_dec : EqDecision payment_status.
Proof. solve_decision. Defined.

Definition payment_status_str (p : payment_status) : string :=
  match p with
  | pay_pending => "pending"
  | pay_paid => "paid"
  | pay_failed => "failed"
  | pay_cancelled => "cancelled"
  end.

Record product := Product {
  p_id : string;
  p_sku : string;
  p_name : string;
  p_category : string;
  p_unit : string;
  p_price : Q;
  p_stock_cases : Z;
  p_image_url : string;
  p_is_active : bool
}.

Record order := Order {
  o_id : string;
  o_order_code : string;
  o_user_id : string;
  o_customer_name : string;
  o_contact : string;
  o_address : string;
  o_subtotal : Q;
  o_delivery_fee : Q;
  o_total : Q;
  o_status : status;
  o_payment_status : payment_status;
  o_payment_provider : option string;
  o_payment_method : string;
  o_paid_at : option string;
  o_paymongo_checkout_session_id : option string;
  o_paymongo_payment_id : option string
}.

Record order_item := OrderItem {
  i_order_id : string;
  i_product_id : option string;
  i_sku : string;
  i_name : string;
  i_category : string;
  i_unit : string;
  i_image_url : string;
  i_unit_price : Q;
  i_qty : Z;
  i_line_total : Q
}.

(** A row of [order_status_events].  [updateOrderStatus] writes the status
    of the row from the value [uiStatusToDbStatus] returns; where that value
    is no text (see [uiStatusToDbStatus]) the row sent to the store names no
    status. *)
Inductive status_event :=
  | StatusEvent (order_id : string) (s : status) (note : string)
                (changed_by : option string)
  | StatuslessEvent (order_id : string) (note : string)
                    (changed_by : option string).

Definition e_order_id (e : status_event) : string :=
  match e with
  | StatusEvent order_id _ _ _ => order_id
  | StatuslessEvent order_id _ _ => order_id
  end.

Definition e_status (e : status_event) : option status :=
  match e with
  | StatusEvent _ s _ _ => Some s
  | StatuslessEvent _ _ _ => None
  end.

Definition e_note (e : status_event) : string :=
  match e with
  | StatusEvent _ _ note _ => note
  | StatuslessEvent _ note _ => note
  end.

Definition e_changed_by (e : status_event) : option string :=
  match e with
  | StatusEvent _ _ _ changed_by => changed_by
  | StatuslessEvent _ _ changed_by => changed_by
  end.

Record payment := Payment {
  pay_order_id : string;
  pay_provider : string;
  pay_status : payment_status;
  pay_amount : Q;
  pay_currency : string;
  pay_provider_event_id : option string;
  pay_provider_checkout_session_id : option string;
  pay_provider_payment_id : option string;
  pay_raw_payload : option string
}.

Record store := Store {
  products : list product;
  orders : list order;
  order_items : list order_item;
  order_status_events : list status_event;
  payments : list payment
}.

(** The store-passing monad of the request handlers. *)
Definition M (A : Type) : Type := store → outcome A * store.

Global Instance M_ret : MRet M := λ A a st, (Ok a, st).
Global Instance M_bind : MBind M := λ A B f m st,
  match m st with
  | (Ok a, st') => f a st'
  | (Throw e, st') => (Throw e, st')
  end.

Definition throw {A} (e : error) : M A := λ st, (Throw e, st).

(** A pure computation that may throw, run inside a handler. *)
Definition liftO {A} (r : outcome A) : M A := λ st, (r, st).

Definition plain_error (msg : string) : error := Error msg None.

(** ** The REST data API: reads *)

Definition eqb_opt (a : option string) (b : string) : bool :=
  bool_decide (a = Some b).

Definition select_products (f : product → bool) : M (list product) :=
  λ st, (Ok (filter (λ p, f p = true) (products st)), st).

Definition select_orders (f : order → bool) : M (list order) :=
  λ st, (Ok (filter (λ o, f o = true) (orders st)), st).

Definition select_order_items (f : order_item → bool) : M (list order_item) :=
  λ st, (Ok (filter (λ i, f i = true) (order_items st)), st).

Definition select_order_status_events (f : status_event → bool)
  : M (list status_event) :=
  λ st, (Ok (filter (λ e, f e = true) (order_status_events st)), st).

Definition select_payments (f : payment → bool) : M (list payment) :=
  λ st, (Ok (filter (λ p, f p = true) (payments st)), st).

(** ** The REST data API: writes *)

Definition set_products (ps : list product) (st : store) : store :=
  Store ps (orders st) (order_items st) (order_status_events st) (payments st).

Definition set_orders (os : list order) (st : store) : store :=
  Store (products st) os (order_items st) (order_status_events st) (payments st).

Definition set_order_items (its : list order_item) (st : store) : store :=
  Store (products st) (orders st) its (order_status_events st) (payments st).

Definition set_order_status_events (es : list status_event) (st : store) : store :=
  Store (products st) (orders st) (order_items st) es (payments st).

Definition set_payments (ps : list payment) (st : store) : store :=
  Store (products st) (orders st) (order_items st) (order_status_events st) ps.

(** [PATCH table?filter]: every row the filter keeps is rewritten. *)
Definition patch_rows {A} (f : A → bool) (upd : A → A) (rows : list A) : list A :=
  (λ r, if f r then upd r else r) <$> rows.

Definition patch_products (f : product → bool) (upd : product → product) : M unit :=
  λ st, (Ok (), set_products (patch_rows f upd (products st)) st).

Definition patch_orders (f : order → bool) (upd : order → order) : M (list order) :=
  λ st, (Ok (upd <$> filter (λ o, f o = true) (orders st)),
         set_orders (patch_rows f upd (orders st)) st).

Definition patch_payments (f : payment → bool) (upd : payment → payment) : M unit :=
  λ st, (Ok (), set_payments (patch_rows f upd (payments st)) st).

(** [POST orders] with [return=representation]: the answer is the list of
    the rows inserted, here the one row, of which the caller takes the
    first. *)
Definition insert_order (o : order) : M order :=
  λ st, (Ok o, set_orders (orders st ++ [o]) st).

Definition insert_order_items (rows : list order_item) : M unit :=
  λ st, (Ok (), set_order_items (order_items st ++ rows) st).

Definition insert_order_status_event (e : status_event) : M unit :=
  λ st, (Ok (), set_order_status_events (order_status_events st ++ [e]) st).

Definition insert_payment (p : payment) : M unit :=
  λ st, (Ok (), set_payments (payments st ++ [p]) st).

(** ** Status labels *)

Definition status_str (s : status) : string :=
  match s with
  | pending_payment => "pending_payment"
  | order_placed => "order_placed"
  | preparing => "preparing"
  | in_transit => "in_transit"
  | out_for_delivery => "out_for_delivery"
  | delivered => "delivered"
  | cancelled => "cancelled"
  end.

(** [toUiStatus]: an order awaiting payment is shown as "Order Placed". *)
Definition toUiStatus (dbStatus : status) : string :=
  match dbStatus with
  | pending_payment => "Order Placed"
  | order_placed => "Order Placed"
  | preparing => "Preparing"
  | in_transit => "In Transit"
  | out_for_delivery => "Out for Delivery"
  | delivered => "Delivered"
  | cancelled => "Cancelled"
  end.

(** *** Lookups on object literals

    [map[key]] on an object literal yields the value the literal lists under
    [key] and, for a key it does not list, the member every object inherits
    from [Object.prototype] under that name, if there is one: a function or,
    under [__proto__], the prototype itself.  Such a member is truthy, is
    not nullish and is no text. *)
Definition object_prototype_members : list string :=
  ["constructor"; "__defineGetter__"; "__defineSetter__"; "hasOwnProperty";
   "__lookupGetter__"; "__lookupSetter__"; "isPrototypeOf";
   "propertyIsEnumerable"; "toString"; "valueOf"; "__proto__";
   "toLocaleString"].

(** What a function built on such a lookup returns: a value of the kind its
    literal lists, or the inherited member of that name. *)
Inductive or_member (A : Type) :=
  | Plain (a : A)
  | Member (key : string).
Arguments Plain {A} a.
Arguments Member {A} key.

(** [map[key]], [None] standing for [undefined]. *)
Definition lookup_literal {A} (listed : option A) (key : string)
  : option (or_member A) :=
  match listed with
  | Some a => Some (Plain a)
  | None =>
      if bool_decide (key ∈ object_prototype_members) then Some (Member key)
      else None
  end.

(** The text of an inherited member in a template literal, as Node prints
    it. *)
Definition member_text (key : string) : string :=
  if decide (key = "__proto__") then "[object Object]"
  else "function "
       +:+ (if decide (key = "constructor") then "Object" else key)
       +:+ "() { [native code] }".

(** The thirteen entries of the literal of [uiStatusToDbStatus]. *)
Definition status_of_label (key : string) : option status :=
  if decide (key = "Order Placed") then Some order_placed
  else if decide (key = "Preparing") then Some preparing
  else if decide (key = "In Transit") then Some in_transit
  else if decide (key = "Out for Delivery") then Some out_for_delivery
  else if decide (key = "Delivered") then Some delivered
  else if decide (key = "Cancelled") then Some cancelled
  else if decide (key = "pending_payment") then Some pending_payment
  else if decide (key = "order_placed") then Some order_placed
  else if decide (key = "preparing") then Some preparing
  else if decide (key = "in_transit") then Some in_transit
  else if decide (key = "out_for_delivery") then Some out_for_delivery
  else if decide (key = "delivered") then Some delivered
  else if decide (key = "cancelled") then Some cancelled
  else None.

(** [uiStatusToDbStatus]: [map[String(status || "").trim()] || ""], where
    [None] stands for the empty string.  Every listed value and every
    inherited member is truthy. *)
Definition uiStatusToDbStatus (input : string) : option (or_member status) :=
  lookup_literal (status_of_label (Js.trim input)) (Js.trim input).

Definition isQrphMethod (method : string) : bool :=
  Js.includes (Js.toUpperCase method) "QRPH".

(** ** Payment gateway adapter: webhook signature *)

Definition entry_of_part (part : string) : option (string * string) :=
  match Js.split "="%char part with
  | k :: v :: _ =>
      if Js.truthy k && Js.truthy v then Some (Js.trim k, Js.trim v) else None
  | _ => None
  end.

(** The map holds the entries of the object [out], its own properties.  An
    assignment [out[k] = v] makes or replaces such an entry, except under
    [__proto__]: that name is an accessor every object inherits, whose
    setter drops a value that is a text and leaves no entry. *)
Definition parsePaymongoSignature (headerValue : string) : gmap string string :=
  foldl (λ out part,
           match entry_of_part part with
           | Some (k, v) =>
               if decide (k = "__proto__") then out else <[k := v]> out
           | None => out
           end)
        ∅ (Js.split ","%char headerValue).

Section Signature.
(** The configured secret and the keyed hash of [node:crypto]:
    [hmac_sha256_hex key msg] is
    [createHmac("sha256", key).update(msg).digest("hex")]. *)
Variable PAYMONGO_WEBHOOK_SECRET : string.
Variable hmac_sha256_hex : string → string → string.

Definition secret_configured : bool :=
  Js.truthy PAYMONGO_WEBHOOK_SECRET
  && negb (Js.includes PAYMONGO_WEBHOOK_SECRET "...").

Definition verifyPaymongoWebhookSignature (rawBody headerValue : string)
  : outcome bool :=
  if negb secret_configured
  then Throw (Error "PayMongo webhook secret not configured." (Some 500))
  else
    let sig := parsePaymongoSignature headerValue in
    let timestamp := default "" (sig !! "t") in
    let candidates :=
      filter (λ c, Js.truthy c = true) (omap id [sig !! "te"; sig !! "li"]) in
    if negb (Js.truthy timestamp) || bool_decide (candidates = [])
    then Ok false
    else
      let signed := timestamp +:+ "." +:+ rawBody in
      let expected := hmac_sha256_hex PAYMONGO_WEBHOOK_SECRET signed in
      Ok (existsb (λ c, bool_decide (c = expected)) candidates).
End Signature.

(** ** Order lifecycle manager: status updates *)

Record profile := Profile { pr_user_id : string; pr_role : string }.

Definition set_status (s : status) (o : order) : order :=
  Order (o_id o) (o_order_code o) (o_user_id o) (o_customer_name o)
        (o_contact o) (o_address o) (o_subtotal o) (o_delivery_fee o)
        (o_total o) s (o_payment_status o) (o_payment_provider o)
        (o_payment_method o) (o_paid_at o)
        (o_paymongo_checkout_session_id o) (o_paymongo_payment_id o).

Definition has_code (orderCode : string) (o : order) : bool :=
  bool_decide (o_order_code o = orderCode).

Definition unpaidQrph (o : order) : bool :=
  isQrphMethod (o_payment_method o)
  && negb (bool_decide
             (Js.toLowerCase (payment_status_str (o_payment_status o)) = "paid")).

Definition allowedBeforePayment (s : status) : bool :=
  bool_decide (s = pending_payment) || bool_decide (s = cancelled).

Definition payment_not_confirmed : error :=
  Error "Cannot move QRPH order status until payment is marked paid." (Some 409).

(** [allowedBeforePayment.has(nextStatus)]: an inherited member is not in
    the set. *)
Definition allowed_before_payment (nextStatus : or_member status) : bool :=
  match nextStatus with
  | Plain s => allowedBeforePayment s
  | Member _ => false
  end.

(** The body [{ status: nextStatus }] of the [PATCH]: [JSON.stringify]
    leaves a function out, and writes the prototype as an empty object,
    which is no status.  For an inherited member the store is thus given no
    status to write, and the rows stay as they are. *)
Definition write_status (nextStatus : or_member status) (o : order) : order :=
  match nextStatus with
  | Plain s => set_status s o
  | Member _ => o
  end.

(** The row posted to [order_status_events].  In the note [toUiStatus]
    returns an inherited member as it is, and the template literal prints
    it. *)
Definition status_update_event (order : order) (nextStatus : or_member status)
    (actorProfile : profile) : status_event :=
  match nextStatus with
  | Plain s =>
      StatusEvent (o_id order) s
        ("Status updated to " +:+ toUiStatus s +:+ " by "
           +:+ pr_role actorProfile +:+ ".")
        (Some (pr_user_id actorProfile))
  | Member key =>
      StatuslessEvent (o_id order)
        ("Status updated to " +:+ member_text key +:+ " by "
           +:+ pr_role actorProfile +:+ ".")
        (Some (pr_user_id actorProfile))
  end.

Definition updateOrderStatus (orderCode nextStatusInput : string)
    (actorProfile : profile) : M (option order) :=
  match uiStatusToDbStatus nextStatusInput with
  | None => throw (plain_error "Invalid status.")
  | Some nextStatus =>
      rows ← select_orders (has_code orderCode);
      match head rows with
      | None => throw (plain_error "Order not found.")
      | Some order =>
          if unpaidQrph order && negb (allowed_before_payment nextStatus)
          then throw payment_not_confirmed
          else
            updatedRows ← patch_orders (has_code orderCode)
                            (write_status nextStatus);
            let updated := head updatedRows in
            _ ← insert_order_status_event
                  (status_update_event order nextStatus actorProfile);
            mret updated
      end
  end.

(** ** Order lifecycle manager: payment confirmation *)

Definition truthy_opt (v : option string) : bool :=
  match v with Some s => Js.truthy s | None => false end.

(** [a || b] on nullable strings. *)
Definition js_or (a b : option string) : option string :=
  if truthy_opt a then a else b.

(** [a || null]. *)
Definition or_null (a : option string) : option string := js_or a None.

Definition set_stock_cases (n : Z) (p : product) : product :=
  Product (p_id p) (p_sku p) (p_name p) (p_category p) (p_unit p) (p_price p)
          n (p_image_url p) (p_is_active p).

Definition has_product_id (pid : string) (p : product) : bool :=
  bool_decide (p_id p = pid).

Definition valid_item (i : order_item) : bool :=
  truthy_opt (i_product_id i) && bool_decide (0 < i_qty i).

(** The body of the loop of [deductStockForOrder] for one order item. *)
Definition deduct_item (item : order_item) : M unit :=
  productRows ← select_products (has_product_id (default "" (i_product_id item)));
  match head productRows with
  | None => mret ()
  | Some product =>
      let current := p_stock_cases product in
      let next := Z.max 0 (current - i_qty item) in
      patch_products (has_product_id (p_id product)) (set_stock_cases next)
  end.

Fixpoint for_each {A} (body : A → M unit) (l : list A) : M unit :=
  match l with
  | [] => mret ()
  | x :: r => _ ← body x; for_each body r
  end.

Definition deductStockForOrder (orderId : string) : M unit :=
  items ← select_order_items (λ i, bool_decide (i_order_id i = orderId));
  let validItems := filter (λ i, valid_item i = true) items in
  for_each deduct_item validItems.

Definition findOrderByCode (orderCode : string) : M (option order) :=
  rows ← select_orders (has_code orderCode);
  mret (head rows).

Definition findOrderByCheckoutSessionId (checkoutSessionId : option string)
  : M (option order) :=
  match checkoutSessionId with
  | Some sid =>
      if Js.truthy sid
      then rows ← select_orders
                    (λ o, eqb_opt (o_paymongo_checkout_session_id o) sid);
           mret (head rows)
      else mret None
  | None => mret None
  end.

Definition hasOrderStatusEventNote (orderId note : string) : M bool :=
  rows ← select_order_status_events
           (λ e, bool_decide (e_order_id e = orderId)
                 && bool_decide (e_note e = note));
  mret (bool_decide (rows ≠ [])).

Record webhook_args := WebhookArgs {
  w_orderCode : option string;
  w_checkoutSessionId : option string;
  w_paymentId : option string;
  w_eventId : string;
  w_rawPayload : string
}.

Record webhook_result := WebhookResult { duplicate : bool }.

Definition STOCK_MARKER_NOTE : string :=
  "QRPH payment confirmed via PayMongo webhook. Stock deducted.".

Definition mark_paid (now : string) (session payment_id : option string)
    (o : order) : order :=
  Order (o_id o) (o_order_code o) (o_user_id o) (o_customer_name o)
        (o_contact o) (o_address o) (o_subtotal o) (o_delivery_fee o)
        (o_total o) order_placed pay_paid (o_payment_provider o)
        (o_payment_method o) (Some now) session payment_id.

Definition record_event (eventId : string) (session payment_id : option string)
    (raw : string) (p : payment) : payment :=
  Payment (pay_order_id p) (pay_provider p) pay_paid (pay_amount p)
          (pay_currency p) (Some eventId) session payment_id (Some raw).

Definition resolve_order (a : webhook_args) : M (option order) :=
  byCode ← (if truthy_opt (w_orderCode a)
            then findOrderByCode (default "" (w_orderCode a))
            else mret None);
  match byCode with
  | Some o => mret (Some o)
  | None => findOrderByCheckoutSessionId (w_checkoutSessionId a)
  end.

(** [now] is [new Date().toISOString()] at the time of the call. *)
Definition markOrderPaidFromWebhook (now : string) (a : webhook_args)
  : M webhook_result :=
  existingEvent ← select_payments
                    (λ p, eqb_opt (pay_provider_event_id p) (w_eventId a));
  if bool_decide (existingEvent ≠ [])
  then mret (WebhookResult true)
  else
    found ← resolve_order a;
    match found with
    | None => throw (plain_error "Order not found for webhook.")
    | Some order =>
        _ ← patch_orders (λ o, bool_decide (o_id o = o_id order))
              (mark_paid now
                 (js_or (w_checkoutSessionId a)
                    (or_null (o_paymongo_checkout_session_id order)))
                 (or_null (w_paymentId a)));
        stockAlreadyDeducted ← hasOrderStatusEventNote (o_id order) STOCK_MARKER_NOTE;
        _ ← (if stockAlreadyDeducted : bool then mret ()
             else
               (_ ← deductStockForOrder (o_id order);
                insert_order_status_event
                  (StatusEvent (o_id order) order_placed STOCK_MARKER_NOTE None))
               : M unit);
        _ ← patch_payments (λ p, bool_decide (pay_order_id p = o_id order))
              (record_event (w_eventId a) (or_null (w_checkoutSessionId a))
                 (or_null (w_paymentId a)) (w_rawPayload a));
        _ ← insert_order_status_event
              (StatusEvent (o_id order) order_placed
                 "QRPH payment confirmed via PayMongo webhook." None);
        mret (WebhookResult false)
    end.

(** ** Customer view of an order *)

Record ui_item := UiItem {
  ui_productId : string;
  ui_name : string;
  ui_price : Q;
  ui_qty : Z;
  ui_img : string
}.

Record ui_order := UiOrder {
  ui_id : string;
  ui_customerName : string;
  ui_contact : string;
  ui_address : string;
  ui_paymentMethod : string;
  ui_subtotal : Q;
  ui_deliveryFee : Q;
  ui_total : Q;
  ui_status : string;
  ui_items : list ui_item;
  ui_status_events : list status_event
}.

Definition toUiOrder (o : order) (items : list order_item)
    (events : list status_event) : ui_order :=
  UiOrder (o_order_code o) (o_customer_name o) (o_contact o) (o_address o)
          (if Js.truthy (o_payment_method o) then o_payment_method o else "QRPH")
          (o_subtotal o) (o_delivery_fee o) (o_total o) (toUiStatus (o_status o))
          ((λ it, UiItem (i_sku it) (i_name it) (i_unit_price it) (i_qty it)
                         (i_image_url it)) <$> items)
          events.

(** The value list of an [in.(...)] filter as [escapeCsvValues] writes it. *)
Definition escapeCsvValues (values : list string) : list string :=
  Js.removeQuotes <$> values.

Definition in_filter (values : list string) (v : string) : bool :=
  bool_decide (v ∈ escapeCsvValues values).

(** [order=created_at.desc] is the reverse of the insertion order. *)
Definition listOrdersForUserId (userId : string) : M (list ui_order) :=
  if negb (Js.truthy userId) then mret []
  else
    found ← select_orders (λ o, bool_decide (o_user_id o = userId));
    let orders := reverse found in
    match orders with
    | [] => mret []
    | _ =>
        let orderIds := o_id <$> orders in
        items ← select_order_items (λ i, in_filter orderIds (i_order_id i));
        events ← select_order_status_events (λ e, in_filter orderIds (e_order_id e));
        mret ((λ o, toUiOrder o
                      (filter (λ i, i_order_id i = o_id o) items)
                      (filter (λ e, e_order_id e = o_id o) events)) <$> orders)
    end.

Definition getOrderForUserId (orderCode userId : string) : M (option ui_order) :=
  orders ← listOrdersForUserId userId;
  mret (head (filter (λ o, ui_id o = orderCode) orders)).

(** ** Order builder *)

Record cart_item := CartItem {
  ci_productId : string;
  ci_qty : Z;
  ci_name : string;
  ci_price : Q;
  ci_img : string
}.

Record order_payload := OrderPayload {
  pl_customerName : string;
  pl_contact : string;
  pl_address : string;
  pl_paymentMethod : string;
  pl_items : list cart_item
}.

(** A JavaScript [Map] keeps its keys in insertion order: [map_set] on a key
    already present replaces the value in place. *)
Fixpoint map_get (k : string) (m : list (string * Z)) : option Z :=
  match m with
  | [] => None
  | (k', v) :: r => if decide (k' = k) then Some v else map_get k r
  end.

Fixpoint map_set (k : string) (v : Z) (m : list (string * Z)) : list (string * Z) :=
  match m with
  | [] => [(k, v)]
  | (k', v') :: r =>
      if decide (k' = k) then (k, v) :: r else (k', v') :: map_set k v r
  end.

(** The first loop of [createOrder], from the accumulated [skuQty]. *)
Fixpoint merge_items (items : list cart_item) (skuQty : list (string * Z))
  : outcome (list (string * Z)) :=
  match items with
  | [] => Ok skuQty
  | item :: rest =>
      let sku := Js.trim (ci_productId item) in
      let qty := ci_qty item in
      if negb (Js.truthy sku) || (qty <=? 0)
      then Throw (plain_error "Invalid order item.")
      else merge_items rest (map_set sku (default 0 (map_get sku skuQty) + qty) skuQty)
  end.

Definition getProductsBySkus (skus : list string) : M (list product) :=
  match skus with
  | [] => mret []
  | _ => select_products (λ p, in_filter skus (p_sku p))
  end.

(** [new Map(products.map(p => [p.sku, p]))]: a later row replaces an earlier
    one of the same SKU. *)
Definition productBySku (ps : list product) : gmap string product :=
  foldl (λ m p, <[p_sku p := p]> m) ∅ ps.

Record item_row := ItemRow {
  r_product_id : string;
  r_sku : string;
  r_name : string;
  r_category : string;
  r_unit : string;
  r_image_url : string;
  r_unit_price : Q;
  r_qty : Z;
  r_line_total : Q
}.

Definition with_order_id (orderId : string) (r : item_row) : order_item :=
  OrderItem orderId (Some (r_product_id r)) (r_sku r) (r_name r) (r_category r)
            (r_unit r) (r_image_url r) (r_unit_price r) (r_qty r) (r_line_total r).

(** The second loop of [createOrder], from the accumulated rows and subtotal. *)
Fixpoint price_items (bySku : gmap string product) (entries : list (string * Z))
    (itemRows : list item_row) (subtotal : Q) : outcome (list item_row * Q) :=
  match entries with
  | [] => Ok (itemRows, subtotal)
  | (sku, qty) :: rest =>
      match bySku !! sku with
      | None => Throw (plain_error (sku +:+ " is inactive."))
      | Some p =>
          if negb (p_is_active p)
          then Throw (plain_error (sku +:+ " is inactive."))
          else if p_stock_cases p <? qty
          then Throw (plain_error (p_name p +:+ " has insufficient stock."))
          else
            let unitPrice := p_price p in
            let lineTotal := (unitPrice * inject_Z qty)%Q in
            price_items bySku rest
              (itemRows ++ [ItemRow (p_id p) (p_sku p) (p_name p) (p_category p)
                              (p_unit p) (p_image_url p) unitPrice qty lineTotal])
              (subtotal + lineTotal)%Q
      end
  end.

Definition deliveryFee (subtotal : Q) : Q :=
  if Qle_bool 800 subtotal then 0%Q else 60%Q.

(** [Math.round(Number(amount || 0) * 100)]. *)
Definition toCentavos (amount : Q) : Z := Qfloor (Qplus (Qmult amount (100 # 1)) (1 # 2)).

Record line_item := LineItem {
  li_currency : string;
  li_amount : Z;
  li_name : string;
  li_quantity : Z
}.

Record checkout_request := CheckoutRequest {
  cr_orderCode : string;
  cr_lineItems : list line_item;
  cr_successUrl : string;
  cr_cancelUrl : string
}.

(** What [createOrder] reads of the session the gateway answers with. *)
Record checkout_session := CheckoutSession {
  cs_id : option string;
  cs_checkout_url : option string
}.

Record create_result := CreateResult {
  cr_order : option ui_order;
  cr_checkoutUrl : option string
}.

Definition set_order_session (sid : string) (o : order) : order :=
  Order (o_id o) (o_order_code o) (o_user_id o) (o_customer_name o)
        (o_contact o) (o_address o) (o_subtotal o) (o_delivery_fee o)
        (o_total o) (o_status o) (o_payment_status o) (o_payment_provider o)
        (o_payment_method o) (o_paid_at o) (Some sid) (o_paymongo_payment_id o).

Definition set_payment_session (sid : string) (p : payment) : payment :=
  Payment (pay_order_id p) (pay_provider p) (pay_status p) (pay_amount p)
          (pay_currency p) (pay_provider_event_id p) (Some sid)
          (pay_provider_payment_id p) (pay_raw_payload p).

Section OrderBuilder.
(** The base address of the deployment, the URI encoder of the runtime and
    the answer of the payment gateway to a checkout-session request
    ([data.data || null], or the error it raises). *)
Variable APP_BASE_URL : string.
Variable encodeURIComponent : string → string.
Variable paymongoCreateCheckoutSession :
  checkout_request → outcome (option checkout_session).

Definition required_fields_present (authProfile : option profile)
    (customerName contact address : string) (items : list cart_item) : bool :=
  match authProfile with
  | Some pr => Js.truthy (pr_user_id pr)
  | None => false
  end
  && Js.truthy customerName && Js.truthy contact && Js.truthy address
  && negb (bool_decide (items = [])).

Definition initial_status (useQrph : bool) : status :=
  if useQrph then pending_payment else order_placed.

(** [orderCode] is the value of [makeOrderCode()], [newId] the identifier
    the store gives the inserted order. *)
Definition createOrder (orderCode newId : string) (payload : order_payload)
    (authProfile : option profile) : M create_result :=
  let customerName := Js.trim (pl_customerName payload) in
  let contact := Js.trim (pl_contact payload) in
  let address := Js.trim (pl_address payload) in
  let paymentMethod :=
    Js.trim (if Js.truthy (pl_paymentMethod payload)
             then pl_paymentMethod payload else "QRPH") in
  let items := pl_items payload in
  if negb (required_fields_present authProfile customerName contact address items)
  then throw (plain_error "Missing required order fields.")
  else
    let user_id := from_option pr_user_id "" authProfile in
    skuQty ← liftO (merge_items items []);
    products ← getProductsBySkus (skuQty.*1);
    if negb (bool_decide (length products = length skuQty))
    then throw (plain_error "Some products were not found in Supabase.")
    else
      '(itemRows, subtotal) ← liftO (price_items (productBySku products) skuQty [] 0%Q);
      let fee := deliveryFee subtotal in
      let total := (subtotal + fee)%Q in
      let useQrph := isQrphMethod paymentMethod in
      order ← insert_order
        (Order newId orderCode user_id customerName contact address
           subtotal fee total (initial_status useQrph) pay_pending
           (if useQrph then Some "paymongo" else None) paymentMethod
           None None None);
      _ ← insert_order_items (with_order_id (o_id order) <$> itemRows);
      _ ← insert_order_status_event
            (StatusEvent (o_id order) (initial_status useQrph)
               (if useQrph then "Order created. Awaiting QRPH payment."
                else "Order created from web checkout.")
               None);
      _ ← insert_payment
            (Payment (o_id order) "paymongo" pay_pending total "PHP"
                     None None None None);
      checkoutUrl ←
        (if useQrph
         then
           checkout ← liftO (paymongoCreateCheckoutSession
             (CheckoutRequest (o_order_code order)
                ((λ it, LineItem "PHP" (toCentavos (r_unit_price it))
                                 (r_name it) (r_qty it)) <$> itemRows)
                (APP_BASE_URL +:+ "/customer/customer-orders.html?paid="
                   +:+ encodeURIComponent (o_order_code order))
                (APP_BASE_URL +:+ "/customer/customer-cart.html?cancelled="
                   +:+ encodeURIComponent (o_order_code order))));
           let checkoutUrl := or_null (checkout ≫= cs_checkout_url) in
           let checkoutSessionId := or_null (checkout ≫= cs_id) in
           _ ← match checkoutSessionId with
               | Some sid =>
                   _ ← patch_orders (has_code (o_order_code order))
                         (set_order_session sid);
                   patch_payments
                     (λ p, bool_decide (pay_order_id p = o_id order))
                     (set_payment_session sid)
               | None => mret ()
               end;
           mret checkoutUrl
         else mret None);
      uiOrder ← getOrderForUserId (o_order_code order) user_id;
      mret (CreateResult uiOrder checkoutUrl).
End OrderBuilder.

(** ** Client cart totals ([app.js], [panel-data.js]) *)

Record client_product := ClientProduct { cp_id : string; cp_price : Q }.
Record client_cart_line := ClientCartLine { cl_productId : string; cl_qty : Z }.

Definition clientDeliveryFee (subtotal : Q) : Q :=
  if Qle_bool 800 subtotal then 0%Q
  else if Qeq_bool subtotal 0 then 0%Q else 60%Q.

(** [computeCartTotals]: the lines of unknown products are dropped; the
    result is (subtotal, deliveryFee, total). *)
Definition computeCartTotals (catalog : list client_product)
    (cart : list client_cart_line) : Q * Q * Q :=
  let lines :=
    omap (λ ci, (λ p, (cp_price p * inject_Z (cl_qty ci))%Q)
                  <$> head (filter (λ x, cp_id x = cl_productId ci) catalog))
         cart in
  let subtotal := foldl Qplus 0%Q lines in
  let fee := clientDeliveryFee subtotal in
  (subtotal, fee, (subtotal + fee)%Q).

(** ** Vocabulary of the properties *)

(** The order a code designates: the first row carrying it. *)
Definition order_by_code (orderCode : string) (st : store) : option order :=
  head (filter (λ o, has_code orderCode o = true) (orders st)).

(** The chain of the lifecycle: the immediate successor of a status. *)
Definition successor (s : status) : option status :=
  match s with
  | pending_payment => Some order_placed
  | order_placed => Some preparing
  | preparing => Some in_transit
  | in_transit => Some out_for_delivery
  | out_for_delivery => Some delivered
  | delivered => None
  | cancelled => None
  end.

Definition terminal (s : status) : bool :=
  bool_decide (s = delivered) || bool_decide (s = cancelled).

(** A move along the chain, or a cancellation of an order still under way. *)
Definition chain_step (current next : status) : Prop :=
  successor current = Some next ∨ (next = cancelled ∧ terminal current = false).

Definition statuses_of (orderCode : string) (st : store) : list status :=
  o_status <$> filter (λ o, has_code orderCode o = true) (orders st).

(** The stock the store reports for a product identifier: that of the first
    row carrying it. *)
Definition stock_of (pid : string) (st : store) : option Z :=
  p_stock_cases <$> head (filter (λ p, has_product_id pid p = true) (products st)).

(** The cases an order asks of a product: the quantities of its item rows
    that name the product and that [deductStockForOrder] keeps. *)
Definition ordered_qty (orderId pid : string) (st : store) : Z :=
  foldr Z.add 0
    (i_qty <$> filter (λ i, i_product_id i = Some pid)
                 (filter (λ i, valid_item i = true)
                    (filter (λ i, bool_decide (i_order_id i = orderId) = true)
                       (order_items st)))).

(** Whether some payment row already records a gateway event identifier. *)
Definition event_recorded (eventId : string) (st : store) : bool :=
  bool_decide
    (filter (λ p, eqb_opt (pay_provider_event_id p) eventId = true) (payments st)
     ≠ []).

(** Whether the audit log of an order holds the stock-deduction marker. *)
Definition stock_marker_present (orderId : string) (st : store) : bool :=
  bool_decide
    (filter (λ e, bool_decide (e_order_id e = orderId)
                  && bool_decide (e_note e = STOCK_MARKER_NOTE) = true)
       (order_status_events st)
     ≠ []).

Definition order_by_session (sid : string) (st : store) : option order :=
  head (filter (λ o, eqb_opt (o_paymongo_checkout_session_id o) sid = true)
          (orders st)).

(** The order a webhook notification designates: by code when the code is
    given and known, else by checkout session. *)
Definition resolved_order (a : webhook_args) (st : store) : option order :=
  match (if truthy_opt (w_orderCode a)
         then order_by_code (default "" (w_orderCode a)) st else None) with
  | Some o => Some o
  | None =>
      match w_checkoutSessionId a with
      | Some sid => if Js.truthy sid then order_by_session sid st else None
      | None => None
      end
  end.

(** What an observer of the lifecycle reads of an order. *)
Definition lifecycle_view (o : order) : string * status * payment_status :=
  (o_id o, o_status o, o_payment_status o).

(** *** The stages of a payment confirmation *)

(** The store after the order row has been marked paid. *)
Definition paid_orders (now : string) (a : webhook_args) (order : order)
    (st : store) : store :=
  set_orders
    (patch_rows (λ o, bool_decide (o_id o = o_id order))
       (mark_paid now
          (js_or (w_checkoutSessionId a)
             (or_null (o_paymongo_checkout_session_id order)))
          (or_null (w_paymentId a)))
       (orders st))
    st.

(** The store after the guarded stock deduction. *)
Definition stock_deducted (order : order) (st : store) : store :=
  if stock_marker_present (o_id order) st then st
  else
    set_order_status_events
      (order_status_events st ++
         [StatusEvent (o_id order) order_placed STOCK_MARKER_NOTE None])
      (set_products (products (deductStockForOrder (o_id order) st).2) st).

(** The store after the payment rows of the order have been updated and the
    confirmation logged. *)
Definition payment_recorded (a : webhook_args) (order : order) (st : store)
  : store :=
  set_order_status_events
    (order_status_events st ++
       [StatusEvent (o_id order) order_placed
          "QRPH payment confirmed via PayMongo webhook." None])
    (set_payments
       (patch_rows (λ p, bool_decide (pay_order_id p = o_id order))
          (record_event (w_eventId a) (or_null (w_checkoutSessionId a))
             (or_null (w_paymentId a)) (w_rawPayload a))
          (payments st))
       st).

(** *** The two phases of [createOrder] *)

(** The checks and the pricing of [createOrder], which read the store and
    write nothing: the merged cart, the products found for it and the rows
    and subtotal computed from them. *)
Definition priced_cart (payload : order_payload) (st : store)
  : outcome (list item_row * Q) :=
  match merge_items (pl_items payload) [] with
  | Throw e => Throw e
  | Ok skuQty =>
      let found := filter (λ p, in_filter (skuQty.*1) (p_sku p) = true) (products st) in
      if negb (bool_decide (length found = length skuQty))
      then Throw (plain_error "Some products were not found in Supabase.")
      else price_items (productBySku found) skuQty [] 0%Q
  end.

Definition effective_payment_method (payload : order_payload) : string :=
  Js.trim (if Js.truthy (pl_paymentMethod payload)
           then pl_paymentMethod payload else "QRPH").

(** The order row [createOrder] inserts for a priced cart. *)
Definition new_order (orderCode newId : string) (payload : order_payload)
    (authProfile : option profile) (subtotal : Q) : order :=
  Order newId orderCode (from_option pr_user_id "" authProfile)
        (Js.trim (pl_customerName payload)) (Js.trim (pl_contact payload))
        (Js.trim (pl_address payload))
        subtotal (deliveryFee subtotal) (subtotal + deliveryFee subtotal)%Q
        (initial_status (isQrphMethod (effective_payment_method payload)))
        pay_pending
        (if isQrphMethod (effective_payment_method payload)
         then Some "paymongo" else None)
        (effective_payment_method payload) None None None.

(** The store once the four inserts of [createOrder] are done. *)
Definition order_written (orderCode newId : string) (payload : order_payload)
    (authProfile : option profile) (itemRows : list item_row) (subtotal : Q)
    (st : store) : store :=
  let o := new_order orderCode newId payload authProfile subtotal in
  Store (products st)
        (orders st ++ [o])
        (order_items st ++ (with_order_id newId <$> itemRows))
        (order_status_events st ++
           [StatusEvent newId (o_status o)
              (if isQrphMethod (effective_payment_method payload)
               then "Order created. Awaiting QRPH payment."
               else "Order created from web checkout.")
              None])
        (payments st ++
           [Payment newId "paymongo" pay_pending (o_total o) "PHP"
                    None None None None]).

(** The store once the checkout session, if the gateway named one, is
    recorded on the order and its payment rows. *)
Definition session_recorded (orderCode newId : string)
    (checkoutSessionId : option string) (st : store) : store :=
  match checkoutSessionId with
  | Some sid =>
      set_payments
        (patch_rows (λ p, bool_decide (pay_order_id p = newId))
           (set_payment_session sid) (payments st))
        (set_orders
           (patch_rows (has_code orderCode) (set_order_session sid) (orders st))
           st)
  | None => st
  end.

(** The cases a cart asks of a SKU. *)
Definition requested_qty (items : list cart_item) (sku : string) : Z :=
  foldr Z.add 0
    (ci_qty <$> filter (λ item, Js.trim (ci_productId item) = sku) items).

(** What the final read of [createOrder] returns. *)
Definition read_back (orderCode userId : string) (st : store) : option ui_order :=
  match (getOrderForUserId orderCode userId st).1 with
  | Ok v => v
  | Throw _ => None
  end.

(** The request [createOrder] sends to the gateway for a QRPH order. *)
Definition checkout_request_for (APP_BASE_URL : string)
    (encodeURIComponent : string → string) (orderCode : string)
    (itemRows : list item_row) : checkout_request :=
  CheckoutRequest orderCode
    ((λ it, LineItem "PHP" (toCentavos (r_unit_price it)) (r_name it) (r_qty it))
       <$> itemRows)
    (APP_BASE_URL +:+ "/customer/customer-orders.html?paid="
       +:+ encodeURIComponent orderCode)
    (APP_BASE_URL +:+ "/customer/customer-cart.html?cancelled="
       +:+ encodeURIComponent orderCode).

(** An item row prices a line of the merged cart from a product of the
    catalogue: it snapshots the product of that SKU, which is active and has
    the cases asked for. *)
Definition priced_line (catalog : list product) (entry : string * Z)
    (r : item_row) : Prop :=
  r_sku r = entry.1 ∧ r_qty r = entry.2
  ∧ ∃ p, p ∈ catalog ∧ p_sku p = entry.1 ∧ p_is_active p = true
         ∧ entry.2 ≤ p_stock_cases p
         ∧ r_product_id r = p_id p ∧ r_name r = p_name p
         ∧ r_unit_price r = p_price p
         ∧ r_line_total r = (p_price p * inject_Z entry.2)%Q.

(** The sum of unit price times quantity over item rows, in row order. *)
Definition sum_lines (rows : list item_row) : Q :=
  foldl (λ acc r, (acc + r_unit_price r * inject_Z (r_qty r))%Q) 0%Q rows.

Definition valid_line (item : cart_item) : Prop :=
  Js.trim (ci_productId item) ≠ "" ∧ 0 < ci_qty item.

(** The sum of unit price times quantity over stored item rows. *)
Definition items_subtotal (rows : list order_item) : Q :=
  foldl (λ acc it, (acc + i_unit_price it * inject_Z (i_qty it))%Q) 0%Q rows.

(** The amounts stored on an order. *)
Definition amounts (o : order) : string * Q * Q * Q :=
  (o_id o, o_subtotal o, o_delivery_fee o, o_total o).

(** Two payloads that differ at most in what the client says of names,
    prices and images of the lines. *)
Definition same_request (a b : order_payload) : Prop :=
  pl_customerName a = pl_customerName b
  ∧ pl_contact a = pl_contact b
  ∧ pl_address a = pl_address b
  ∧ pl_paymentMethod a = pl_paymentMethod b
  ∧ (λ it, (ci_productId it, ci_qty it)) <$> pl_items a
    = (λ it, (ci_productId it, ci_qty it)) <$> pl_items b.

(** A request that fails one of the checks of the order builder. *)
Definition invalid_request (payload : order_payload)
    (authProfile : option profile) (st : store) : Prop :=
  let items := pl_items payload in
  from_option pr_user_id "" authProfile = ""
  ∨ Js.trim (pl_customerName payload) = ""
  ∨ Js.trim (pl_contact payload) = ""
  ∨ Js.trim (pl_address payload) = ""
  ∨ items = []
  ∨ (∃ item, item ∈ items
             ∧ (Js.trim (ci_productId item) = "" ∨ ci_qty item ≤ 0))
  ∨ (∃ item, item ∈ items
             ∧ ∀ p, p ∈ products st → p_sku p ≠ Js.trim (ci_productId item))
  ∨ (∃ item p, item ∈ items ∧ p ∈ products st
               ∧ p_sku p = Js.trim (ci_productId item)
               ∧ p_is_active p = false)
  ∨ (∃ item p, item ∈ items ∧ p ∈ products st
               ∧ p_sku p = Js.trim (ci_productId item)
               ∧ p_stock_cases p
                 < requested_qty items (Js.trim (ci_productId item))).

(** A stored item row snapshots a line of the merged cart from a product of
    the catalogue. *)
Definition stored_line (catalog : list product) (entry : string * Z)
    (it : order_item) : Prop :=
  i_sku it = entry.1 ∧ i_qty it = entry.2
  ∧ ∃ p, p ∈ catalog ∧ p_sku p = entry.1
         ∧ i_product_id it = Some (p_id p)
         ∧ i_unit_price it = p_price p
         ∧ i_line_total it = (p_price p * inject_Z entry.2)%Q.

(** The claim that status updates follow the chain. *)
Definition chain_enforced : Prop :=
  ∀ st orderCode input actor r st' o o',
    updateOrderStatus orderCode input actor st = (Ok r, st') →
    order_by_code orderCode st = Some o →
    order_by_code orderCode st' = Some o' →
    chain_step (o_status o) (o_status o').

(** ** Sample data *)

Module Sample.
Definition cola : product :=
  Product "pid1" "P001" "Cola" "drinks" "case" 55 10 "cola.png" true.
Definition sampler : product :=
  Product "pid0" "FREE" "Sampler" "promo" "case" 0 10 "sampler.png" true.
Definition catalog : store := Store [cola; sampler] [] [] [] [].

Definition customer : profile := Profile "u1" "customer".
Definition staff : profile := Profile "u9" "staff".

Definition qr_order : order :=
  Order "o1" "ORD-1" "u1" "Ana" "0917" "Manila" 110 60 170
        pending_payment pay_pending (Some "paymongo") "QRPH"
        None (Some "cs_1") None.
Definition qr_item : order_item :=
  OrderItem "o1" (Some "pid1") "P001" "Cola" "drinks" "case" "cola.png"
            55 2 110.
Definition qr_payment : payment :=
  Payment "o1" "paymongo" pay_pending 170 "PHP" None (Some "cs_1") None None.
Definition awaiting_payment : store :=
  Store [cola; sampler] [qr_order] [qr_item]
        [StatusEvent "o1" pending_payment
           "Order created. Awaiting QRPH payment." None]
        [qr_payment].

Definition cod_order : order :=
  Order "o2" "ORD-2" "u1" "Ana" "0917" "Manila" 110 60 170
        order_placed pay_pending None "Cash on Delivery"
        None None None.
Definition cash_on_delivery : store :=
  Store [cola; sampler] [cod_order]
        [OrderItem "o2" (Some "pid1") "P001" "Cola" "drinks" "case"
                   "cola.png" 55 2 110]
        [StatusEvent "o2" order_placed "Order created from web checkout." None]
        [Payment "o2" "paymongo" pay_pending 170 "PHP" None None None None].

Definition first_event : webhook_args :=
  WebhookArgs (Some "ORD-1") (Some "cs_1") (Some "pay_1") "evt_1" "{}".
Definition rekeyed_event : webhook_args :=
  WebhookArgs (Some "ORD-1") (Some "cs_1") (Some "pay_1") "evt_2" "{}".

(** The QRPH order once paid (event [evt_1]) and moved on to [in_transit]. *)
Definition shipped_order : order :=
  Order "o1" "ORD-1" "u1" "Ana" "0917" "Manila" 110 60 170
        in_transit pay_paid (Some "paymongo") "QRPH"
        (Some "2025-04-14T08:00:00.000Z") (Some "cs_1") (Some "pay_1").
Definition in_transit_store : store :=
  Store [set_stock_cases 8 cola; sampler] [shipped_order] [qr_item]
        [StatusEvent "o1" pending_payment
           "Order created. Awaiting QRPH payment." None;
         StatusEvent "o1" order_placed STOCK_MARKER_NOTE None;
         StatusEvent "o1" order_placed
           "QRPH payment confirmed via PayMongo webhook." None;
         StatusEvent "o1" in_transit
           "Status updated to In Transit by staff." (Some "u9")]
        [Payment "o1" "paymongo" pay_paid 170 "PHP" (Some "evt_1")
                 (Some "cs_1") (Some "pay_1") (Some "{}")].

Definition gateway (request : checkout_request)
  : outcome (option checkout_session) :=
  Ok (Some (CheckoutSession (Some "cs_1")
              (Some "https://checkout.example/cs_1"))).

Definition cart_of (method sku : string) (qty : Z) : order_payload :=
  OrderPayload "Ana" "0917" "Manila" method
               [CartItem sku qty "Cola" 1 "cola.png"].
Definition cash_cart : order_payload := cart_of "Cash on Delivery" "P001" 2.
Definition qr_cart : order_payload := cart_of "QRPH" "P001" 2.
Definition free_cart : order_payload := cart_of "Cash on Delivery" "FREE" 1.
Definition greedy_cart : order_payload := cart_of "Cash on Delivery" "P001" 11.

(** [createOrder] for the sample deployment. *)
Definition place (orderCode newId : string) (payload : order_payload)
  : M create_result :=
  createOrder "https://shop.example" id gateway orderCode newId payload
              (Some customer).


(** Two orders for which [makeOrderCode] drew the same code: a cash order
    and, after it, a QRPH order, both placed through [createOrder]. *)
Definition shared_code : store :=
  (place "ORD-X" "o2" qr_cart (place "ORD-X" "o1" cash_cart catalog).2).2.
End Sample.

(** * Further functions of the server and of the client pages *)

(** ** More string helpers *)

Module JsText.

(** [l.join(sep)]. *)
Fixpoint join (sep : string) (l : list string) : string :=
  match l with
  | [] => ""
  | [x] => x
  | x :: r => x +:+ sep +:+ join sep r
  end.

(** [s.slice(n)] for [n >= 0]. *)
Fixpoint slice_from (n : nat) (s : string) : string :=
  match n, s with
  | O, _ => s
  | S n', String _ r => slice_from n' r
  | S _, "" => ""
  end.

Definition quote_char : ascii := "034"%char.
Definition quote : string := String quote_char "".

Fixpoint count_char (c : ascii) (s : string) : nat :=
  match s with
  | "" => O
  | String a r => (if decide (a = c) then 1 else 0)%nat + count_char c r
  end.

Fixpoint has_char (P : ascii → bool) (s : string) : bool :=
  match s with
  | "" => false
  | String a r => P a || has_char P r
  end.

End JsText.

(** [escapeCsvValues] as the text it returns: every value stripped of its
    double quotes, wrapped in double quotes, the values joined by commas. *)
Definition escapeCsvValuesText (values : list string) : string :=
  JsText.join ","
    ((λ v, JsText.quote +:+ Js.removeQuotes v +:+ JsText.quote) <$> values).

(** ** Rewards *)

Record rewards := Rewards { totalSpent : Q; points : Z }.

(** [Math.floor(Number(o.total || 0) / 100) * 10]. *)
Definition order_points (total : Q) : Z := Qfloor (total / 100) * 10.

Definition computeRewardsForOrders (orders : list ui_order) : rewards :=
  Rewards (foldl (λ sum o, (sum + ui_total o)%Q) 0%Q orders)
          (foldl (λ sum o, sum + order_points (ui_total o)) 0 orders).

(** ** Stable sorting

    [Array.prototype.sort] with the comparator [(a, b) => key(a) - key(b)] is
    a stable sort by [key]; its result is the one of inserting the elements,
    last first, each before the first element whose key is not smaller. *)

Fixpoint insert_by {A} (key : A → Z) (x : A) (l : list A) : list A :=
  match l with
  | [] => [x]
  | y :: r => if key x <=? key y then x :: l else y :: insert_by key x r
  end.

Definition sort_by {A} (key : A → Z) (l : list A) : list A :=
  foldr (insert_by key) [] l.

(** ** Catalogue listing and the inventory panel *)

Record listed_product := ListedProduct {
  lp_id : string;
  lp_dbId : string;
  lp_sku : string;
  lp_name : string;
  lp_category : string;
  lp_unit : string;
  lp_price : Q;
  lp_stockCases : Z;
  lp_image_url : string
}.

Definition listed_of (r : product) : listed_product :=
  ListedProduct (p_sku r) (p_id r) (p_sku r) (p_name r) (p_category r)
                (p_unit r) (p_price r) (p_stock_cases r) (p_image_url r).

Definition stockStatus (stockCases : Z) : string :=
  if stockCases <=? 0 then "Out of Stock"
  else if stockCases <=? 10 then "Low Stock"
  else "In Stock".

Record inventory_row := InventoryRow {
  ir_product : listed_product;
  ir_status : string
}.

Record panel_inventory := PanelInventory {
  inventory : list inventory_row;
  lowStock : list inventory_row
}.

Record detailed_order := DetailedOrder {
  do_view : ui_order;
  do_userId : string;
  do_paymentStatus : payment_status;
  do_profile : option profile
}.

Record dashboard_kpis := DashboardKpis {
  k_totalSales : Q;
  k_transactions : nat;
  k_bestSeller : string;
  k_lowStockCount : nat;
  k_outOfStockCount : nat
}.

Record panel_dashboard := PanelDashboard {
  recentOrders : list detailed_order;
  kpis : dashboard_kpis
}.

(** The sales per product name, a [Map] filled item by item. *)
Fixpoint tally (entries : list (string * Z)) (byProduct : list (string * Z))
  : list (string * Z) :=
  match entries with
  | [] => byProduct
  | (name, qty) :: rest =>
      tally rest (map_set name (default 0 (map_get name byProduct) + qty) byProduct)
  end.

(** The scan for the best seller, from the pair (bestSeller, bestQty). *)
Definition best_of (byProduct : list (string * Z)) : string * Z :=
  foldl (λ best entry, if best.2 <? entry.2 then entry else best)
        ("-", 0) byProduct.

Definition sold_lines (orders : list detailed_order) : list (string * Z) :=
  orders ≫= (λ o, (λ it, (ui_name it, ui_qty it)) <$> ui_items (do_view o)).

Definition bestSeller (orders : list detailed_order) : string :=
  (best_of (tally (sold_lines orders) [])).1.

(** The units sold under a product name over all the orders. *)
Definition units_sold (orders : list detailed_order) (name : string) : Z :=
  foldr Z.add 0 ((filter (λ e, e.1 = name) (sold_lines orders)).*2).

Section Panels.
(** The [profiles] table, which the functions modelled here only read, and
    the order in which the store returns rows for [order=name.asc]. *)
Variable profiles : list profile.
Variable order_by_name : list product → list product.

Definition listProducts : M (list listed_product) :=
  rows ← select_products p_is_active;
  mret (listed_of <$> order_by_name rows).

Definition getPanelInventory : M panel_inventory :=
  products ← listProducts;
  let inventory :=
    (λ p, InventoryRow p (stockStatus (lp_stockCases p))) <$> products in
  let lowStock :=
    sort_by (λ r, lp_stockCases (ir_product r))
      (filter (λ r, ir_status r ≠ "In Stock") inventory) in
  mret (PanelInventory inventory lowStock).

(** [new Map(profiles.map(p => [p.user_id, p])).get(id)]: the last profile of
    that user identifier. *)
Definition profile_of_user (userId : string) : option profile :=
  last (filter (λ p, pr_user_id p = userId) profiles).

Definition listAllOrdersDetailed : M (list detailed_order) :=
  found ← select_orders (λ _, true);
  let orders := reverse found in
  match orders with
  | [] => mret []
  | _ =>
      let orderIds := o_id <$> orders in
      items ← select_order_items (λ i, in_filter orderIds (i_order_id i));
      events ← select_order_status_events (λ e, in_filter orderIds (e_order_id e));
      mret ((λ o, DetailedOrder
                    (toUiOrder o
                       (filter (λ i, i_order_id i = o_id o) items)
                       (filter (λ e, e_order_id e = o_id o) events))
                    (o_user_id o) (o_payment_status o)
                    (profile_of_user (o_user_id o))) <$> orders)
  end.

Definition getPanelDashboard : M panel_dashboard :=
  orders ← listAllOrdersDetailed;
  products ← listProducts;
  let totalSales := foldl (λ sum o, (sum + ui_total (do_view o))%Q) 0%Q orders in
  let lowStockCount :=
    length (filter (λ p, 0 < lp_stockCases p ∧ lp_stockCases p ≤ 10) products) in
  let outOfStockCount :=
    length (filter (λ p, lp_stockCases p ≤ 0) products) in
  mret (PanelDashboard (take 8 orders)
          (DashboardKpis totalSales (length orders) (bestSeller orders)
                         lowStockCount outOfStockCount)).

Definition is_active_status (label : string) : bool :=
  bool_decide (label ∈ ["In Transit"; "Out for Delivery"; "Preparing"; "Order Placed"]).

Definition getPanelDelivery : M (option detailed_order) :=
  orders ← listAllOrdersDetailed;
  mret (match head (filter (λ o, is_active_status (ui_status (do_view o)) = true) orders) with
        | Some o => Some o
        | None => head orders
        end).

End Panels.

(** ** Access control *)

Definition getBearerToken (authorization : string) : string :=
  if negb (Js.startsWith "bearer " (Js.toLowerCase authorization)) then ""
  else Js.trim (JsText.slice_from 7 authorization).

Record auth_result := AuthResult {
  au_user : string;
  au_profile : profile;
  au_token : string
}.

Definition auth_error (msg : string) (code : Z) : error := Error msg (Some code).

Section AccessGate.
(** The [profiles] table and the answer of the identity service to an access
    token: the identifier of the user, or the message of the error
    [supabaseAuthUser] raises. *)
Variable profiles : list profile.
Variable auth_service : string → string + string.

Definition supabaseAuthUser (accessToken : string) : outcome string :=
  match auth_service accessToken with
  | inl userId => Ok userId
  | inr msg => Throw (plain_error msg)
  end.

Definition getProfileByUserId (userId : string) : option profile :=
  head (filter (λ p, pr_user_id p = userId) profiles).

Definition requireAuth (authorization : string) (allowedRoles : list string)
  : outcome auth_result :=
  let token := getBearerToken authorization in
  if negb (Js.truthy token) then Throw (auth_error "Missing bearer token" 401)
  else
    match supabaseAuthUser token with
    | Throw e => Throw e
    | Ok userId =>
        match getProfileByUserId userId with
        | None => Throw (auth_error "Profile not found" 403)
        | Some pr =>
            if negb (bool_decide (allowedRoles = []))
               && negb (bool_decide (pr_role pr ∈ allowedRoles))
            then Throw (auth_error "Forbidden" 403)
            else Ok (AuthResult userId pr token)
        end
    end.
End AccessGate.

(** ** JSON values of a webhook event *)

#[local] Unset Elimination Schemes.
Inductive json :=
  | JNull
  | JBool (b : bool)
  | JNum (q : Q)
  | JStr (s : string)
  | JArr (items : list json)
  | JObj (members : list (string * json)).
#[local] Set Elimination Schemes.

(** [v?.k]: the member of an object, the last one of that name; nothing for
    any other value. *)
Definition member (k : string) (v : option json) : option json :=
  match v with
  | Some (JObj members) => snd <$> last (filter (λ m, m.1 = k) members)
  | _ => None
  end.

Definition truthy_json (v : option json) : bool :=
  match v with
  | None => false
  | Some JNull => false
  | Some (JBool b) => b
  | Some (JNum q) => negb (Qeq_bool q 0)
  | Some (JStr s) => Js.truthy s
  | Some (JArr _) => true
  | Some (JObj _) => true
  end.

(** [a || b]. *)
Definition or_json (a b : option json) : option json :=
  if truthy_json a then a else b.

(** [Array.isArray(v) && v[0]]. *)
Definition first_of_array (v : option json) : option json :=
  match v with
  | Some (JArr items) => head items
  | _ => Some (JBool false)
  end.

(** [v === s] for a string literal [s]. *)
Definition is_text (v : option json) (s : string) : bool :=
  match v with
  | Some (JStr t) => bool_decide (t = s)
  | _ => false
  end.

Definition path (keys : list string) (v : option json) : option json :=
  foldl (λ acc k, member k acc) v keys.

(** ** Responses of the HTTP routes *)

Inductive response_body :=
  | BodyError (msg : string)
  | BodyStatusUpdated (order : option ui_order)
  | BodyCreated (result : create_result)
  | BodyReceived.

Record response := Response { res_status : Z; res_body : response_body }.

(** The handler of the server catches what a route throws and answers
    [Number(err.status || 500)] with the message. *)
Definition respond_error (e : error) : response :=
  Response (http_status e)
           (BodyError (if Js.truthy (message e) then message e
                       else "Internal server error")).

Definition serve (route : M response) (st : store) : response * store :=
  match route st with
  | (Ok r, st') => (r, st')
  | (Throw e, st') => (respond_error e, st')
  end.

Section Routes.
Variable profiles : list profile.
Variable auth_service : string → string + string.
Variable APP_BASE_URL : string.
Variable encodeURIComponent : string → string.
Variable paymongoCreateCheckoutSession :
  checkout_request → outcome (option checkout_session).
Variable PAYMONGO_WEBHOOK_SECRET : string.
Variable hmac_sha256_hex : string → string → string.
(** [JSON.parse], with the message of the error it raises, [JSON.stringify]
    and the string conversion of a value that is not a string. *)
Variable JSON_parse : string → json + string.
Variable JSON_stringify : json → string.
Variable js_String : json → string.

Definition text_of (v : json) : string :=
  match v with
  | JStr s => s
  | _ => js_String v
  end.

(** A value handed on as [v || null]. *)
Definition nullable_text (v : option json) : option string :=
  if truthy_json v then text_of <$> v else None.

(** A value handed on as [v || ""]. *)
Definition text_or_empty (v : option json) : string :=
  default "" (nullable_text v).

(** [PATCH /api/orders/:code/status], [orderCode] being the decoded segment
    of the path and [status] the member of that name of the JSON body. *)
Definition route_patch_order_status (authorization orderCode status : string)
  : M response :=
  auth ← liftO (requireAuth profiles auth_service authorization ["admin"; "staff"]);
  _ ← updateOrderStatus orderCode status (au_profile auth);
  owner ← select_orders (has_code orderCode);
  refreshed ← getOrderForUserId orderCode (from_option o_user_id "" (head owner));
  mret (Response 200 (BodyStatusUpdated refreshed)).

(** [POST /api/orders], [payload] being the JSON body. *)
Definition route_post_orders (orderCode newId : string) (authorization : string)
    (payload : order_payload) : M response :=
  auth ← liftO (requireAuth profiles auth_service authorization
                  ["customer"; "admin"; "staff"]);
  result ← createOrder APP_BASE_URL encodeURIComponent
             paymongoCreateCheckoutSession orderCode newId payload
             (Some (au_profile auth));
  mret (Response 201 (BodyCreated result)).

(** What the webhook route reads of an event. *)
Definition event_args (event : option json) : webhook_args :=
  let resource :=
    or_json (path ["data"; "attributes"; "data"] event)
      (or_json (path ["data"; "attributes"; "resource"] event)
         (or_json (member "resource" event) (Some (JObj [])))) in
  let resourceAttr := or_json (member "attributes" resource) (Some (JObj [])) in
  let metadata :=
    or_json (member "metadata" resourceAttr)
      (or_json (path ["checkout_session"; "metadata"] resourceAttr)
         (or_json (path ["checkout"; "metadata"] resourceAttr) (Some (JObj [])))) in
  let firstPayment :=
    or_json (first_of_array (member "payments" resourceAttr))
      (or_json (first_of_array
                  (path ["payment_intent"; "attributes"; "payments"] resourceAttr))
         (Some JNull)) in
  WebhookArgs
    (nullable_text (member "order_code" metadata))
    (nullable_text (member "id" resource))
    (nullable_text (or_json (member "id" firstPayment)
                      (path ["attributes"; "id"] firstPayment)))
    (text_or_empty (or_json (path ["data"; "id"] event) (member "id" event)))
    (from_option JSON_stringify "" event).

Definition event_type (event : option json) : option json :=
  or_json (path ["data"; "attributes"; "type"] event)
    (or_json (member "type" event) (Some (JStr ""))).

Definition is_paid_event (event : option json) : bool :=
  is_text (event_type event) "checkout_session.payment.paid"
  || is_text (event_type event) "payment.paid".

(** [POST /api/paymongo/webhook]. *)
Definition route_paymongo_webhook (now rawBody signature : string) : M response :=
  valid ← liftO (verifyPaymongoWebhookSignature PAYMONGO_WEBHOOK_SECRET
                   hmac_sha256_hex rawBody signature);
  if negb valid
  then mret (Response 401 (BodyError "Invalid PayMongo signature"))
  else
    event ← liftO (if Js.truthy rawBody
                   then match JSON_parse rawBody with
                        | inl v => Ok v
                        | inr msg => Throw (plain_error msg)
                        end
                   else Ok (JObj []));
    _ ← (if is_paid_event (Some event)
         then _ ← markOrderPaidFromWebhook now (event_args (Some event)); mret ()
         else mret ());
    mret (Response 200 BodyReceived).
End Routes.

(** ** The cart of the client pages ([app.js]) *)

Definition has_line (productId : string) (line : client_cart_line) : bool :=
  bool_decide (cl_productId line = productId).

(** [addToCart]: the quantity goes to the first line of the product, or to a
    new line at the end. *)
Fixpoint addToCart (cart : list client_cart_line) (productId : string) (qty : Z)
  : list client_cart_line :=
  match cart with
  | [] => [ClientCartLine productId qty]
  | line :: rest =>
      if has_line productId line
      then ClientCartLine (cl_productId line) (cl_qty line + qty) :: rest
      else line :: addToCart rest productId qty
  end.

Definition cartCount (cart : list client_cart_line) : Z :=
  foldl (λ a b, a + cl_qty b) 0 cart.

(** [updateQty] of the cart page: the first line of the product is changed
    by [delta] and dropped when nothing is left of it. *)
Fixpoint updateQty (cart : list client_cart_line) (pid : string) (delta : Z)
  : list client_cart_line :=
  match cart with
  | [] => []
  | line :: rest =>
      if has_line pid line
      then if cl_qty line + delta <=? 0 then rest
           else ClientCartLine (cl_productId line) (cl_qty line + delta) :: rest
      else line :: updateQty rest pid delta
  end.

Definition removeItem (cart : list client_cart_line) (pid : string)
  : list client_cart_line :=
  filter (λ i, cl_productId i ≠ pid) cart.

(** ** Status labels of the client pages ([panel-data.js]) *)

(** The seven entries of the literal of [normalizeStatusLabel]. *)
Definition label_of_status_name (status : string) : option string :=
  if decide (status = "pending_payment") then Some "Order Placed"
  else if decide (status = "order_placed") then Some "Order Placed"
  else if decide (status = "preparing") then Some "Preparing"
  else if decide (status = "in_transit") then Some "In Transit"
  else if decide (status = "out_for_delivery") then Some "Out for Delivery"
  else if decide (status = "delivered") then Some "Delivered"
  else if decide (status = "cancelled") then Some "Cancelled"
  else None.

(** [map[status] || status || "Order Placed"]; as in [uiStatusToDbStatus]
    the lookup also finds the members the literal inherits. *)
Definition normalizeStatusLabel (status : string) : or_member string :=
  match lookup_literal (label_of_status_name status) status with
  | Some v => v
  | None => Plain (if Js.truthy status then status else "Order Placed")
  end.

(** The six entries of the literal of [currentStatusIndex]. *)
Definition step_of_label (status : string) : option Z :=
  if decide (status = "Order Placed") then Some 0
  else if decide (status = "Preparing") then Some 1
  else if decide (status = "In Transit") then Some 2
  else if decide (status = "Out for Delivery") then Some 3
  else if decide (status = "Delivered") then Some 4
  else if decide (status = "Cancelled") then Some 0
  else None.

(** [map[status] ?? 0]: an inherited member is not nullish. *)
Definition currentStatusIndex (status : string) : or_member Z :=
  match lookup_literal (step_of_label status) status with
  | Some v => v
  | None => Plain 0
  end.

(** ** Vocabulary of the further properties *)

(** The orders of a user, newest first. *)
Definition orders_of_user (userId : string) (st : store) : list order :=
  reverse (filter (λ o, bool_decide (o_user_id o = userId) = true) (orders st)).

(** The view [listOrdersForUserId] builds of one of the orders [shown]. *)
Definition order_view (shown : list order) (st : store) (o : order) : ui_order :=
  toUiOrder o
    (filter (λ i, i_order_id i = o_id o)
       (filter (λ i, in_filter (o_id <$> shown) (i_order_id i) = true)
          (order_items st)))
    (filter (λ e, e_order_id e = o_id o)
       (filter (λ e, in_filter (o_id <$> shown) (e_order_id e) = true)
          (order_status_events st))).

(** What [toUiOrder] shows of an item row. *)
Definition shown_item (r : item_row) : ui_item :=
  UiItem (r_sku r) (r_name r) (r_unit_price r) (r_qty r) (r_image_url r).

(** An identifier without double quote, as the store issues them. *)
Definition quote_free (s : string) : Prop :=
  JsText.count_char JsText.quote_char s = 0%nat.

(** A notification of a paid checkout session, with the members the webhook
    route reads: the identifier of the event, its type and, as resource, the
    checkout session with its metadata and its payments. *)
Definition checkout_paid_event (eventId session orderCode paymentId : string)
  : json :=
  JObj [("data",
         JObj [("id", JStr eventId);
               ("attributes",
                JObj [("type", JStr "checkout_session.payment.paid");
                      ("data",
                       JObj [("id", JStr session);
                             ("attributes",
                              JObj [("metadata",
                                     JObj [("order_code", JStr orderCode)]);
                                    ("payments",
                                     JArr [JObj [("id", JStr paymentId)]])])])])])].

(** The view [listAllOrdersDetailed] builds of an order of the store. *)
Definition detailed_view (profiles : list profile) (st : store) (o : order)
  : detailed_order :=
  DetailedOrder (order_view (reverse (orders st)) st o) (o_user_id o)
    (o_payment_status o) (profile_of_user profiles (o_user_id o)).

(** The amount a checkout request asks for, in centavos, and a price in
    whole centavos. *)
Definition request_amount (request : checkout_request) : Z :=
  foldl (λ acc li, acc + li_amount li * li_quantity li) 0 (cr_lineItems request).

Definition whole_centavos (price : Q) : Prop := ∃ c : Z, price == c # 100.

(** A cart as the pages keep it: one line per product, every line with a
    positive quantity. *)
Definition well_formed_cart (cart : list client_cart_line) : Prop :=
  NoDup (cl_productId <$> cart) ∧ Forall (λ line, 0 < cl_qty line) cart.

(** The text of a signature header with the given fields, each a key and a
    value, and what makes a field plain: it holds neither of the two
    separators. *)
Definition signature_header (fields : list (string * string)) : string :=
  JsText.join "," ((λ kv, kv.1 +:+ "=" +:+ kv.2) <$> fields).

Definition plain_field (s : string) : Prop :=
  JsText.count_char ","%char s = 0%nat ∧ JsText.count_char "="%char s = 0%nat.

(** Whether a field leaves an entry in the parsed header: its key and its
    value are not empty, and its trimmed key is not [__proto__]. *)
Definition kept_field (kv : string * string) : bool :=
  Js.truthy kv.1 && Js.truthy kv.2
  && negb (bool_decide (Js.trim kv.1 = "__proto__")).

(** ** A sample front desk *)

Module Desk.
Definition people : list profile := [Sample.customer; Sample.staff].

(** The identity service knows two access tokens. *)
Definition identity (token : string) : string + string :=
  if decide (token = "tok-u1") then inl "u1"
  else if decide (token = "tok-u9") then inl "u9"
  else inr "Invalid token".

(** A payment gateway that is out of reach. *)
Definition gateway_down (request : checkout_request)
  : outcome (option checkout_session) :=
  Throw (plain_error "Failed to create PayMongo checkout session").

Definition post_orders (gateway : checkout_request → outcome (option checkout_session))
    (authorization : string) (payload : order_payload) : M response :=
  route_post_orders people identity "https://shop.example" id gateway
    "ORD-7" "o7" authorization payload.

(** A keyed digest that can be read, and the one event the sample parser
    knows. *)
Definition hmac (secret signed : string) : string :=
  "mac:" +:+ secret +:+ ":" +:+ signed.

Definition paid_event : json :=
  JObj [("data",
         JObj [("id", JStr "evt_1");
               ("attributes",
                JObj [("type", JStr "checkout_session.payment.paid");
                      ("data",
                       JObj [("id", JStr "cs_1");
                             ("attributes",
                              JObj [("metadata",
                                     JObj [("order_code", JStr "ORD-1")]);
                                    ("payments",
                                     JArr [JObj [("id", JStr "pay_1")]])])])])])].

Definition parse (raw : string) : json + string :=
  if decide (raw = "paid") then inl paid_event else inr "Unexpected token".

Definition webhook (rawBody signature : string) : M response :=
  route_paymongo_webhook "whsec_1" hmac parse (λ _, "{}") (λ _, "")
    "2025-04-14T08:00:00.000Z" rawBody signature.
End Desk.

(** * Properties *)

Ltac unfold_monad :=
  unfold mbind, M_bind, mret, M_ret, throw, liftO,
    select_products, select_orders, select_order_items,
    select_order_status_events, select_payments,
    patch_products, patch_orders, patch_payments,
    insert_order, insert_order_items, insert_order_status_event,
    insert_payment in *.

(** ** Status updates *)

Lemma updateOrderStatus_unfold orderCode input actor st :
  updateOrderStatus orderCode input actor st =
  match uiStatusToDbStatus input with
  | None => (Throw (plain_error "Invalid status."), st)
  | Some nextStatus =>
      match order_by_code orderCode st with
      | None => (Throw (plain_error "Order not found."), st)
      | Some order =>
          if unpaidQrph order && negb (allowed_before_payment nextStatus)
          then (Throw payment_not_confirmed, st)
          else
            (Ok (head (write_status nextStatus <$>
                         filter (λ o, has_code orderCode o = true) (orders st))),
             set_order_status_events
               (order_status_events st ++
                  [status_update_event order nextStatus actor])
               (set_orders
                  (patch_rows (has_code orderCode) (write_status nextStatus)
                     (orders st))
                  st))
      end
  end.
Proof.
  unfold updateOrderStatus, order_by_code.
  destruct (uiStatusToDbStatus input) as [nextStatus|]; [|done].
  unfold_monad.
  destruct (head _) as [order|]; [|done].
  by destruct (unpaidQrph order && negb (allowed_before_payment nextStatus)).
Qed.

(** A [PATCH] that names no status leaves the rows as they are. *)
Lemma patch_rows_member (f : order → bool) (key : string) (l : list order) :
  patch_rows f (write_status (Member key)) l = l.
Proof.
  unfold patch_rows. rewrite <- (list_fmap_id l) at 2.
  apply list_fmap_ext. intros i o _. simpl. by destruct (f o).
Qed.

Lemma uiStatusToDbStatus_cases (input : string) :
  uiStatusToDbStatus input
  = match status_of_label (Js.trim input) with
    | Some s => Some (Plain s)
    | None =>
        if bool_decide (Js.trim input ∈ object_prototype_members)
        then Some (Member (Js.trim input)) else None
    end.
Proof. done. Qed.

Lemma uiStatusToDbStatus_Member (input key : string) :
  uiStatusToDbStatus input = Some (Member key) →
  key = Js.trim input ∧ key ∈ object_prototype_members.
Proof.
  rewrite uiStatusToDbStatus_cases.
  destruct (status_of_label (Js.trim input)); [done|].
  case_bool_decide; [|done]. by intros [= <-].
Qed.

Lemma unpaidQrph_true o :
  isQrphMethod (o_payment_method o) = true →
  o_payment_status o ≠ pay_paid →
  unpaidQrph o = true.
Proof.
  intros Hq Hp. unfold unpaidQrph. rewrite Hq. simpl.
  by destruct (o_payment_status o).
Qed.

(** The guard of [updateOrderStatus] on the order the code designates, the
    first row carrying the code: when that order is paid through QRPH and its
    payment status is not [paid], no status other than [pending_payment] and
    [cancelled] is accepted: the call fails with the payment-not-confirmed
    error, which carries HTTP status 409 where the other two errors of the
    function are answered with 500, and the store is left as it was (no
    status write, no audit event). *)
Theorem updateOrderStatus_blocks_unpaid_qrph
    (st : store) (orderCode input : string) (actor : profile)
    (o : order) (target : status) :
  order_by_code orderCode st = Some o →
  isQrphMethod (o_payment_method o) = true →
  o_payment_status o ≠ pay_paid →
  uiStatusToDbStatus input = Some (Plain target) →
  target ≠ pending_payment →
  target ≠ cancelled →
  updateOrderStatus orderCode input actor st = (Throw payment_not_confirmed, st)
  ∧ http_status payment_not_confirmed = 409
  ∧ http_status (plain_error "Invalid status.") ≠ 409
  ∧ http_status (plain_error "Order not found.") ≠ 409
  ∧ orders (updateOrderStatus orderCode input actor st).2 = orders st
  ∧ order_status_events (updateOrderStatus orderCode input actor st).2
    = order_status_events st.
Proof.
  intros Ho Hq Hp Hin Hn1 Hn2.
  assert (Hrun : updateOrderStatus orderCode input actor st
                 = (Throw payment_not_confirmed, st)).
  { rewrite updateOrderStatus_unfold, Hin, Ho.
    rewrite (unpaidQrph_true o Hq Hp).
    unfold allowed_before_payment, allowedBeforePayment.
    rewrite !bool_decide_eq_false_2 by done. done. }
  rewrite Hrun. done.
Qed.

Lemma updateOrderStatus_blocks_unpaid_qrph_witness :
  updateOrderStatus "ORD-1" "Preparing" Sample.staff Sample.awaiting_payment
  = (Throw payment_not_confirmed, Sample.awaiting_payment)
  ∧ http_status payment_not_confirmed = 409
  ∧ http_status (plain_error "Invalid status.") ≠ 409
  ∧ http_status (plain_error "Order not found.") ≠ 409
  ∧ orders (updateOrderStatus "ORD-1" "Preparing" Sample.staff
              Sample.awaiting_payment).2
    = orders Sample.awaiting_payment
  ∧ order_status_events (updateOrderStatus "ORD-1" "Preparing" Sample.staff
                           Sample.awaiting_payment).2
    = order_status_events Sample.awaiting_payment.
Proof.
  apply (updateOrderStatus_blocks_unpaid_qrph Sample.awaiting_payment
           "ORD-1" "Preparing" Sample.staff Sample.qr_order preparing);
    vm_compute; congruence.
Defined.

(** C2, at the failing input.  Two orders placed through [createOrder] under
    the same order code, a cash order and then a QRPH order: the QRPH order
    is unpaid and in [pending_payment].  A status update to [Preparing]
    under that code reads the guard off the first row, the cash order, and
    writes to every row of the code: it succeeds, and the unpaid QRPH order
    is in [preparing], with one audit event more and no error of status
    409. *)
Theorem updateOrderStatus_moves_unpaid_qrph_sharing_code :
  (lifecycle_view <$> orders Sample.shared_code
   = [("o1", order_placed, pay_pending); ("o2", pending_payment, pay_pending)])
  ∧ (o_order_code <$> orders Sample.shared_code = ["ORD-X"; "ORD-X"])
  ∧ (isQrphMethod ∘ o_payment_method <$> orders Sample.shared_code
     = [false; true])
  ∧ ∃ r st',
      updateOrderStatus "ORD-X" "Preparing" Sample.staff Sample.shared_code
      = (Ok r, st')
      ∧ lifecycle_view <$> orders st'
        = [("o1", preparing, pay_pending); ("o2", preparing, pay_pending)]
      ∧ length (order_status_events st')
        = S (length (order_status_events Sample.shared_code)).
Proof.
  split_and!; [vm_compute; reflexivity..|].
  eexists _, _. split_and!; vm_compute; reflexivity.
Qed.

Lemma patch_rows_status (orderCode : string) (target : status) (os : list order) o' :
  o' ∈ patch_rows (has_code orderCode) (set_status target) os →
  (o_order_code o' = orderCode → o_status o' = target)
  ∧ (o_order_code o' ≠ orderCode → o' ∈ os).
Proof.
  unfold patch_rows. rewrite list_elem_of_fmap. intros (o0 & -> & Hin).
  unfold has_code. case_bool_decide as Hc; simpl.
  - split; [done|]. intros Hne. by destruct Hne.
  - split; [by intros ?|done].
Qed.

Lemma head_patch_by_code (orderCode : string) (target : status) (os : list order) :
  head (filter (λ o, has_code orderCode o = true)
          (patch_rows (has_code orderCode) (set_status target) os))
  = set_status target <$> head (filter (λ o, has_code orderCode o = true) os).
Proof.
  induction os as [|o0 os IH]; [done|].
  unfold patch_rows in *. rewrite fmap_cons, !filter_cons.
  destruct (has_code orderCode o0) eqn:Hc.
  - rewrite decide_True by done. rewrite decide_True by done. done.
  - rewrite decide_False by (rewrite Hc; done).
    rewrite decide_False by done. done.
Qed.

(** What a status update that names one of the seven statuses leaves in the
    store when the guard lets it through. *)
Lemma updateOrderStatus_accepted (st : store) (orderCode input : string)
    (actor : profile) (target : status) (o : order) :
  uiStatusToDbStatus input = Some (Plain target) →
  order_by_code orderCode st = Some o →
  unpaidQrph o && negb (allowedBeforePayment target) = false →
  updateOrderStatus orderCode input actor st
  = (Ok (head (set_status target <$>
                 filter (λ o, has_code orderCode o = true) (orders st))),
     set_order_status_events
       (order_status_events st ++
          [StatusEvent (o_id o) target
             ("Status updated to " +:+ toUiStatus target +:+ " by "
                +:+ pr_role actor +:+ ".")
             (Some (pr_user_id actor))])
       (set_orders
          (patch_rows (has_code orderCode) (set_status target) (orders st))
          st)).
Proof.
  intros Hin Ho Hg. rewrite updateOrderStatus_unfold, Hin, Ho. simpl.
  by rewrite Hg.
Qed.

(** C3, as the code has it.  For a request that names one of the seven
    statuses, by name or by label, and an order code that designates an
    order, the update is accepted or refused on the payment guard alone: it
    is refused, with the payment-not-confirmed error, exactly when the
    designated order is an unpaid QRPH order and the status named is neither
    [pending_payment] nor [cancelled]; these two are accepted on an unpaid
    QRPH order too.  The current status of the order is consulted nowhere:
    an accepted update persists the status named on every order carrying
    the code, whatever status they had, leaves the other orders as they
    were, and logs the status named. *)
Theorem updateOrderStatus_persists_requested_status
    (st : store) (orderCode input : string) (actor : profile)
    (target : status) (o : order) :
  uiStatusToDbStatus input = Some (Plain target) →
  order_by_code orderCode st = Some o →
  (unpaidQrph o = true ∧ target ≠ pending_payment ∧ target ≠ cancelled
   → updateOrderStatus orderCode input actor st
     = (Throw payment_not_confirmed, st))
  ∧ (unpaidQrph o = false ∨ target = pending_payment ∨ target = cancelled
     → ∃ r st',
         updateOrderStatus orderCode input actor st = (Ok r, st')
         ∧ order_by_code orderCode st' = Some (set_status target o)
         ∧ (∀ o', o' ∈ orders st' → o_order_code o' = orderCode →
                  o_status o' = target)
         ∧ (∀ o', o' ∈ orders st' → o_order_code o' ≠ orderCode →
                  o' ∈ orders st)
         ∧ length (orders st') = length (orders st)
         ∧ last (order_status_events st')
           = Some (StatusEvent (o_id o) target
                     ("Status updated to " +:+ toUiStatus target +:+ " by "
                        +:+ pr_role actor +:+ ".")
                     (Some (pr_user_id actor))))
  ∧ (∀ r st',
       updateOrderStatus orderCode input actor st = (Ok r, st') →
       (unpaidQrph o = false ∨ target = pending_payment ∨ target = cancelled)
       ∧ statuses_of orderCode st'
         = (λ _, target) <$> statuses_of orderCode st).
Proof.
  intros Hin Ho.
  assert (Hguard : unpaidQrph o && negb (allowedBeforePayment target) = false
                   ↔ unpaidQrph o = false ∨ target = pending_payment
                     ∨ target = cancelled).
  { unfold allowedBeforePayment.
    rewrite andb_false_iff, negb_false_iff, orb_true_iff.
    rewrite !bool_decide_eq_true. tauto. }
  split_and!.
  - intros (Hu & Hn1 & Hn2).
    rewrite updateOrderStatus_unfold, Hin, Ho. simpl.
    rewrite Hu. unfold allowedBeforePayment.
    rewrite !bool_decide_eq_false_2 by done. done.
  - intros Hok. apply Hguard in Hok.
    rewrite (updateOrderStatus_accepted _ _ _ _ _ _ Hin Ho Hok).
    eexists _, _. split; [done|]. simpl. split_and!.
    + unfold order_by_code in *. simpl. by rewrite head_patch_by_code, Ho.
    + intros o' Hin'. by apply patch_rows_status in Hin' as [? _].
    + intros o' Hin'. by apply patch_rows_status in Hin' as [_ ?].
    + unfold patch_rows. by rewrite length_fmap.
    + by rewrite last_snoc.
  - intros r st' Hrun.
    destruct (unpaidQrph o && negb (allowedBeforePayment target)) eqn:Hg.
    + rewrite updateOrderStatus_unfold, Hin, Ho in Hrun. simpl in Hrun.
      by rewrite Hg in Hrun.
    + rewrite (updateOrderStatus_accepted _ _ _ _ _ _ Hin Ho Hg) in Hrun.
      injection Hrun as <- <-. split; [by apply Hguard|].
      unfold statuses_of. simpl. clear.
      induction (orders st) as [|o0 os IH]; [done|].
      unfold patch_rows in *. rewrite fmap_cons, !filter_cons.
      destruct (has_code orderCode o0) eqn:Hc.
      * rewrite !decide_True by done. rewrite !fmap_cons. by rewrite IH.
      * rewrite decide_False by (by rewrite Hc).
        rewrite decide_False by done. exact IH.
Qed.

(** C3, counterexample. A cash-on-delivery order in [order_placed] is moved
    straight to [delivered], four steps down the chain. *)
Lemma updateOrderStatus_skips_chain :
  ∃ r st',
    updateOrderStatus "ORD-2" "Delivered" Sample.staff Sample.cash_on_delivery
    = (Ok r, st')
    ∧ order_by_code "ORD-2" Sample.cash_on_delivery = Some Sample.cod_order
    ∧ o_status Sample.cod_order = order_placed
    ∧ statuses_of "ORD-2" st' = [delivered]
    ∧ ¬ chain_step order_placed delivered
    ∧ ¬ chain_enforced.
Proof.
  eexists _, _. split; [vm_compute; reflexivity|].
  assert (Hno : ¬ chain_step order_placed delivered).
  { intros [H|[H _]]; discriminate. }
  split_and!; try done.
  intros Hc.
  apply Hno.
  eapply (Hc Sample.cash_on_delivery "ORD-2" "Delivered" Sample.staff
            _ _ Sample.cod_order (set_status delivered Sample.cod_order));
    vm_compute; reflexivity.
Qed.

(** An unpaid QRPH order is cancelled, and the paid order on its way is put
    back to [preparing]. *)
Lemma updateOrderStatus_persists_requested_status_witness :
  (∃ r st',
     updateOrderStatus "ORD-1" "Cancelled" Sample.staff Sample.awaiting_payment
     = (Ok r, st')
     ∧ order_by_code "ORD-1" st' = Some (set_status cancelled Sample.qr_order))
  ∧ updateOrderStatus "ORD-1" "Delivered" Sample.staff Sample.awaiting_payment
    = (Throw payment_not_confirmed, Sample.awaiting_payment)
  ∧ (∃ r st',
       updateOrderStatus "ORD-1" "Preparing" Sample.staff Sample.in_transit_store
       = (Ok r, st')
       ∧ order_by_code "ORD-1" st'
         = Some (set_status preparing Sample.shipped_order)).
Proof.
  split_and!.
  - destruct (proj1 (proj2 (updateOrderStatus_persists_requested_status
                Sample.awaiting_payment "ORD-1" "Cancelled" Sample.staff
                cancelled Sample.qr_order eq_refl eq_refl)))
      as (r & st' & Hrun & Hfirst & _); [by right; right|].
    by exists r, st'.
  - apply (proj1 (updateOrderStatus_persists_requested_status
                    Sample.awaiting_payment "ORD-1" "Delivered" Sample.staff
                    delivered Sample.qr_order eq_refl eq_refl)).
    split_and!; [reflexivity|discriminate|discriminate].
  - destruct (proj1 (proj2 (updateOrderStatus_persists_requested_status
                Sample.in_transit_store "ORD-1" "Preparing" Sample.staff
                preparing Sample.shipped_order eq_refl eq_refl)))
      as (r & st' & Hrun & Hfirst & _); [by left|].
    by exists r, st'.
Defined.

(** ** Webhook signature *)

Lemma truthy_true_iff (s : string) : Js.truthy s = true ↔ s ≠ "".
Proof. by destruct s. Qed.

Lemma truthy_false_iff (s : string) : Js.truthy s = false ↔ s = "".
Proof. by destruct s. Qed.

Lemma elem_of_candidates (c : string) (te li : option string) :
  c ∈ filter (λ c, Js.truthy c = true) (omap id [te; li])
  ↔ c ≠ "" ∧ (te = Some c ∨ li = Some c).
Proof.
  rewrite list_elem_of_filter, truthy_true_iff, list_elem_of_omap.
  split.
  - intros [Hc (o & Hin & Ho)]. split; [done|].
    apply elem_of_cons in Hin as [->|Hin]; [by left|].
    apply list_elem_of_singleton in Hin as ->. by right.
  - intros [Hc [->| ->]]; (split; [done|]); exists (Some c);
      (split; [|done]); set_solver.
Qed.

Example parsePaymongoSignature_header :
  parsePaymongoSignature "t=1713081600,te=9f2c,li=" !! "t" = Some "1713081600"
  ∧ parsePaymongoSignature "t=1713081600,te=9f2c,li=" !! "te" = Some "9f2c"
  ∧ parsePaymongoSignature "t=1713081600,te=9f2c,li=" !! "li" = None.
Proof. split_and!; vm_compute; reflexivity. Qed.

Section SignatureProperties.
Variable secret : string.
Variable hmac : string → string → string.

(** C4, as the code has it. With the secret configured the verifier
    answers [true] exactly when the header carries a non-empty timestamp
    [t] and a non-empty candidate [te] or [li] equal to the hex HMAC of
    "<t>.<rawBody>", and [false] when the timestamp or both candidates are
    missing; with the secret missing (or still the placeholder with
    dots) it does not answer at all but throws an error of status 500. *)
Theorem verifyPaymongoWebhookSignature_spec (rawBody headerValue : string) :
  let sig := parsePaymongoSignature headerValue in
  let verdict := verifyPaymongoWebhookSignature secret hmac rawBody headerValue in
  (secret_configured secret = false →
     verdict = Throw (Error "PayMongo webhook secret not configured." (Some 500)))
  ∧ (secret_configured secret = true →
       ∃ b, verdict = Ok b
            ∧ (b = true ↔
                 ∃ ts, sig !! "t" = Some ts ∧ ts ≠ ""
                       ∧ hmac secret (ts +:+ "." +:+ rawBody) ≠ ""
                       ∧ (sig !! "te" = Some (hmac secret (ts +:+ "." +:+ rawBody))
                          ∨ sig !! "li" = Some (hmac secret (ts +:+ "." +:+ rawBody))))
            ∧ (sig !! "t" = None → b = false)
            ∧ (sig !! "te" = None → sig !! "li" = None → b = false)).
Proof.
  intros sig verdict. subst verdict. unfold verifyPaymongoWebhookSignature.
  fold sig. split.
  - by intros ->.
  - intros ->. simpl.
    set (cands := filter _ _).
    assert (Hc : ∀ c, c ∈ cands
                      ↔ c ≠ "" ∧ (sig !! "te" = Some c ∨ sig !! "li" = Some c))
      by (intros c; apply elem_of_candidates).
    destruct (negb (Js.truthy (default "" (sig !! "t")))
              || bool_decide (cands = [])) eqn:Hguard.
    + exists false. split; [done|]. split_and!; try done.
      split; [done|]. intros (ts & Ht & Hts & Hne & Hsup).
      apply orb_true_iff in Hguard as [Hg|Hg].
      * rewrite Ht in Hg. simpl in Hg.
        apply negb_true_iff, truthy_false_iff in Hg. done.
      * apply bool_decide_eq_true in Hg.
        assert (Hin : hmac secret (ts +:+ "." +:+ rawBody) ∈ cands)
          by (apply Hc; done).
        rewrite Hg in Hin. by apply not_elem_of_nil in Hin.
    + apply orb_false_iff in Hguard as [Hts Hcs].
      apply negb_false_iff, truthy_true_iff in Hts.
      apply bool_decide_eq_false in Hcs.
      destruct (sig !! "t") as [ts|] eqn:Ht; [|done]. simpl in *.
      eexists. split; [done|]. split_and!.
      * split.
        -- intros He. apply existsb_exists in He as (c & Hin & Heq).
           apply bool_decide_eq_true in Heq. subst c.
           apply list_elem_of_In, Hc in Hin as [? ?]. by exists ts.
        -- intros (ts' & [= <-] & _ & Hne & Hsup).
           apply existsb_exists. eexists. split.
           ++ apply list_elem_of_In, Hc. done.
           ++ by apply bool_decide_eq_true.
      * done.
      * intros Hte Hli. exfalso. apply Hcs.
        destruct cands as [|c cs]; [done|].
        assert (Hin : c ∈ c :: cs) by left.
        apply Hc in Hin as [_ [H|H]]; congruence.
Qed.
End SignatureProperties.

(** C4, counterexample. Without a configured secret the verifier throws; it
    does not return [false]. *)
Lemma verifyPaymongoWebhookSignature_unconfigured_throws :
  secret_configured "" = false
  ∧ verifyPaymongoWebhookSignature "" (λ _ _, "00") "{}" "t=1,te=00"
    = Throw (Error "PayMongo webhook secret not configured." (Some 500))
  ∧ verifyPaymongoWebhookSignature "" (λ _ _, "00") "{}" "t=1,te=00" ≠ Ok false.
Proof. split_and!; [reflexivity|reflexivity|discriminate]. Qed.

Lemma verifyPaymongoWebhookSignature_spec_witness :
  verifyPaymongoWebhookSignature "whsk_..." (λ _ _, "00") "{}" "t=1,te=00"
  = Throw (Error "PayMongo webhook secret not configured." (Some 500)).
Proof.
  apply (proj1 (verifyPaymongoWebhookSignature_spec
                  "whsk_..." (λ _ _, "00") "{}" "t=1,te=00")).
  reflexivity.
Defined.

(** ** Stock deduction *)

Lemma for_each_ok {A} (body : A → M unit) (l : list A) (st : store) :
  (∀ x st0, (body x st0).1 = Ok ()) →
  (for_each body l st).1 = Ok ().
Proof.
  intros Hb. revert st. induction l as [|x l IH]; intros st; [done|].
  simpl. unfold mbind, M_bind.
  specialize (Hb x st). destruct (body x st) as [[[]|e] st1]; [|done].
  apply IH.
Qed.

Lemma deduct_item_eq (item : order_item) (st : store) :
  deduct_item item st =
  (Ok (),
   match head (filter (λ p, has_product_id (default "" (i_product_id item)) p = true)
                 (products st)) with
   | None => st
   | Some product =>
       set_products
         (patch_rows (has_product_id (p_id product))
            (set_stock_cases (Z.max 0 (p_stock_cases product - i_qty item)))
            (products st)) st
   end).
Proof.
  unfold deduct_item. unfold_monad. by destruct (head _).
Qed.

Lemma head_filter_id (pid : string) (ps : list product) (p : product) :
  head (filter (λ p, has_product_id pid p = true) ps) = Some p → p_id p = pid.
Proof.
  intros H. apply head_Some_elem_of, list_elem_of_filter in H as [H _].
  by apply bool_decide_eq_true in H.
Qed.

Lemma stock_after_patch (pid pid' : string) (n : Z) (ps : list product) :
  p_stock_cases <$>
    head (filter (λ p, has_product_id pid p = true)
            (patch_rows (has_product_id pid') (set_stock_cases n) ps))
  = if decide (pid' = pid)
    then (λ _, n) <$> head (filter (λ p, has_product_id pid p = true) ps)
    else p_stock_cases <$> head (filter (λ p, has_product_id pid p = true) ps).
Proof.
  induction ps as [|p ps IH].
  { by destruct (decide _). }
  unfold patch_rows, has_product_id in *. rewrite fmap_cons, !filter_cons.
  destruct (decide (p_id p = pid')) as [Hp'|Hp'].
  - rewrite (bool_decide_eq_true_2 _ Hp'). simpl.
    destruct (decide (pid' = pid)) as [Heq|Hne].
    + rewrite !decide_True by (apply bool_decide_eq_true; congruence). done.
    + rewrite !decide_False by (rewrite bool_decide_eq_true; congruence). done.
  - rewrite (bool_decide_eq_false_2 _ Hp').
    destruct (decide (bool_decide (p_id p = pid) = true)) as [Hp|Hp]; [|done].
    simpl. apply bool_decide_eq_true in Hp.
    by rewrite decide_False by congruence.
Qed.

Lemma deduct_item_stock (item : order_item) (st : store) (pid : string) (s : Z) :
  valid_item item = true →
  stock_of pid st = Some s →
  stock_of pid (deduct_item item st).2
  = Some (if decide (i_product_id item = Some pid)
          then Z.max 0 (s - i_qty item) else s).
Proof.
  intros Hv Hs. rewrite deduct_item_eq. simpl.
  unfold valid_item in Hv. apply andb_true_iff in Hv as [Hv _].
  destruct (i_product_id item) as [pid'|] eqn:Hpid; [|done]. simpl.
  unfold stock_of in *.
  destruct (head (filter (λ p, has_product_id pid' p = true) (products st)))
    as [product|] eqn:Hh.
  - simpl. rewrite stock_after_patch. apply head_filter_id in Hh as Hid.
    rewrite Hid.
    destruct (decide (pid' = pid)) as [->|Hne].
    + rewrite decide_True by done. rewrite Hh in *. simpl in *.
      by injection Hs as ->.
    + rewrite decide_False by congruence. done.
  - destruct (decide (Some pid' = Some pid)) as [[= ->]|]; [|done].
    by rewrite Hh in Hs.
Qed.

Lemma valid_qty_sum_nonneg (P : order_item → Prop) `{∀ i, Decision (P i)}
    (items : list order_item) :
  Forall (λ i, valid_item i = true) items →
  0 ≤ foldr Z.add 0 (i_qty <$> filter P items).
Proof.
  induction 1 as [|item items Hv _ IH]; [done|].
  rewrite filter_cons. destruct (decide (P item)); [|done].
  rewrite fmap_cons. cbn [foldr].
  unfold valid_item in Hv. apply andb_true_iff in Hv as [_ Hq].
  apply bool_decide_eq_true in Hq. lia.
Qed.

Lemma for_each_deduct_stock (items : list order_item) (st : store)
    (pid : string) (s : Z) :
  Forall (λ i, valid_item i = true) items →
  stock_of pid st = Some s →
  0 ≤ s →
  stock_of pid (for_each deduct_item items st).2
  = Some (Z.max 0 (s - foldr Z.add 0
                         (i_qty <$> filter (λ i, i_product_id i = Some pid) items))).
Proof.
  intros Hall. revert st s.
  induction Hall as [|item items Hv Hall IH]; intros st s Hs Hpos.
  { simpl. rewrite Hs. f_equal. lia. }
  simpl. unfold mbind, M_bind.
  pose proof (deduct_item_stock item st pid s Hv Hs) as Hstep.
  rewrite deduct_item_eq in *. simpl in Hstep.
  set (st1 := match head _ with Some _ => _ | None => _ end) in *.
  assert (Hq : 0 < i_qty item).
  { unfold valid_item in Hv. apply andb_true_iff in Hv as [_ Hq].
    by apply bool_decide_eq_true in Hq. }
  rewrite filter_cons.
  destruct (decide (i_product_id item = Some pid)) as [Heq|Hne].
  - rewrite (IH st1 _ Hstep) by lia.
    rewrite fmap_cons. cbn [foldr]. f_equal.
    pose proof (valid_qty_sum_nonneg (λ i, i_product_id i = Some pid) items Hall).
    lia.
  - by rewrite (IH st1 _ Hstep).
Qed.

Lemma deductStockForOrder_stock (st : store) (orderId pid : string) (s : Z) :
  stock_of pid st = Some s →
  0 ≤ s →
  (deductStockForOrder orderId st).1 = Ok ()
  ∧ stock_of pid (deductStockForOrder orderId st).2
    = Some (Z.max 0 (s - ordered_qty orderId pid st)).
Proof.
  intros Hs Hpos. unfold deductStockForOrder, ordered_qty.
  unfold mbind, M_bind, select_order_items.
  set (items := filter (λ i, valid_item i = true) _).
  split.
  - apply for_each_ok. intros x st0. by rewrite deduct_item_eq.
  - apply for_each_deduct_stock; [|done..].
    apply Forall_forall. intros i Hi.
    by apply list_elem_of_filter in Hi as [? _].
Qed.

Lemma deduct_item_nonneg (item : order_item) (st : store) :
  Forall (λ p, 0 ≤ p_stock_cases p) (products st) →
  Forall (λ p, 0 ≤ p_stock_cases p) (products (deduct_item item st).2).
Proof.
  intros Hall. rewrite deduct_item_eq. simpl.
  destruct (head _) as [product|]; [|done]. simpl.
  unfold patch_rows. apply Forall_fmap. eapply Forall_impl; [exact Hall|].
  intros p Hp. simpl in *. destruct (has_product_id _ p); unfold set_stock_cases; simpl; lia.
Qed.

Lemma for_each_deduct_nonneg (items : list order_item) (st : store) :
  Forall (λ p, 0 ≤ p_stock_cases p) (products st) →
  Forall (λ p, 0 ≤ p_stock_cases p) (products (for_each deduct_item items st).2).
Proof.
  revert st. induction items as [|item items IH]; intros st Hall; [done|].
  simpl. unfold mbind, M_bind.
  pose proof (deduct_item_nonneg item st Hall) as Hstep.
  rewrite deduct_item_eq in *. simpl in Hstep. by apply IH.
Qed.

Lemma ordered_qty_single_line (st : store) (orderId pid : string)
    (item : order_item) :
  filter (λ i, i_order_id i = orderId ∧ i_product_id i = Some pid) (order_items st)
  = [item] →
  pid ≠ "" →
  0 ≤ i_qty item →
  ordered_qty orderId pid st = i_qty item.
Proof.
  intros Hline Hpid Hq. unfold ordered_qty.
  rewrite !list_filter_filter.
  rewrite (list_filter_iff _
             (λ i, valid_item i = true
                   ∧ (i_order_id i = orderId ∧ i_product_id i = Some pid))).
  2:{ intros i. rewrite bool_decide_eq_true. tauto. }
  rewrite <- list_filter_filter, Hline.
  assert (Hitem : i_product_id item = Some pid).
  { assert (Hin : item ∈ [item]) by left.
    rewrite <- Hline in Hin. apply list_elem_of_filter in Hin. tauto. }
  rewrite filter_cons, filter_nil.
  destruct (decide (valid_item item = true)) as [Hv|Hv]; [simpl; lia|].
  simpl. unfold valid_item in Hv. rewrite Hitem in Hv. simpl in Hv.
  apply truthy_true_iff in Hpid. rewrite Hpid in Hv. simpl in Hv.
  rewrite bool_decide_eq_true in Hv. lia.
Qed.

(** C6. Deducting the stock of an order whose line for a product asks for
    [q >= 0] cases, the product holding [s >= 0] cases, leaves it with
    [max 0 (s - q)] cases, which is not negative; and no product of the
    catalogue is driven below zero. *)
Theorem deductStockForOrder_floor
    (st : store) (orderId pid : string) (item : order_item) (s q : Z) :
  stock_of pid st = Some s →
  filter (λ i, i_order_id i = orderId ∧ i_product_id i = Some pid) (order_items st)
  = [item] →
  i_qty item = q →
  pid ≠ "" →
  0 ≤ s →
  0 ≤ q →
  (deductStockForOrder orderId st).1 = Ok ()
  ∧ stock_of pid (deductStockForOrder orderId st).2 = Some (Z.max 0 (s - q))
  ∧ 0 ≤ Z.max 0 (s - q)
  ∧ (Forall (λ p, 0 ≤ p_stock_cases p) (products st) →
     Forall (λ p, 0 ≤ p_stock_cases p)
            (products (deductStockForOrder orderId st).2)).
Proof.
  intros Hs Hline <- Hpid Hpos Hq.
  destruct (deductStockForOrder_stock st orderId pid s Hs Hpos) as [Hok Hstock].
  rewrite (ordered_qty_single_line st orderId pid item Hline Hpid Hq) in Hstock.
  split_and!; [done|done|lia|].
  intros Hall. unfold deductStockForOrder, mbind, M_bind, select_order_items.
  by apply for_each_deduct_nonneg.
Qed.

Lemma deductStockForOrder_floor_witness :
  stock_of "pid1" (deductStockForOrder "o1" Sample.awaiting_payment).2 = Some 8
  ∧ stock_of "pid1"
      (deductStockForOrder "o1"
         (set_products [set_stock_cases 1 Sample.cola] Sample.awaiting_payment)).2
    = Some 0.
Proof.
  split.
  - apply (deductStockForOrder_floor Sample.awaiting_payment "o1" "pid1"
             Sample.qr_item 10 2); try reflexivity; try lia; discriminate.
  - apply (deductStockForOrder_floor
             (set_products [set_stock_cases 1 Sample.cola] Sample.awaiting_payment)
             "o1" "pid1" Sample.qr_item 1 2);
      try reflexivity; try lia; discriminate.
Defined.

(** ** Payment confirmation *)

Lemma resolve_order_eq (a : webhook_args) (st : store) :
  resolve_order a st = (Ok (resolved_order a st), st).
Proof.
  unfold resolve_order, resolved_order, findOrderByCode,
    findOrderByCheckoutSessionId, order_by_code, order_by_session.
  unfold_monad.
  destruct (truthy_opt (w_orderCode a)); simpl.
  - destruct (head _) as [o|]; [done|].
    destruct (w_checkoutSessionId a) as [sid|]; [|done].
    by destruct (Js.truthy sid).
  - destruct (w_checkoutSessionId a) as [sid|]; [|done].
    by destruct (Js.truthy sid).
Qed.

Lemma for_each_deduct_frame (items : list order_item) (st : store) :
  for_each deduct_item items st
  = (Ok (), set_products (products (for_each deduct_item items st).2) st).
Proof.
  revert st. induction items as [|item items IH]; intros st.
  { by destruct st. }
  simpl. unfold mbind, M_bind. rewrite deduct_item_eq.
  destruct (head _) as [product|]; [|apply IH].
  rewrite IH. by destruct st.
Qed.

Lemma deductStockForOrder_frame (orderId : string) (st : store) :
  deductStockForOrder orderId st
  = (Ok (), set_products (products (deductStockForOrder orderId st).2) st).
Proof.
  unfold deductStockForOrder, mbind, M_bind, select_order_items.
  apply for_each_deduct_frame.
Qed.

Lemma markOrderPaidFromWebhook_eq (now : string) (a : webhook_args) (st : store) :
  markOrderPaidFromWebhook now a st =
  if event_recorded (w_eventId a) st then (Ok (WebhookResult true), st)
  else
    match resolved_order a st with
    | None => (Throw (plain_error "Order not found for webhook."), st)
    | Some order =>
        (Ok (WebhookResult false),
         payment_recorded a order (stock_deducted order (paid_orders now a order st)))
    end.
Proof.
  unfold markOrderPaidFromWebhook, event_recorded.
  unfold mbind at 1. unfold M_bind at 1. unfold select_payments at 1.
  destruct (bool_decide _); [done|].
  unfold mbind at 1. unfold M_bind at 1. rewrite resolve_order_eq.
  destruct (resolved_order a st) as [order|]; [|done].
  unfold mbind at 1. unfold M_bind at 1. unfold patch_orders at 1.
  fold (paid_orders now a order st).
  set (st1 := paid_orders now a order st).
  unfold mbind at 1. unfold M_bind at 1.
  unfold hasOrderStatusEventNote.
  unfold mbind at 1. unfold M_bind at 1. unfold select_order_status_events at 1.
  unfold mret at 1. unfold M_ret at 1.
  unfold stock_deducted. fold st1. unfold stock_marker_present.
  destruct (bool_decide _).
  - unfold_monad. done.
  - unfold mbind at 1. unfold M_bind at 1.
    unfold mbind at 1. unfold M_bind at 1.
    rewrite deductStockForOrder_frame.
    unfold_monad. done.
Qed.

Lemma orders_stock_deducted (order : order) (st : store) :
  orders (stock_deducted order st) = orders st.
Proof. unfold stock_deducted. by destruct (stock_marker_present _ _). Qed.

Lemma orders_payment_recorded (a : webhook_args) (order : order) (st : store) :
  orders (payment_recorded a order st) = orders st.
Proof. done. Qed.

Lemma resolved_order_elem (a : webhook_args) (st : store) (o : order) :
  resolved_order a st = Some o → o ∈ orders st.
Proof.
  unfold resolved_order, order_by_code, order_by_session.
  destruct (truthy_opt (w_orderCode a)).
  - destruct (head _) as [o1|] eqn:Hh.
    + intros [= <-]. apply head_Some_elem_of in Hh.
      by apply list_elem_of_filter in Hh as [_ ?].
    + destruct (w_checkoutSessionId a) as [sid|]; [|done].
      destruct (Js.truthy sid); [|done].
      intros Hh'. apply head_Some_elem_of in Hh'.
      by apply list_elem_of_filter in Hh' as [_ ?].
  - destruct (w_checkoutSessionId a) as [sid|]; [|done].
    destruct (Js.truthy sid); [|done].
    intros Hh'. apply head_Some_elem_of in Hh'.
    by apply list_elem_of_filter in Hh' as [_ ?].
Qed.

(** C10. A confirmation that is not a duplicate (its event identifier is in
    no payment row) and whose order resolves goes through, and writes
    [order_placed] and [paid] on the order whatever status the order had:
    an order already further down the chain is put back to [order_placed]. *)
Theorem markOrderPaidFromWebhook_resets_status
    (now : string) (a : webhook_args) (st : store) (o : order) :
  event_recorded (w_eventId a) st = false →
  resolved_order a st = Some o →
  ∃ st',
    markOrderPaidFromWebhook now a st = (Ok (WebhookResult false), st')
    ∧ (∃ o', o' ∈ orders st' ∧ o_id o' = o_id o)
    ∧ (∀ o', o' ∈ orders st' → o_id o' = o_id o →
             o_status o' = order_placed ∧ o_payment_status o' = pay_paid).
Proof.
  intros Hfresh Hres. rewrite markOrderPaidFromWebhook_eq, Hfresh, Hres.
  eexists. split; [done|].
  rewrite orders_payment_recorded, orders_stock_deducted. simpl.
  unfold patch_rows. split.
  - eexists. split.
    + apply list_elem_of_fmap. eexists. split; [done|].
      by apply (resolved_order_elem a).
    + by rewrite bool_decide_eq_true_2.
  - intros o' Hin Hid. apply list_elem_of_fmap in Hin as (o0 & -> & _).
    case_bool_decide as Hc; [done|]. done.
Qed.

Lemma markOrderPaidFromWebhook_resets_status_witness :
  o_status Sample.shipped_order = in_transit
  ∧ ∃ st',
      markOrderPaidFromWebhook "2025-04-15T09:30:00.000Z" Sample.rekeyed_event
        Sample.in_transit_store
      = (Ok (WebhookResult false), st')
      ∧ (∃ o', o' ∈ orders st' ∧ o_id o' = "o1")
      ∧ (∀ o', o' ∈ orders st' → o_id o' = "o1" →
               o_status o' = order_placed ∧ o_payment_status o' = pay_paid).
Proof.
  split; [reflexivity|].
  apply (markOrderPaidFromWebhook_resets_status
           "2025-04-15T09:30:00.000Z" Sample.rekeyed_event
           Sample.in_transit_store Sample.shipped_order);
    vm_compute; reflexivity.
Defined.

Lemma head_filter_patch {A} (P f : A → bool) (upd : A → A) (l : list A) :
  (∀ x, P (upd x) = P x) →
  head (filter (λ x, P x = true) (patch_rows f upd l))
  = (λ x, if f x then upd x else x) <$> head (filter (λ x, P x = true) l).
Proof.
  intros HP. induction l as [|x l IH]; [done|].
  unfold patch_rows in *. rewrite fmap_cons, !filter_cons.
  assert (HPx : P (if f x then upd x else x) = P x) by (by destruct (f x)).
  rewrite HPx. by destruct (decide (P x = true)).
Qed.



Lemma resolved_order_ext (a : webhook_args) (st st' : store) :
  orders st = orders st' → resolved_order a st = resolved_order a st'.
Proof.
  intros H. unfold resolved_order, order_by_code, order_by_session. by rewrite H.
Qed.
















(** ** Order builder *)

Lemma listOrdersForUserId_read (userId : string) (st : store) :
  (listOrdersForUserId userId st).2 = st
  ∧ ∃ v, (listOrdersForUserId userId st).1 = Ok v.
Proof.
  unfold listOrdersForUserId.
  destruct (negb (Js.truthy userId)); [by eauto|].
  unfold_monad. destruct (reverse _); by eauto.
Qed.

Lemma getOrderForUserId_eq (orderCode userId : string) (st : store) :
  getOrderForUserId orderCode userId st = (Ok (read_back orderCode userId st), st).
Proof.
  unfold read_back, getOrderForUserId. unfold mbind, M_bind.
  destruct (listOrdersForUserId_read userId st) as [Hst [v Hv]].
  destruct (listOrdersForUserId userId st) as [r st0]. simpl in *. subst.
  done.
Qed.

Lemma in_filter_nil (v : string) : in_filter [] v = false.
Proof. unfold in_filter. apply bool_decide_eq_false. apply not_elem_of_nil. Qed.

Lemma getProductsBySkus_eq (skus : list string) (st : store) :
  getProductsBySkus skus st
  = (Ok (filter (λ p, in_filter skus (p_sku p) = true) (products st)), st).
Proof.
  destruct skus as [|k skus]; [|done].
  unfold getProductsBySkus, mret, M_ret. f_equal. f_equal.
  induction (products st) as [|p ps IH]; [done|].
  rewrite filter_cons, decide_False; [done|].
  by rewrite in_filter_nil.
Qed.

Lemma map_get_set_eq (k : string) (v : Z) (m : list (string * Z)) :
  map_get k (map_set k v m) = Some v.
Proof.
  induction m as [|[k' v'] m IH]; simpl.
  - by rewrite decide_True.
  - destruct (decide (k' = k)) as [->|Hne]; simpl.
    + by rewrite decide_True.
    + by rewrite decide_False.
Qed.

Lemma map_get_set_ne (k k' : string) (v : Z) (m : list (string * Z)) :
  k ≠ k' → map_get k' (map_set k v m) = map_get k' m.
Proof.
  intros Hne. induction m as [|[k0 v0] m IH]; simpl.
  - by rewrite decide_False.
  - destruct (decide (k0 = k)) as [->|Hne0]; simpl.
    + by rewrite !decide_False.
    + by rewrite IH.
Qed.

Lemma map_set_keys (k x : string) (v : Z) (m : list (string * Z)) :
  x ∈ (map_set k v m).*1 ↔ x = k ∨ x ∈ m.*1.
Proof.
  induction m as [|[k0 v0] m IH]; simpl.
  - rewrite list_elem_of_singleton, elem_of_nil. tauto.
  - destruct (decide (k0 = k)) as [->|Hne0]; simpl.
    + rewrite !elem_of_cons. tauto.
    + rewrite !elem_of_cons, IH. tauto.
Qed.

Lemma map_set_NoDup (k : string) (v : Z) (m : list (string * Z)) :
  NoDup m.*1 → NoDup (map_set k v m).*1.
Proof.
  induction m as [|[k0 v0] m IH]; simpl.
  - intros _. apply NoDup_singleton.
  - rewrite NoDup_cons. intros [Hnotin Hnd].
    destruct (decide (k0 = k)) as [->|Hne0]; simpl.
    + by apply NoDup_cons.
    + apply NoDup_cons. split; [|auto].
      rewrite map_set_keys. intros [?|?]; done.
Qed.

Lemma map_get_elem (k : string) (v : Z) (m : list (string * Z)) :
  NoDup m.*1 → (k, v) ∈ m → map_get k m = Some v.
Proof.
  induction m as [|[k0 v0] m IH]; simpl.
  - intros _ H. by apply elem_of_nil in H.
  - rewrite NoDup_cons. intros [Hnotin Hnd] Hin.
    apply elem_of_cons in Hin as [[= <- <-]|Hin].
    + by rewrite decide_True.
    + rewrite decide_False; [auto|].
      intros ->. apply Hnotin. apply list_elem_of_fmap. by exists (k, v).
Qed.

Lemma map_get_None (k : string) (m : list (string * Z)) :
  k ∉ m.*1 → map_get k m = None.
Proof.
  induction m as [|[k0 v0] m IH]; simpl; [by intros _|].
  rewrite not_elem_of_cons. intros [Hne Hnotin].
  rewrite decide_False by done. by apply IH.
Qed.

Lemma merge_items_inv (items : list cart_item) (acc m : list (string * Z)) :
  merge_items items acc = Ok m →
  NoDup acc.*1 →
  Forall valid_line items
  ∧ NoDup m.*1
  ∧ (∀ k, k ∈ m.*1 ↔ k ∈ acc.*1 ∨ k ∈ (λ it, Js.trim (ci_productId it)) <$> items)
  ∧ (∀ k, k ∈ m.*1 →
          map_get k m = Some (default 0 (map_get k acc) + requested_qty items k)).
Proof.
  revert acc. induction items as [|item items IH]; intros acc; cbn [merge_items].
  - intros [= <-] Hnd. split_and!; [done|done| |].
    { intros k. rewrite fmap_nil, elem_of_nil. tauto. }
    intros k Hk. unfold requested_qty. simpl.
    apply list_elem_of_fmap in Hk as ([k' v] & -> & Hin). simpl.
    rewrite (map_get_elem k' v acc Hnd Hin). simpl. f_equal. lia.
  - destruct (negb (Js.truthy (Js.trim (ci_productId item))) || (ci_qty item <=? 0))
      eqn:Hbad; [done|].
    apply orb_false_iff in Hbad as [Hsku Hqty].
    apply negb_false_iff, truthy_true_iff in Hsku. apply Z.leb_gt in Hqty.
    set (sku := Js.trim (ci_productId item)) in *.
    set (acc' := map_set sku _ acc).
    intros Hm Hnd.
    destruct (IH acc' Hm) as (Hall & Hnd' & Hkeys & Hget).
    { by apply map_set_NoDup. }
    split_and!.
    + constructor; [done|done].
    + done.
    + intros k. rewrite Hkeys. subst acc'. rewrite map_set_keys, fmap_cons.
      fold sku. rewrite elem_of_cons. tauto.
    + intros k Hk. rewrite (Hget k Hk). f_equal.
      unfold requested_qty. rewrite filter_cons. fold sku.
      subst acc'. destruct (decide (sku = k)) as [<-|Hne].
      * rewrite map_get_set_eq. rewrite fmap_cons. simpl. lia.
      * by rewrite map_get_set_ne.
Qed.

Lemma merge_items_throws (items : list cart_item) (acc : list (string * Z)) :
  (∃ item, item ∈ items ∧ (Js.trim (ci_productId item) = "" ∨ ci_qty item ≤ 0)) →
  is_throw (merge_items items acc).
Proof.
  intros (item & Hin & Hbad). revert acc.
  induction items as [|it items IH]; intros acc; [by apply elem_of_nil in Hin|].
  simpl.
  destruct (negb (Js.truthy (Js.trim (ci_productId it))) || (ci_qty it <=? 0))
    eqn:Hg; [done|].
  apply elem_of_cons in Hin as [<-|Hin]; [|by apply IH].
  apply orb_false_iff in Hg as [Hsku Hqty].
  apply negb_false_iff, truthy_true_iff in Hsku. apply Z.leb_gt in Hqty.
  destruct Hbad; [done|lia].
Qed.

Lemma map_get_Some_elem (k : string) (v : Z) (m : list (string * Z)) :
  map_get k m = Some v → (k, v) ∈ m.
Proof.
  induction m as [|[k0 v0] m IH]; simpl; [done|].
  destruct (decide (k0 = k)) as [->|Hne].
  - intros [= ->]. left.
  - intros H. right. by apply IH.
Qed.

Lemma productBySku_lookup_gen (ps : list product) (m0 : gmap string product)
    (k : string) (p : product) :
  foldl (λ m p, <[p_sku p := p]> m) m0 ps !! k = Some p →
  (p ∈ ps ∧ p_sku p = k) ∨ m0 !! k = Some p.
Proof.
  revert m0. induction ps as [|x ps IH]; intros m0; simpl; [by right|].
  intros H. apply IH in H as [[Hin Hk]|H].
  - left. split; [by right|done].
  - destruct (decide (p_sku x = k)) as [Hx|Hx].
    + subst k. rewrite lookup_insert_eq in H. injection H as ->.
      left. split; [left|done].
    + rewrite lookup_insert_ne in H by done. by right.
Qed.

Lemma productBySku_lookup (ps : list product) (k : string) (p : product) :
  productBySku ps !! k = Some p → p ∈ ps ∧ p_sku p = k.
Proof.
  intros H. apply productBySku_lookup_gen in H as [H|H]; [done|].
  by rewrite lookup_empty in H.
Qed.

Lemma price_items_inv (bySku : gmap string product) (catalog : list product)
    (entries : list (string * Z)) (rows0 rows : list item_row) (s0 s : Q) :
  (∀ k p, bySku !! k = Some p → p ∈ catalog ∧ p_sku p = k) →
  price_items bySku entries rows0 s0 = Ok (rows, s) →
  ∃ new,
    rows = rows0 ++ new
    ∧ Forall2 (priced_line catalog) entries new
    ∧ s = foldl (λ acc r, (acc + r_unit_price r * inject_Z (r_qty r))%Q) s0 new
    ∧ (∀ k q, (k, q) ∈ entries →
              ∃ p, bySku !! k = Some p ∧ p_is_active p = true
                   ∧ q ≤ p_stock_cases p).
Proof.
  intros Hmap. revert rows0 s0.
  induction entries as [|[sku qty] entries IH]; intros rows0 s0; simpl.
  - intros [= <- <-]. exists []. rewrite app_nil_r.
    split_and!; [done|constructor|done|].
    intros k q H. by apply elem_of_nil in H.
  - destruct (bySku !! sku) as [p|] eqn:Hp; [|done].
    destruct (negb (p_is_active p)) eqn:Hact; [done|].
    apply negb_false_iff in Hact.
    destruct (p_stock_cases p <? qty) eqn:Hstock; [done|].
    apply Z.ltb_ge in Hstock.
    intros H. apply IH in H as (new & -> & Hall & -> & Hlook).
    destruct (Hmap sku p Hp) as [Hin Hsku].
    eexists (_ :: new). rewrite <- app_assoc. split_and!; [done| |done|].
    + constructor; [|done]. split_and!; [done|done|].
      exists p. by split_and!.
    + intros k q Hkq. apply elem_of_cons in Hkq as [[= -> ->]|Hkq]; [|by apply Hlook].
      by exists p.
Qed.

Lemma NoDup_fmap_eq {A B} (f : A → B) (l : list A) (x y : A) :
  NoDup (f <$> l) → x ∈ l → y ∈ l → f x = f y → x = y.
Proof.
  induction l as [|a l IH]; [by intros _ H; apply elem_of_nil in H|].
  rewrite fmap_cons, NoDup_cons. intros [Hnotin Hnd] Hx Hy Hf.
  apply elem_of_cons in Hx as [->|Hx]; apply elem_of_cons in Hy as [->|Hy].
  - done.
  - destruct Hnotin. rewrite Hf. apply list_elem_of_fmap. by exists y.
  - destruct Hnotin. rewrite <- Hf. apply list_elem_of_fmap. by exists x.
  - by apply IH.
Qed.

(** When as many rows come back as SKUs were asked for and every SKU asked
    for is among them, no two rows share a SKU. *)
Lemma found_skus_NoDup (keys : list string) (found : list product) :
  NoDup keys →
  length found = length keys →
  (∀ k, k ∈ keys → ∃ p, p ∈ found ∧ p_sku p = k) →
  NoDup (p_sku <$> found).
Proof.
  intros Hnd Hlen Hcover.
  assert (Hsub : keys ⊆+ p_sku <$> found).
  { apply NoDup_submseteq; [done|]. intros k Hk.
    destruct (Hcover k Hk) as (p & Hin & <-).
    apply list_elem_of_fmap. by exists p. }
  apply submseteq_length_Permutation in Hsub.
  - by rewrite <- Hsub.
  - rewrite length_fmap. lia.
Qed.

(** A cart that passes the checks: every line is well formed, and every
    product of the catalogue carrying a SKU of the cart is the one priced,
    active and with stock for the merged quantity. *)
Lemma priced_cart_ok (payload : order_payload) (st : store)
    (rows : list item_row) (subtotal : Q) :
  priced_cart payload st = Ok (rows, subtotal) →
  ∃ skuQty,
    merge_items (pl_items payload) [] = Ok skuQty
    ∧ Forall valid_line (pl_items payload)
    ∧ Forall2 (priced_line (products st)) skuQty rows
    ∧ subtotal = sum_lines rows
    ∧ (∀ k q, (k, q) ∈ skuQty → q = requested_qty (pl_items payload) k)
    ∧ (∀ item, item ∈ pl_items payload →
         ∃ p, p ∈ products st ∧ p_sku p = Js.trim (ci_productId item))
    ∧ (∀ item p, item ∈ pl_items payload → p ∈ products st →
         p_sku p = Js.trim (ci_productId item) →
         p_is_active p = true
         ∧ requested_qty (pl_items payload) (Js.trim (ci_productId item))
           ≤ p_stock_cases p).
Proof.
  unfold priced_cart.
  destruct (merge_items (pl_items payload) []) as [skuQty|e] eqn:Hmerge; [|done].
  set (found := filter _ (products st)).
  destruct (negb (bool_decide (length found = length skuQty))) eqn:Hlen; [done|].
  apply negb_false_iff, bool_decide_eq_true in Hlen.
  intros Hprice.
  destruct (merge_items_inv _ _ _ Hmerge) as (Hvalid & Hnd & Hkeys & Hget).
  { simpl. apply NoDup_nil_2. }
  assert (Hfound : ∀ k p, productBySku found !! k = Some p →
                          p ∈ products st ∧ p_sku p = k).
  { intros k p Hkp. apply productBySku_lookup in Hkp as [Hin Hk].
    split; [|done]. by apply list_elem_of_filter in Hin as [_ ?]. }
  destruct (price_items_inv _ _ _ _ _ _ _ Hfound Hprice)
    as (new & Hrows & Hall & Hsum & Hlook).
  simpl in Hrows. subst new.
  assert (Hqty : ∀ k q, (k, q) ∈ skuQty → q = requested_qty (pl_items payload) k).
  { intros k q Hkq.
    assert (Hk : k ∈ skuQty.*1) by (apply list_elem_of_fmap; by exists (k, q)).
    specialize (Hget k Hk). rewrite (map_get_elem k q skuQty Hnd Hkq) in Hget.
    simpl in Hget. injection Hget as ->. lia. }
  assert (Hentry : ∀ item, item ∈ pl_items payload →
            ∃ q p, (Js.trim (ci_productId item), q) ∈ skuQty
                   ∧ productBySku found !! Js.trim (ci_productId item) = Some p
                   ∧ p_is_active p = true ∧ q ≤ p_stock_cases p).
  { intros item Hitem.
    assert (Hk : Js.trim (ci_productId item) ∈ skuQty.*1).
    { apply Hkeys. right. apply list_elem_of_fmap. by exists item. }
    apply list_elem_of_fmap in Hk as ([k q] & Hk & Hin). simpl in Hk. subst k.
    destruct (Hlook _ _ Hin) as (p & Hp & Hact & Hstock).
    by exists q, p. }
  assert (Hnodup : NoDup (p_sku <$> found)).
  { apply (found_skus_NoDup (skuQty.*1)); [done|by rewrite length_fmap|].
    intros k Hk. apply list_elem_of_fmap in Hk as ([k' q] & -> & Hin). simpl.
    destruct (Hlook _ _ Hin) as (p & Hp & _).
    apply productBySku_lookup in Hp as [? ?]. by exists p. }
  exists skuQty. split_and!; try done.
  - intros item Hitem. destruct (Hentry item Hitem) as (q & p & _ & Hp & _).
    apply Hfound in Hp as [? ?]. by exists p.
  - intros item p Hitem Hin Hsku.
    destruct (Hentry item Hitem) as (q & p' & Hq & Hp' & Hact & Hstock).
    apply productBySku_lookup in Hp' as [Hin' Hsku'].
    assert (Hp : p ∈ found).
    { apply list_elem_of_filter. split; [|done]. rewrite Hsku, <- Hsku'.
      by apply list_elem_of_filter in Hin' as [? _]. }
    assert (p = p') as -> by (apply (NoDup_fmap_eq p_sku found); congruence).
    split; [done|]. by rewrite <- (Hqty _ _ Hq).
Qed.

(** The rows priced for a cart: one for each SKU the cart names, none for
    any other, each with the quantity the lines of that SKU add up to. *)
Lemma priced_cart_skus (payload : order_payload) (st : store)
    (rows : list item_row) (subtotal : Q) :
  priced_cart payload st = Ok (rows, subtotal) →
  NoDup (r_sku <$> rows)
  ∧ (∀ sku, sku ∈ r_sku <$> rows
            ↔ sku ∈ (λ it, Js.trim (ci_productId it)) <$> pl_items payload)
  ∧ Forall (λ r, r_qty r = requested_qty (pl_items payload) (r_sku r)
                 ∧ ∃ p, p ∈ products st ∧ p_sku p = r_sku r
                        ∧ r_unit_price r = p_price p
                        ∧ r_line_total r
                          = (p_price p * inject_Z (r_qty r))%Q) rows.
Proof.
  intros Hp.
  destruct (priced_cart_ok _ _ _ _ Hp)
    as (skuQty & Hmerge & _ & Hlines & _ & Hqty & _).
  destruct (merge_items_inv _ _ _ Hmerge) as (_ & Hnd & Hkeys & _).
  { simpl. apply NoDup_nil_2. }
  assert (Hskus : r_sku <$> rows = skuQty.*1).
  { clear -Hlines. induction Hlines as [|entry r entries rows Hline _ IH]; [done|].
    rewrite !fmap_cons. destruct Hline as (-> & _). by rewrite IH. }
  rewrite Hskus. split; [done|]. split.
  { intros sku. rewrite Hkeys. simpl. rewrite elem_of_nil. tauto. }
  clear Hskus Hkeys Hnd Hmerge Hp.
  induction Hlines as [|entry r entries rows Hline _ IH]; [constructor|].
  constructor.
  - destruct Hline as (Hs & Hq & p & Hin & Hsku & _ & _ & _ & _ & Hprice & Htotal).
    split.
    + rewrite Hs, Hq. destruct entry as [k q]. apply Hqty. left.
    + exists p. rewrite Hs, Hq. by split_and!.
  - apply IH. intros k q Hin. apply Hqty. by right.
Qed.

Section OrderBuilderProperties.
Variable APP_BASE_URL : string.
Variable encodeURIComponent : string → string.
Variable paymongoCreateCheckoutSession :
  checkout_request → outcome (option checkout_session).

Lemma createOrder_eq (orderCode newId : string) (payload : order_payload)
    (authProfile : option profile) (st : store) :
  createOrder APP_BASE_URL encodeURIComponent paymongoCreateCheckoutSession
    orderCode newId payload authProfile st
  = if negb (required_fields_present authProfile
               (Js.trim (pl_customerName payload)) (Js.trim (pl_contact payload))
               (Js.trim (pl_address payload)) (pl_items payload))
    then (Throw (plain_error "Missing required order fields."), st)
    else
      match priced_cart payload st with
      | Throw e => (Throw e, st)
      | Ok (itemRows, subtotal) =>
          let st1 := order_written orderCode newId payload authProfile
                       itemRows subtotal st in
          let userId := from_option pr_user_id "" authProfile in
          if isQrphMethod (effective_payment_method payload)
          then
            match paymongoCreateCheckoutSession
                    (checkout_request_for APP_BASE_URL encodeURIComponent
                       orderCode itemRows) with
            | Throw e => (Throw e, st1)
            | Ok checkout =>
                let st2 := session_recorded orderCode newId
                             (or_null (checkout ≫= cs_id)) st1 in
                (Ok (CreateResult (read_back orderCode userId st2)
                       (or_null (checkout ≫= cs_checkout_url))),
                 st2)
            end
          else
            (Ok (CreateResult (read_back orderCode userId st1) None), st1)
      end.
Proof.
  unfold createOrder, priced_cart.
  fold (effective_payment_method payload).
  destruct (negb (required_fields_present _ _ _ _ _)); [done|].
  unfold mbind at 1. unfold M_bind at 1. unfold liftO at 1.
  destruct (merge_items (pl_items payload) []) as [skuQty|e]; [|done].
  unfold mbind at 1. unfold M_bind at 1. rewrite getProductsBySkus_eq.
  set (found := filter _ (products st)).
  destruct (negb (bool_decide (length found = length skuQty))); [done|].
  unfold mbind at 1. unfold M_bind at 1. unfold liftO at 1.
  destruct (price_items (productBySku found) skuQty [] 0%Q)
    as [[itemRows subtotal]|e]; [|done].
  unfold mbind at 1. unfold M_bind at 1. unfold insert_order at 1.
  unfold mbind at 1. unfold M_bind at 1. unfold insert_order_items at 1.
  unfold mbind at 1. unfold M_bind at 1. unfold insert_order_status_event at 1.
  unfold mbind at 1. unfold M_bind at 1. unfold insert_payment at 1.
  cbn [o_id o_order_code].
  fold (deliveryFee subtotal).
  change (set_payments _ (set_order_status_events _ (set_order_items _ (set_orders _ st))))
    with (order_written orderCode newId payload authProfile itemRows subtotal st).
  set (st1 := order_written orderCode newId payload authProfile itemRows subtotal st).
  destruct (isQrphMethod (effective_payment_method payload)).
  - unfold mbind at 1. unfold M_bind at 1.
    unfold mbind at 1. unfold M_bind at 1. unfold liftO at 1.
    fold (checkout_request_for APP_BASE_URL encodeURIComponent orderCode itemRows).
    destruct (paymongoCreateCheckoutSession _) as [checkout|e]; [|done].
    unfold mbind at 1. unfold M_bind at 1.
    destruct (or_null (checkout ≫= cs_id)) as [sid|] eqn:Hsid.
    + unfold_monad. rewrite getOrderForUserId_eq. done.
    + unfold_monad. rewrite getOrderForUserId_eq. done.
  - unfold mbind at 1. unfold M_bind at 1. unfold mret at 1. unfold M_ret at 1.
    unfold mbind at 1. unfold M_bind at 1. rewrite getOrderForUserId_eq.
    done.
Qed.

Lemma required_fields_present_true (authProfile : option profile)
    (customerName contact address : string) (items : list cart_item) :
  required_fields_present authProfile customerName contact address items = true →
  from_option pr_user_id "" authProfile ≠ ""
  ∧ customerName ≠ "" ∧ contact ≠ "" ∧ address ≠ "" ∧ items ≠ [].
Proof.
  unfold required_fields_present. rewrite !andb_true_iff, negb_true_iff.
  rewrite !truthy_true_iff, bool_decide_eq_false.
  intros [[[[Hu ?] ?] ?] ?]. split_and!; try done.
  destruct authProfile as [pr|]; [|done]. simpl.
  by apply truthy_true_iff.
Qed.

(** C9. A request that fails a check of the order builder (requester, name,
    contact or address missing, no item, an item without SKU or with a
    quantity that is not positive, a SKU the catalogue does not hold, an
    inactive product, or less stock than the merged quantity) makes
    [createOrder] throw, with the store exactly as it was: no order, item,
    status event or payment row is written. *)
Theorem createOrder_rejects_invalid
    (orderCode newId : string) (payload : order_payload)
    (authProfile : option profile) (st : store) :
  invalid_request payload authProfile st →
  ∃ e,
    createOrder APP_BASE_URL encodeURIComponent paymongoCreateCheckoutSession
      orderCode newId payload authProfile st
    = (Throw e, st).
Proof.
  intros Hbad. rewrite createOrder_eq.
  destruct (negb (required_fields_present _ _ _ _ _)) eqn:Hreq; [by eauto|].
  apply negb_false_iff, required_fields_present_true in Hreq
    as (Hu & Hn & Hc & Ha & Hi).
  destruct (priced_cart payload st) as [[rows subtotal]|e] eqn:Hp; [|by eauto].
  exfalso.
  destruct (priced_cart_ok _ _ _ _ Hp)
    as (skuQty & Hmerge & Hvalid & _ & _ & _ & Hres & Hok).
  rewrite Forall_forall in Hvalid.
  destruct Hbad as [?|[?|[?|[?|[?|[Hb|[Hb|[Hb|Hb]]]]]]]]; try done.
  - destruct Hb as (item & Hin & Hb). destruct (Hvalid item Hin) as [? ?].
    destruct Hb; [done|lia].
  - destruct Hb as (item & Hin & Hb). destruct (Hres item Hin) as (p & Hp' & Hs).
    by apply (Hb p).
  - destruct Hb as (item & p & Hin & Hp' & Hs & Hact).
    destruct (Hok item p Hin Hp' Hs) as [Hact' _]. congruence.
  - destruct Hb as (item & p & Hin & Hp' & Hs & Hstock).
    destruct (Hok item p Hin Hp' Hs) as [_ Hstock']. lia.
Qed.

Lemma last_patch_rows_snoc {A} (f : A → bool) (upd : A → A) (l : list A) (x : A) :
  last (patch_rows f upd (l ++ [x])) = Some (if f x then upd x else x).
Proof. unfold patch_rows. rewrite fmap_app. simpl. apply last_snoc. Qed.

(** What is left of the order row in the store, whichever way the run ends
    once the checks have passed. *)
Lemma createOrder_written (orderCode newId : string) (payload : order_payload)
    (authProfile : option profile) (st st' : store)
    (r : outcome create_result) :
  createOrder APP_BASE_URL encodeURIComponent paymongoCreateCheckoutSession
    orderCode newId payload authProfile st = (r, st') →
  (∃ e, r = Throw e ∧ st' = st)
  ∨ ∃ rows subtotal session,
      priced_cart payload st = Ok (rows, subtotal)
      ∧ last (orders st')
        = Some (from_option
                  (λ sid, set_order_session sid
                            (new_order orderCode newId payload authProfile subtotal))
                  (new_order orderCode newId payload authProfile subtotal)
                  session)
      ∧ length (orders st') = S (length (orders st))
      ∧ order_items st' = order_items st ++ (with_order_id newId <$> rows)
      ∧ products st' = products st.
Proof.
  rewrite createOrder_eq.
  destruct (negb (required_fields_present _ _ _ _ _)).
  { intros [= <- <-]. left. by eauto. }
  destruct (priced_cart payload st) as [[rows subtotal]|e] eqn:Hp.
  2:{ intros [= <- <-]. left. by eauto. }
  cbv zeta.
  destruct (isQrphMethod (effective_payment_method payload)).
  - destruct (paymongoCreateCheckoutSession _) as [checkout|e].
    + intros [= <- <-]. right.
      exists rows, subtotal, (or_null (checkout ≫= cs_id)).
      split; [done|].
      destruct (or_null (checkout ≫= cs_id)) as [sid|]; simpl.
      * rewrite last_patch_rows_snoc. unfold has_code, new_order at 1. simpl.
        rewrite bool_decide_eq_true_2 by done.
        split_and!; try done.
        unfold patch_rows. by rewrite length_fmap, length_app, Nat.add_1_r.
      * rewrite last_snoc. split_and!; try done.
        by rewrite length_app, Nat.add_1_r.
    + intros [= <- <-]. right. exists rows, subtotal, None.
      split; [done|]. simpl. rewrite last_snoc. split_and!; try done.
      by rewrite length_app, Nat.add_1_r.
  - intros [= <- <-]. right. exists rows, subtotal, None.
    split; [done|]. simpl. rewrite last_snoc. split_and!; try done.
    by rewrite length_app, Nat.add_1_r.
Qed.

(** C8. The order row [createOrder] inserts starts in [pending_payment]
    exactly when its payment method is a QRPH method, and in [order_placed]
    for every other method.  The payment method is the one of the payload,
    trimmed, an absent one counting as "QRPH". *)
Theorem createOrder_initial_status
    (orderCode newId : string) (payload : order_payload)
    (authProfile : option profile) (st st' : store)
    (r : outcome create_result) :
  createOrder APP_BASE_URL encodeURIComponent paymongoCreateCheckoutSession
    orderCode newId payload authProfile st = (r, st') →
  (∃ e, r = Throw e ∧ st' = st)
  ∨ ∃ o,
      last (orders st') = Some o
      ∧ length (orders st') = S (length (orders st))
      ∧ o_id o = newId
      ∧ o_order_code o = orderCode
      ∧ o_payment_method o = effective_payment_method payload
      ∧ (o_status o = pending_payment ↔ isQrphMethod (o_payment_method o) = true)
      ∧ (o_status o = order_placed ↔ isQrphMethod (o_payment_method o) = false).
Proof.
  intros Hrun. apply createOrder_written in Hrun
    as [?|(rows & subtotal & session & _ & Hlast & Hlen & _)]; [by left|].
  right. eexists. split; [exact Hlast|].
  split; [done|].
  destruct session as [sid|]; simpl;
    destruct (isQrphMethod (effective_payment_method payload)); simpl;
    split_and!; try done; split; done.
Qed.

Lemma items_subtotal_with_order_id (orderId : string) (rows : list item_row) :
  items_subtotal (with_order_id orderId <$> rows) = sum_lines rows.
Proof.
  unfold items_subtotal, sum_lines. generalize 0%Q.
  induction rows as [|r rows IH]; intros acc; [done|].
  rewrite fmap_cons. simpl. apply IH.
Qed.

Lemma stored_lines_with_order_id (orderId : string) (catalog : list product)
    (entries : list (string * Z)) (rows : list item_row) :
  Forall2 (priced_line catalog) entries rows →
  Forall2 (stored_line catalog) entries (with_order_id orderId <$> rows).
Proof.
  induction 1 as [|entry r entries rows Hline _ IH]; [constructor|].
  rewrite fmap_cons. constructor; [|done].
  destruct Hline as (Hs & Hq & p & Hin & Hsku & _ & _ & Hid & _ & Hprice & Htotal).
  split_and!; [done|done|]. exists p. split_and!; try done.
  simpl. by rewrite Hid.
Qed.

Lemma merge_items_ext (items items' : list cart_item) (acc : list (string * Z)) :
  (λ it, (ci_productId it, ci_qty it)) <$> items
  = (λ it, (ci_productId it, ci_qty it)) <$> items' →
  merge_items items acc = merge_items items' acc.
Proof.
  revert items' acc. induction items as [|it items IH]; intros [|it' items'] acc;
    try done.
  rewrite !fmap_cons. intros [= Hp Hq Hrest]. simpl. rewrite Hp, Hq.
  destruct (negb _ || _); [done|]. by apply IH.
Qed.

Lemma patch_rows_amounts (f : order → bool) (upd : order → order) (l : list order) :
  (∀ o, amounts (upd o) = amounts o) →
  amounts <$> patch_rows f upd l = amounts <$> l.
Proof.
  intros Hupd. unfold patch_rows. rewrite <- list_fmap_compose.
  apply list_fmap_ext. intros ? o _. simpl. by destruct (f o).
Qed.

(** Nothing the lifecycle does later rewrites the amounts or the item rows
    of an order, and neither does a change of the catalogue. *)
Lemma stored_amounts_immutable (st : store) :
  (∀ f upd,
     amounts <$> orders (patch_products f upd st).2 = amounts <$> orders st
     ∧ order_items (patch_products f upd st).2 = order_items st)
  ∧ (∀ orderCode input actor,
       amounts <$> orders (updateOrderStatus orderCode input actor st).2
       = amounts <$> orders st
       ∧ order_items (updateOrderStatus orderCode input actor st).2
         = order_items st)
  ∧ (∀ now a,
       amounts <$> orders (markOrderPaidFromWebhook now a st).2
       = amounts <$> orders st
       ∧ order_items (markOrderPaidFromWebhook now a st).2 = order_items st).
Proof.
  split_and!.
  - done.
  - intros orderCode input actor. rewrite updateOrderStatus_unfold.
    destruct (uiStatusToDbStatus input) as [target|]; [|done].
    destruct (order_by_code orderCode st) as [o|]; [|done].
    destruct (unpaidQrph o && negb (allowed_before_payment target)); [done|].
    simpl. split; [|done]. apply patch_rows_amounts. by destruct target.
  - intros now a. rewrite markOrderPaidFromWebhook_eq.
    destruct (event_recorded (w_eventId a) st); [done|].
    destruct (resolved_order a st) as [o|]; [|done].
    simpl. split.
    + rewrite orders_stock_deducted. simpl. by apply patch_rows_amounts.
    + unfold stock_deducted.
      by destruct (stock_marker_present (o_id o) (paid_orders now a o st)).
Qed.

(** C7. The order row [createOrder] inserts has [total = subtotal +
    delivery fee], and its subtotal is the sum of unit price times quantity
    over the item rows inserted with it.  These rows are one for each SKU
    the cart names and none for any other; the row of a SKU carries the
    quantity the lines of that SKU add up to, and the price the catalogue
    holds for that SKU when the order is built.  What the client says of
    prices plays no part: two payloads that agree on contact fields, payment
    method and the SKU and quantity of each line give the same run.  Later
    status updates, payment confirmations and changes of the catalogue leave
    the amounts and the item rows as stored. *)
Theorem createOrder_totals
    (orderCode newId : string) (payload : order_payload)
    (authProfile : option profile) (st st' : store)
    (r : outcome create_result) :
  createOrder APP_BASE_URL encodeURIComponent paymongoCreateCheckoutSession
    orderCode newId payload authProfile st = (r, st') →
  ((∃ e, r = Throw e ∧ st' = st)
   ∨ ∃ o new_items skuQty,
       last (orders st') = Some o
       ∧ o_id o = newId
       ∧ order_items st' = order_items st ++ new_items
       ∧ Forall (λ it, i_order_id it = newId) new_items
       ∧ merge_items (pl_items payload) [] = Ok skuQty
       ∧ (∀ sku qty, (sku, qty) ∈ skuQty →
                     qty = requested_qty (pl_items payload) sku)
       ∧ Forall2 (stored_line (products st)) skuQty new_items
       ∧ o_subtotal o = items_subtotal new_items
       ∧ o_delivery_fee o = deliveryFee (o_subtotal o)
       ∧ o_total o = (o_subtotal o + o_delivery_fee o)%Q
       ∧ NoDup (i_sku <$> new_items)
       ∧ (∀ sku, sku ∈ i_sku <$> new_items
                 ↔ sku ∈ (λ it, Js.trim (ci_productId it)) <$> pl_items payload)
       ∧ Forall (λ it, i_qty it = requested_qty (pl_items payload) (i_sku it)
                       ∧ ∃ p, p ∈ products st ∧ p_sku p = i_sku it
                              ∧ i_unit_price it = p_price p
                              ∧ i_line_total it
                                = (p_price p * inject_Z (i_qty it))%Q)
                new_items)
  ∧ (∀ payload',
       same_request payload payload' →
       createOrder APP_BASE_URL encodeURIComponent paymongoCreateCheckoutSession
         orderCode newId payload' authProfile st = (r, st'))
  ∧ (∀ f upd,
       amounts <$> orders (patch_products f upd st').2 = amounts <$> orders st'
       ∧ order_items (patch_products f upd st').2 = order_items st')
  ∧ (∀ code input actor,
       amounts <$> orders (updateOrderStatus code input actor st').2
       = amounts <$> orders st'
       ∧ order_items (updateOrderStatus code input actor st').2 = order_items st')
  ∧ (∀ now a,
       amounts <$> orders (markOrderPaidFromWebhook now a st').2
       = amounts <$> orders st'
       ∧ order_items (markOrderPaidFromWebhook now a st').2 = order_items st').
Proof.
  intros Hrun. split; [|split; [|apply stored_amounts_immutable]].
  - apply createOrder_written in Hrun
      as [?|(rows & subtotal & session & Hp & Hlast & _ & Hitems & _)]; [by left|].
    right.
    destruct (priced_cart_ok _ _ _ _ Hp)
      as (skuQty & Hmerge & _ & Hlines & Hsum & Hqty & _).
    destruct (priced_cart_skus _ _ _ _ Hp) as (Hnd & Hskus & Hrows).
    assert (Hsku : i_sku <$> (with_order_id newId <$> rows) = r_sku <$> rows).
    { rewrite <- list_fmap_compose. by apply list_fmap_ext. }
    eexists _, (with_order_id newId <$> rows), skuQty.
    split; [exact Hlast|].
    assert (Hsub : subtotal = items_subtotal (with_order_id newId <$> rows))
      by (by rewrite items_subtotal_with_order_id).
    rewrite Hsku.
    destruct session as [sid|]; simpl; split_and!; try done;
      try (by apply stored_lines_with_order_id);
      apply Forall_fmap, Forall_forall; try (by intros);
      rewrite Forall_forall in Hrows; intros x Hx; exact (Hrows x Hx).
  - intros payload' (Hn & Hc & Ha & Hm & Hitems). rewrite <- Hrun.
    destruct payload as [n c a m items], payload' as [n' c' a' m' items'].
    simpl in *. subst n' c' a' m'.
    rewrite !createOrder_eq. simpl.
    assert (Hempty : bool_decide (items' = []) = bool_decide (items = [])).
    { destruct items, items'; done. }
    unfold required_fields_present. rewrite Hempty.
    unfold priced_cart. simpl. rewrite (merge_items_ext items' items) by done.
    done.
Qed.

End OrderBuilderProperties.

Lemma createOrder_rejects_invalid_witness :
  ∃ e, Sample.place "ORD-3" "o3" Sample.greedy_cart Sample.catalog
       = (Throw e, Sample.catalog).
Proof.
  apply (createOrder_rejects_invalid "https://shop.example" id Sample.gateway
           "ORD-3" "o3" Sample.greedy_cart (Some Sample.customer) Sample.catalog).
  do 8 right.
  exists (CartItem "P001" 11 "Cola" 1 "cola.png"), Sample.cola.
  split_and!; [left|left|reflexivity|vm_compute; reflexivity].
Defined.

Lemma createOrder_initial_status_witness :
  (∃ o, last (orders (Sample.place "ORD-3" "o3" Sample.qr_cart Sample.catalog).2)
        = Some o
        ∧ o_payment_method o = "QRPH" ∧ o_status o = pending_payment)
  ∧ (∃ o, last (orders (Sample.place "ORD-3" "o3" Sample.cash_cart Sample.catalog).2)
          = Some o
          ∧ o_payment_method o = "Cash on Delivery" ∧ o_status o = order_placed).
Proof.
  split.
  - destruct (createOrder_initial_status "https://shop.example" id Sample.gateway
                "ORD-3" "o3" Sample.qr_cart (Some Sample.customer) Sample.catalog
                (Sample.place "ORD-3" "o3" Sample.qr_cart Sample.catalog).2
                (Sample.place "ORD-3" "o3" Sample.qr_cart Sample.catalog).1)
      as [(e & He & _)|(o & Hlast & _ & _ & _ & Hm & Hs & _)].
    + vm_compute. reflexivity.
    + vm_compute in He. discriminate He.
    + exists o. split_and!; [exact Hlast|exact Hm|].
      apply Hs. rewrite Hm. vm_compute. reflexivity.
  - destruct (createOrder_initial_status "https://shop.example" id Sample.gateway
                "ORD-3" "o3" Sample.cash_cart (Some Sample.customer) Sample.catalog
                (Sample.place "ORD-3" "o3" Sample.cash_cart Sample.catalog).2
                (Sample.place "ORD-3" "o3" Sample.cash_cart Sample.catalog).1)
      as [(e & He & _)|(o & Hlast & _ & _ & _ & Hm & _ & Hs)].
    + vm_compute. reflexivity.
    + vm_compute in He. discriminate He.
    + exists o. split_and!; [exact Hlast|exact Hm|].
      apply Hs. rewrite Hm. vm_compute. reflexivity.
Defined.

Lemma createOrder_totals_witness :
  ∃ o it,
    last (orders (Sample.place "ORD-3" "o3" Sample.cash_cart Sample.catalog).2)
    = Some o
    ∧ it ∈ order_items (Sample.place "ORD-3" "o3" Sample.cash_cart
                          Sample.catalog).2
    ∧ i_sku it = "P001" ∧ i_qty it = 2 ∧ i_unit_price it = 55%Q
    ∧ o_subtotal o
      = items_subtotal
          (order_items (Sample.place "ORD-3" "o3" Sample.cash_cart
                          Sample.catalog).2)
    ∧ o_total o = (o_subtotal o + o_delivery_fee o)%Q.
Proof.
  destruct (createOrder_totals "https://shop.example" id Sample.gateway
              "ORD-3" "o3" Sample.cash_cart (Some Sample.customer) Sample.catalog
              (Sample.place "ORD-3" "o3" Sample.cash_cart Sample.catalog).2
              (Sample.place "ORD-3" "o3" Sample.cash_cart Sample.catalog).1)
    as [[(e & He & _)|(o & its & skuQty & Hlast & _ & Hits & _ & _ & _ & _
                       & Hsub & _ & Htot & _ & Hskus & Hrows)] _].
  - vm_compute. reflexivity.
  - vm_compute in He. discriminate He.
  - assert (Hin : "P001" ∈ i_sku <$> its).
    { apply Hskus. vm_compute. left. }
    apply list_elem_of_fmap in Hin as (it & Hsku & Hin).
    rewrite Forall_forall in Hrows.
    destruct (Hrows it Hin) as (Hqty & p & Hp & Hpsku & Hprice & _).
    exists o, it. split_and!; [exact Hlast| |by symmetry| | |
                               rewrite Hits; exact Hsub|exact Htot].
    + rewrite Hits. apply elem_of_app. right. exact Hin.
    + rewrite Hqty, <- Hsku. vm_compute. reflexivity.
    + rewrite Hprice. rewrite <- Hsku in Hpsku.
      change (products Sample.catalog) with [Sample.cola; Sample.sampler] in Hp.
      apply elem_of_cons in Hp as [->|Hp]; [reflexivity|].
      apply elem_of_cons in Hp as [->|Hp]; [discriminate Hpsku|].
      by apply elem_of_nil in Hp.
Defined.

(** ** Delivery fee *)

Lemma deliveryFee_steps (subtotal : Q) :
  ((800 <= subtotal)%Q → deliveryFee subtotal = 0%Q)
  ∧ ((subtotal < 800)%Q → deliveryFee subtotal = 60%Q).
Proof.
  unfold deliveryFee. split; intros H.
  - apply Qle_bool_iff in H. by rewrite H.
  - destruct (Qle_bool 800 subtotal) eqn:Hle; [|done].
    apply Qle_bool_iff in Hle. by apply Qle_not_lt in Hle.
Qed.

(** C5, at the failing input. An order for one case of a product priced 0
    has subtotal 0 and is charged the flat fee of 60 by [createOrder], where
    the cart page ([computeCartTotals]) shows a fee of 0 for the same cart;
    on the other three sample subtotals the two agree. *)
Theorem createOrder_fee_on_zero_subtotal :
  (∃ v, (Sample.place "ORD-3" "o3" Sample.free_cart Sample.catalog).1 = Ok v)
  ∧ (λ o, (o_subtotal o, o_delivery_fee o, o_total o))
      <$> orders (Sample.place "ORD-3" "o3" Sample.free_cart Sample.catalog).2
    = [(0, 60, 60)%Q]
  ∧ computeCartTotals [ClientProduct "FREE" 0] [ClientCartLine "FREE" 1]
    = (0, 0, 0)%Q
  ∧ deliveryFee 0 = 60%Q
  ∧ deliveryFee (79999 # 100) = 60%Q
  ∧ deliveryFee 800 = 0%Q
  ∧ deliveryFee 1500 = 0%Q.
Proof.
  split_and!; try (vm_compute; reflexivity).
  eexists. vm_compute. reflexivity.
Qed.


(** * Properties of the further functions *)

(** ** Status labels *)

Lemma status_of_label_Some (key : string) (s : status) :
  status_of_label key = Some s → key = status_str s ∨ key = toUiStatus s.
Proof.
  unfold status_of_label.
  repeat (case_decide; [subst key; intros [= <-]; auto |]).
  done.
Qed.

Lemma status_of_label_None (key : string) (s : status) :
  status_of_label key = None → key ≠ status_str s ∧ key ≠ toUiStatus s.
Proof.
  unfold status_of_label. repeat (case_decide; [done|]).
  intros _. by destruct s.
Qed.

(** X1. Every status the server stores is accepted back by
    [uiStatusToDbStatus], under its database name and under the label
    [toUiStatus] shows for it; the label leads back to the same status except
    for [pending_payment], which is shown as "Order Placed" and so comes back
    as [order_placed].  A status is returned only for a string that, once
    trimmed, is such a name or such a label.  These are not the only strings
    accepted: for the name of a member every object inherits, such as
    [constructor] or [toString], the lookup returns that member, which is
    truthy, and not the empty string.  The empty string is returned for
    every other input. *)
Theorem uiStatusToDbStatus_roundtrip :
  (∀ s, uiStatusToDbStatus (status_str s) = Some (Plain s))
  ∧ (∀ s, uiStatusToDbStatus (toUiStatus s)
          = Some (Plain (if decide (s = pending_payment) then order_placed
                         else s)))
  ∧ (∀ input s, uiStatusToDbStatus input = Some (Plain s) →
                Js.trim input = status_str s ∨ Js.trim input = toUiStatus s)
  ∧ (∀ input key, uiStatusToDbStatus input = Some (Member key) ↔
                  key = Js.trim input ∧ key ∈ object_prototype_members)
  ∧ (∀ input, uiStatusToDbStatus input = None ↔
              (∀ s, Js.trim input ≠ status_str s ∧ Js.trim input ≠ toUiStatus s)
              ∧ Js.trim input ∉ object_prototype_members)
  ∧ uiStatusToDbStatus "constructor" = Some (Member "constructor")
  ∧ uiStatusToDbStatus " toString " = Some (Member "toString").
Proof.
  split_and!.
  - by intros [].
  - by intros [].
  - intros input s. rewrite uiStatusToDbStatus_cases.
    destruct (status_of_label (Js.trim input)) as [s'|] eqn:Hl.
    + intros [= <-]. by apply status_of_label_Some.
    + by case_bool_decide.
  - intros input key. rewrite uiStatusToDbStatus_cases.
    destruct (status_of_label (Js.trim input)) as [s'|] eqn:Hl.
    + split; [done|]. intros [-> Hin]. exfalso.
      apply status_of_label_Some in Hl.
      unfold object_prototype_members in Hin. rewrite !elem_of_cons in Hin.
      rewrite elem_of_nil in Hin.
      destruct s'; simpl in Hl; destruct Hl as [Hl|Hl]; rewrite Hl in Hin;
        repeat (destruct Hin as [Hin|Hin]; [discriminate Hin|]); done.
    + case_bool_decide as Hin.
      * split; [by intros [= <-]|]. by intros [-> _].
      * split; [done|]. by intros [-> ?].
  - intros input. rewrite uiStatusToDbStatus_cases.
    destruct (status_of_label (Js.trim input)) as [s'|] eqn:Hl.
    + split; [done|]. intros [Hno _]. exfalso.
      apply status_of_label_Some in Hl. destruct (Hno s'). tauto.
    + case_bool_decide as Hin.
      * split; [done|]. by intros [_ ?].
      * split; [|done]. intros _. split; [|done].
        intros s. by apply status_of_label_None.
  - reflexivity.
  - reflexivity.
Qed.

(** ** Quoting of filter values *)

Lemma count_char_app (c : ascii) (a b : string) :
  JsText.count_char c (a +:+ b)
  = (JsText.count_char c a + JsText.count_char c b)%nat.
Proof.
  induction a as [|x a IH]; [done|].
  change (String x a +:+ b) with (String x (a +:+ b)). simpl. rewrite IH. lia.
Qed.

Lemma count_char_removeQuotes (v : string) :
  JsText.count_char JsText.quote_char (Js.removeQuotes v) = 0%nat.
Proof.
  induction v as [|x v IH]; [done|]. simpl.
  destruct (decide (x = "034"%char)) as [->|Hx]; [done|].
  simpl. unfold JsText.quote_char. by rewrite decide_False.
Qed.

Lemma removeQuotes_id (v : string) :
  JsText.count_char JsText.quote_char v = 0%nat → Js.removeQuotes v = v.
Proof.
  induction v as [|x v IH]; [done|]. simpl. unfold JsText.quote_char in *.
  destruct (decide (x = "034"%char)) as [->|Hx]; [done|].
  intros H. by rewrite IH.
Qed.

Lemma count_char_join_wrapped (ws : list string) :
  Forall (λ w, JsText.count_char JsText.quote_char w = 2%nat) ws →
  JsText.count_char JsText.quote_char (JsText.join "," ws) = (2 * length ws)%nat.
Proof.
  induction 1 as [|w ws Hw Hws IH]; [done|].
  destruct ws as [|w' ws]; [simpl; lia|].
  change (JsText.join "," (w :: w' :: ws))
    with (w +:+ "," +:+ JsText.join "," (w' :: ws)).
  rewrite !count_char_app, Hw, IH. simpl. lia.
Qed.

(** X2. In the text [escapeCsvValues] builds for an [in.(...)] filter no
    value can close its own quoting: the text holds exactly two double
    quotes per value, the ones wrapped around it, whatever the values
    contain; and a value without double quotes is passed unchanged. *)
Theorem escapeCsvValues_quotes (values : list string) :
  JsText.count_char JsText.quote_char (escapeCsvValuesText values)
  = (2 * length values)%nat
  ∧ Forall (λ v, JsText.count_char JsText.quote_char v = 0%nat)
           (escapeCsvValues values)
  ∧ (Forall (λ v, JsText.count_char JsText.quote_char v = 0%nat) values →
     escapeCsvValues values = values).
Proof.
  split_and!.
  - unfold escapeCsvValuesText. rewrite <- (length_fmap
      (λ v, JsText.quote +:+ Js.removeQuotes v +:+ JsText.quote) values).
    apply count_char_join_wrapped. apply Forall_fmap, Forall_forall.
    intros v _. simpl. rewrite !count_char_app, count_char_removeQuotes. done.
  - unfold escapeCsvValues. apply Forall_fmap, Forall_forall.
    intros v _. apply count_char_removeQuotes.
  - unfold escapeCsvValues. induction 1 as [|v values Hv _ IH]; [done|].
    rewrite fmap_cons, IH. by rewrite removeQuotes_id.
Qed.

Lemma escapeCsvValues_quotes_witness :
  escapeCsvValues ["P001"; "P002"] = ["P001"; "P002"].
Proof.
  apply (escapeCsvValues_quotes ["P001"; "P002"]).
  repeat constructor.
Defined.

(** ** Rewards *)

Lemma foldl_points_acc (orders : list ui_order) (a : Z) :
  foldl (λ sum o, sum + order_points (ui_total o)) a orders
  = a + foldl (λ sum o, sum + order_points (ui_total o)) 0 orders.
Proof.
  revert a. induction orders as [|o orders IH]; intros a; simpl; [lia|].
  rewrite (IH (a + _)), (IH (0 + _)). lia.
Qed.

Lemma foldl_total_acc (orders : list ui_order) (a : Q) :
  (foldl (λ sum o, sum + ui_total o) a orders
   == a + foldl (λ sum o, sum + ui_total o) 0 orders)%Q.
Proof.
  revert a. induction orders as [|o orders IH]; intros a; simpl.
  - ring.
  - rewrite (IH (a + _)%Q), (IH (0 + _)%Q). ring.
Qed.


Lemma points_divide (orders : list ui_order) (a : Z) :
  (10 | a) → (10 | foldl (λ sum o, sum + order_points (ui_total o)) a orders).
Proof.
  revert a. induction orders as [|o orders IH]; intros a Ha; [done|].
  simpl. apply IH. apply Z.divide_add_r; [done|].
  unfold order_points. apply Z.divide_mul_r, Z.divide_refl.
Qed.

Lemma order_points_le (x : Q) : (inject_Z (order_points x) * 10 <= x)%Q.
Proof.
  unfold order_points. rewrite inject_Z_mult.
  pose proof (Qfloor_le (x / 100)) as H.
  assert (Hx : (x / 100 * 100 == x)%Q) by (field; discriminate).
  change (inject_Z 10) with 10%Q. lra.
Qed.

Lemma points_le_spent (orders : list ui_order) (z : Z) (a : Q) :
  (inject_Z z * 10 <= a)%Q →
  (inject_Z (foldl (λ sum o, (sum + order_points (ui_total o))%Z) z orders) * 10
   <= foldl (λ sum o, sum + ui_total o) a orders)%Q.
Proof.
  revert z a. induction orders as [|o orders IH]; intros z a Hza; [done|].
  simpl. apply IH. rewrite inject_Z_plus.
  pose proof (order_points_le (ui_total o)). lra.
Qed.

(** X3. The points [computeRewardsForOrders] awards are a multiple of ten and
    never more than ten per full hundred of the amount spent (flooring order
    by order can only lose points against flooring the sum); and the rewards
    of two lists of orders put together are the sums of their rewards. *)
Theorem computeRewardsForOrders_points (orders more : list ui_order) :
  (10 | points (computeRewardsForOrders orders))
  ∧ points (computeRewardsForOrders orders)
    ≤ Qfloor (totalSpent (computeRewardsForOrders orders) / 100) * 10
  ∧ points (computeRewardsForOrders (orders ++ more))
    = points (computeRewardsForOrders orders)
      + points (computeRewardsForOrders more)
  ∧ (totalSpent (computeRewardsForOrders (orders ++ more))
     == totalSpent (computeRewardsForOrders orders)
        + totalSpent (computeRewardsForOrders more))%Q.
Proof.
  unfold computeRewardsForOrders. cbn [points totalSpent]. split_and!.
  - apply points_divide. by exists 0.
  - pose proof (points_divide orders 0 ltac:(by exists 0)) as [k Hk].
    pose proof (points_le_spent orders 0 0%Q ltac:(done)) as Hle.
    rewrite Hk in *.
    assert (Hk' : k ≤ Qfloor (foldl (λ sum o, (sum + ui_total o)%Q) 0%Q orders / 100)).
    { rewrite <- (Qfloor_Z k) at 1. apply Qfloor_resp_le.
      rewrite inject_Z_mult in Hle. change (inject_Z 10) with 10%Q in Hle.
      set (spent := foldl (λ sum o, (sum + ui_total o)%Q) 0%Q orders) in *.
      assert (Hx : (spent / 100 * 100 == spent)%Q) by (field; discriminate).
      lra. }
    lia.
  - rewrite foldl_app. apply foldl_points_acc.
  - rewrite foldl_app. apply foldl_total_acc.
Qed.

(** ** Stable sorting *)

Lemma insert_by_Permutation {A} (key : A → Z) (x : A) (l : list A) :
  insert_by key x l ≡ₚ x :: l.
Proof.
  induction l as [|y l IH]; [done|]. simpl.
  destruct (key x <=? key y); [done|].
  rewrite IH. apply Permutation_swap.
Qed.

Lemma sort_by_Permutation {A} (key : A → Z) (l : list A) : sort_by key l ≡ₚ l.
Proof.
  induction l as [|x l IH]; [done|].
  unfold sort_by in *. simpl. by rewrite insert_by_Permutation, IH.
Qed.

Lemma insert_by_sorted {A} (key : A → Z) (x : A) (l : list A) :
  StronglySorted (λ a b, key a ≤ key b) l →
  StronglySorted (λ a b, key a ≤ key b) (insert_by key x l).
Proof.
  induction 1 as [|y l Hl IH Hy]; simpl.
  - repeat constructor.
  - destruct (key x <=? key y) eqn:Hxy.
    + apply Z.leb_le in Hxy. constructor; [by constructor|].
      constructor; [done|].
      eapply Forall_impl; [exact Hy|]. intros z Hz. simpl in *. lia.
    + apply Z.leb_gt in Hxy. constructor; [done|].
      rewrite insert_by_Permutation. constructor; [lia|done].
Qed.

Lemma sort_by_sorted {A} (key : A → Z) (l : list A) :
  StronglySorted (λ a b, key a ≤ key b) (sort_by key l).
Proof.
  induction l as [|x l IH]; [constructor|].
  unfold sort_by in *. simpl. by apply insert_by_sorted.
Qed.

(** A list already in order is left as it is: elements of equal key keep
    their relative position. *)
Lemma sort_by_sorted_id {A} (key : A → Z) (l : list A) :
  StronglySorted (λ a b, key a ≤ key b) l → sort_by key l = l.
Proof.
  induction 1 as [|x l Hl IH Hx]; [done|].
  unfold sort_by in *. simpl. rewrite IH.
  destruct l as [|y l]; [done|]. simpl.
  apply Forall_cons_1 in Hx as [Hxy _].
  by rewrite (proj2 (Z.leb_le _ _) Hxy).
Qed.

(** ** Inventory panel and dashboard *)

Lemma stockStatus_low (n : Z) : stockStatus n ≠ "In Stock" ↔ n ≤ 10.
Proof.
  unfold stockStatus.
  destruct (n <=? 0) eqn:H0; [apply Z.leb_le in H0; split; [lia|done]|].
  destruct (n <=? 10) eqn:H10.
  - apply Z.leb_le in H10. done.
  - apply Z.leb_gt in H10. split; [done|lia].
Qed.

Lemma inventory_low_rows (ps : list listed_product) :
  filter (λ r, ir_status r ≠ "In Stock")
    ((λ p, InventoryRow p (stockStatus (lp_stockCases p))) <$> ps)
  = filter (λ r, lp_stockCases (ir_product r) ≤ 10)
      ((λ p, InventoryRow p (stockStatus (lp_stockCases p))) <$> ps).
Proof.
  induction ps as [|p ps IH]; [done|].
  rewrite fmap_cons, !filter_cons. cbn [ir_status ir_product]. rewrite IH.
  destruct (decide (stockStatus (lp_stockCases p) ≠ "In Stock")) as [H|H].
  - rewrite decide_True; [done|]. by apply stockStatus_low.
  - rewrite decide_False; [done|]. by rewrite <- stockStatus_low.
Qed.

Section PanelProperties.
Variable profiles : list profile.
Variable order_by_name : list product → list product.

Lemma listProducts_eq (st : store) :
  listProducts order_by_name st
  = (Ok (listed_of <$> order_by_name
           (filter (λ p, p_is_active p = true) (products st))), st).
Proof. done. Qed.

(** X4. The inventory panel reads the store without writing to it; it
    labels every listed product by its stock, and its low-stock list holds
    exactly the listed products with at most ten cases (out of stock
    included), each as often as listed, in order of non-decreasing stock. *)
Theorem getPanelInventory_lowStock (st : store) :
  ∃ inv,
    getPanelInventory order_by_name st = (Ok inv, st)
    ∧ ir_product <$> inventory inv
      = listed_of <$> order_by_name
                        (filter (λ p, p_is_active p = true) (products st))
    ∧ Forall (λ r, ir_status r = stockStatus (lp_stockCases (ir_product r)))
             (inventory inv)
    ∧ lowStock inv
      ≡ₚ filter (λ r, lp_stockCases (ir_product r) ≤ 10) (inventory inv)
    ∧ StronglySorted
        (λ a b, lp_stockCases (ir_product a) ≤ lp_stockCases (ir_product b))
        (lowStock inv).
Proof.
  unfold getPanelInventory. unfold mbind, M_bind. rewrite listProducts_eq.
  set (products := listed_of <$> _).
  eexists. split; [done|]. simpl. split_and!.
  - rewrite <- list_fmap_compose. apply list_fmap_id.
  - apply Forall_fmap, Forall_forall. by intros.
  - by rewrite sort_by_Permutation, inventory_low_rows.
  - apply sort_by_sorted.
Qed.

End PanelProperties.

Lemma filter_all {A} (l : list A) : filter (λ _ : A, true = true) l = l.
Proof.
  induction l as [|x l IH]; [done|]. by rewrite filter_cons, decide_True, IH.
Qed.

Lemma getPanelInventory_eq (order_by_name : list product → list product)
    (st : store) :
  getPanelInventory order_by_name st
  = (Ok (PanelInventory
           ((λ p, InventoryRow p (stockStatus (lp_stockCases p)))
              <$> (listed_of <$> order_by_name
                     (filter (λ p, p_is_active p = true) (products st))))
           (sort_by (λ r, lp_stockCases (ir_product r))
              (filter (λ r, ir_status r ≠ "In Stock")
                 ((λ p, InventoryRow p (stockStatus (lp_stockCases p)))
                    <$> (listed_of <$> order_by_name
                           (filter (λ p, p_is_active p = true)
                              (products st))))))),
     st).
Proof. done. Qed.

Lemma low_and_out_counts (ps : list listed_product) :
  (length (filter (λ p, (0 < lp_stockCases p ∧ lp_stockCases p ≤ 10)%Z) ps)
   + length (filter (λ p, (lp_stockCases p ≤ 0)%Z) ps))%nat
  = length (filter (λ r, lp_stockCases (ir_product r) ≤ 10)
              ((λ p, InventoryRow p (stockStatus (lp_stockCases p))) <$> ps)).
Proof.
  induction ps as [|p ps IH]; [done|].
  rewrite fmap_cons, !filter_cons. cbn [ir_product].
  destruct (decide (0 < lp_stockCases p ∧ lp_stockCases p ≤ 10)) as [H1|H1];
    destruct (decide (lp_stockCases p ≤ 0)) as [H2|H2];
    destruct (decide (lp_stockCases p ≤ 10)) as [H3|H3];
    simpl; try lia.
Qed.

Section DashboardProperties.
Variable profiles : list profile.
Variable order_by_name : list product → list product.

Lemma listAllOrdersDetailed_read (st : store) :
  ∃ ds,
    listAllOrdersDetailed profiles st = (Ok ds, st)
    ∧ length ds = length (orders st)
    ∧ (λ d, ui_total (do_view d)) <$> ds = o_total <$> reverse (orders st)
    ∧ (λ d, ui_id (do_view d)) <$> ds = o_order_code <$> reverse (orders st)
    ∧ do_userId <$> ds = o_user_id <$> reverse (orders st).
Proof.
  unfold listAllOrdersDetailed. unfold mbind at 1. unfold M_bind at 1.
  unfold select_orders at 1. rewrite filter_all.
  destruct (reverse (orders st)) as [|o os] eqn:Hrev.
  - eexists. split; [done|].
    rewrite <- (length_reverse (orders st)), Hrev. done.
  - unfold_monad. eexists. split; [done|].
    rewrite <- (length_reverse (orders st)), Hrev.
    rewrite length_fmap, <- !list_fmap_compose. done.
Qed.

(** X5. The dashboard reads the store without writing to it.  Its
    transaction count is the number of orders in the store, its recent
    orders are at most eight, and its low-stock and out-of-stock counts
    add up to the length of the low-stock list of the inventory panel. *)
Theorem getPanelDashboard_counts (st : store) :
  ∃ d inv,
    getPanelDashboard profiles order_by_name st = (Ok d, st)
    ∧ getPanelInventory order_by_name st = (Ok inv, st)
    ∧ k_transactions (kpis d) = length (orders st)
    ∧ length (recentOrders d) = (8 `min` length (orders st))%nat
    ∧ (k_lowStockCount (kpis d) + k_outOfStockCount (kpis d))%nat
      = length (lowStock inv)
    ∧ k_totalSales (kpis d)
      = foldl Qplus 0%Q (o_total <$> reverse (orders st)).
Proof.
  destruct (listAllOrdersDetailed_read st) as (ds & Hds & Hlen & Htot & _).
  unfold getPanelDashboard. unfold mbind at 1. unfold M_bind at 1. rewrite Hds.
  unfold mbind at 1. unfold M_bind at 1. rewrite listProducts_eq.
  rewrite getPanelInventory_eq.
  eexists _, _. split; [done|]. split; [done|]. simpl. split_and!.
  - done.
  - by rewrite length_take, Hlen.
  - by rewrite sort_by_Permutation, inventory_low_rows, low_and_out_counts.
  - rewrite <- Htot. clear. generalize 0%Q.
    induction ds as [|d ds IH]; intros a; [done|]. simpl. apply IH.
Qed.

End DashboardProperties.

(** ** Best seller *)

Lemma tally_inv (entries : list (string * Z)) (acc : list (string * Z)) :
  NoDup acc.*1 →
  NoDup (tally entries acc).*1
  ∧ (∀ k, k ∈ (tally entries acc).*1 ↔ k ∈ acc.*1 ∨ k ∈ entries.*1)
  ∧ (∀ k, k ∈ (tally entries acc).*1 →
          map_get k (tally entries acc)
          = Some (default 0 (map_get k acc)
                  + foldr Z.add 0 ((filter (λ e, e.1 = k) entries).*2))).
Proof.
  revert acc. induction entries as [|[name qty] entries IH]; intros acc Hnd.
  - cbn [tally]. split_and!; [done| |].
    + intros k. rewrite fmap_nil, elem_of_nil. tauto.
    + intros k Hk. apply list_elem_of_fmap in Hk as ([k' v] & -> & Hin).
      simpl. rewrite (map_get_elem k' v acc Hnd Hin). simpl. f_equal. lia.
  - cbn [tally].
    set (acc' := map_set name _ acc).
    destruct (IH acc') as (Hnd' & Hkeys & Hget).
    { by apply map_set_NoDup. }
    split_and!; [done| |].
    + intros k. rewrite Hkeys. subst acc'.
      rewrite map_set_keys, fmap_cons, elem_of_cons. simpl. tauto.
    + intros k Hk. rewrite (Hget k Hk). f_equal.
      rewrite filter_cons. subst acc'. simpl.
      destruct (decide (name = k)) as [<-|Hne].
      * rewrite map_get_set_eq, fmap_cons. simpl. lia.
      * by rewrite map_get_set_ne.
Qed.

Lemma best_of_from (m : list (string * Z)) (b : string * Z) :
  let r := foldl (λ best entry, if best.2 <? entry.2 then entry else best) b m in
  b.2 ≤ r.2
  ∧ (∀ e, e ∈ m → e.2 ≤ r.2)
  ∧ (r = b ∨ (r ∈ m ∧ b.2 < r.2)).
Proof.
  revert b. induction m as [|e m IH]; intros b; simpl.
  - split_and!; [lia| |by left]. intros e H. by apply elem_of_nil in H.
  - destruct (b.2 <? e.2) eqn:Hlt.
    + apply Z.ltb_lt in Hlt. destruct (IH e) as (H1 & H2 & H3).
      split_and!; [lia| |].
      * intros e' He'. apply elem_of_cons in He' as [->|He']; [done|by apply H2].
      * right. destruct H3 as [->|[Hin Hlt']].
        -- split; [left|done].
        -- split; [by right|lia].
    + apply Z.ltb_ge in Hlt. destruct (IH b) as (H1 & H2 & H3).
      split_and!; [done| |].
      * intros e' He'. apply elem_of_cons in He' as [->|He']; [lia|by apply H2].
      * destruct H3 as [->|[Hin Hlt']]; [by left|]. right. split; [by right|done].
Qed.

(** X6. The best seller of the dashboard is a product name under which at
    least as many units were sold as under any other name, counting over
    all items of all orders; it is "-" when no name sold a positive number
    of units. *)
Theorem bestSeller_maximal (orders : list detailed_order) :
  (∀ name, name ∈ (sold_lines orders).*1 →
           units_sold orders name
           ≤ (best_of (tally (sold_lines orders) [])).2)
  ∧ ((bestSeller orders = "-"
      ∧ ∀ name, name ∈ (sold_lines orders).*1 → units_sold orders name ≤ 0)
     ∨ (bestSeller orders ∈ (sold_lines orders).*1
        ∧ 0 < units_sold orders (bestSeller orders)
        ∧ ∀ name, name ∈ (sold_lines orders).*1 →
                  units_sold orders name ≤ units_sold orders (bestSeller orders))).
Proof.
  unfold bestSeller, units_sold.
  destruct (tally_inv (sold_lines orders) []) as (Hnd & Hkeys & Hget).
  { simpl. apply NoDup_nil_2. }
  set (m := tally (sold_lines orders) []) in *.
  destruct (best_of_from m ("-", 0)) as (H0 & Hmax & Hbest).
  fold (best_of m) in *. simpl in H0.
  assert (Hsold : ∀ name, name ∈ (sold_lines orders).*1 →
            (name, foldr Z.add 0 ((filter (λ e, e.1 = name) (sold_lines orders)).*2))
            ∈ m).
  { intros name Hname. apply map_get_Some_elem.
    rewrite Hget by (apply Hkeys; by right). done. }
  assert (Hle : ∀ name, name ∈ (sold_lines orders).*1 →
            foldr Z.add 0 ((filter (λ e, e.1 = name) (sold_lines orders)).*2)
            ≤ (best_of m).2).
  { intros name Hname. apply (Hmax _ (Hsold name Hname)). }
  split; [done|].
  destruct Hbest as [Hb|[Hin Hpos]].
  - left. rewrite Hb in *. simpl in *. done.
  - right. simpl in Hpos.
    assert (Hname : (best_of m).1 ∈ m.*1).
    { apply list_elem_of_fmap. by exists (best_of m). }
    assert (Hq : foldr Z.add 0
                   ((filter (λ e, e.1 = (best_of m).1) (sold_lines orders)).*2)
                 = (best_of m).2).
    { specialize (Hget _ Hname).
      destruct (best_of m) as [bn bq] eqn:Hbm. simpl in *.
      rewrite (map_get_elem bn bq m Hnd Hin) in Hget.
      injection Hget as ->. lia. }
    split_and!.
    + apply Hkeys in Hname as [Hn|Hn]; [|done]. by apply elem_of_nil in Hn.
    + by rewrite Hq.
    + intros name Hn. rewrite Hq. by apply Hle.
Qed.

(** ** Reading the orders of a user *)

Lemma listOrdersForUserId_eq (userId : string) (st : store) :
  listOrdersForUserId userId st
  = (Ok (if Js.truthy userId
         then order_view (orders_of_user userId st) st
                <$> orders_of_user userId st
         else []), st).
Proof.
  unfold listOrdersForUserId, orders_of_user.
  destruct (Js.truthy userId); [|done]. simpl.
  unfold mbind at 1. unfold M_bind at 1. unfold select_orders at 1.
  destruct (reverse _) as [|o os] eqn:Hrev; [done|].
  unfold_monad. done.
Qed.

Lemma in_filter_quote_free (ids : list string) (id : string) :
  quote_free id → id ∈ ids → in_filter ids id = true.
Proof.
  intros Hq Hin. unfold in_filter, escapeCsvValues.
  apply bool_decide_eq_true, list_elem_of_fmap.
  exists id. split; [|done]. symmetry. by apply removeQuotes_id.
Qed.

(** X7. [listOrdersForUserId] reads without writing and shows a user
    nothing but that user's orders, newest first, each with its own
    amounts and status label; every item and every status event shown under
    an order is a row of that order.  When the identifier of the order holds
    no double quote, all the item rows of the order are shown.  For an
    empty user identifier the list is empty. *)
Theorem listOrdersForUserId_isolation (userId : string) (st : store) :
  ∃ views,
    listOrdersForUserId userId st = (Ok views, st)
    ∧ (userId = "" → views = [])
    ∧ (userId ≠ "" →
       Forall2
         (λ v o,
            o ∈ orders st ∧ o_user_id o = userId
            ∧ ui_id v = o_order_code o
            ∧ ui_subtotal v = o_subtotal o ∧ ui_deliveryFee v = o_delivery_fee o
            ∧ ui_total v = o_total o
            ∧ ui_status v = toUiStatus (o_status o)
            ∧ (∃ rows, Forall (λ i, i ∈ order_items st ∧ i_order_id i = o_id o) rows
                       ∧ ui_items v
                         = (λ it, UiItem (i_sku it) (i_name it) (i_unit_price it)
                                         (i_qty it) (i_image_url it)) <$> rows
                       ∧ (quote_free (o_id o) →
                          rows = filter (λ i, i_order_id i = o_id o)
                                   (order_items st)))
            ∧ Forall (λ e, e ∈ order_status_events st ∧ e_order_id e = o_id o)
                     (ui_status_events v))
         views (orders_of_user userId st)).
Proof.
  rewrite listOrdersForUserId_eq. eexists. split; [done|]. split.
  - by intros ->.
  - intros Hu. apply truthy_true_iff in Hu. rewrite Hu.
    apply Forall2_fmap_l, Forall_Forall2_diag, Forall_forall.
    intros o Ho.
    assert (Ho' : o ∈ orders st ∧ o_user_id o = userId).
    { unfold orders_of_user in Ho.
      apply elem_of_reverse, list_elem_of_filter in Ho as [Hu' ?].
      by apply bool_decide_eq_true in Hu'. }
    destruct Ho' as [Hin Huser].
    split_and!; try done.
    + eexists. split_and!; [|done|].
      * apply Forall_forall. intros i Hi.
        apply list_elem_of_filter in Hi as [Hid Hi].
        by apply list_elem_of_filter in Hi as [_ Hi].
      * intros Hq. rewrite list_filter_filter. apply list_filter_iff.
        intros i. split; [tauto|]. intros Hid. split; [done|].
        rewrite Hid. apply in_filter_quote_free; [done|].
        apply list_elem_of_fmap. by exists o.
    + simpl. apply Forall_forall. intros e He.
      apply list_elem_of_filter in He as [Hid He].
      by apply list_elem_of_filter in He as [_ He].
Qed.

Lemma listOrdersForUserId_isolation_witness :
  ∃ views,
    listOrdersForUserId "u1" Sample.awaiting_payment
    = (Ok views, Sample.awaiting_payment)
    ∧ ui_id <$> views = ["ORD-1"].
Proof.
  destruct (listOrdersForUserId_isolation "u1" Sample.awaiting_payment)
    as (views & Hrun & _ & Hviews).
  exists views. split; [exact Hrun|].
  specialize (Hviews ltac:(discriminate)).
  change (orders_of_user "u1" Sample.awaiting_payment) with [Sample.qr_order]
    in Hviews.
  apply Forall2_cons_inv_r in Hviews as (v & vs & Hv & Hvs & ->).
  apply Forall2_nil_inv_r in Hvs as ->.
  destruct Hv as (_ & _ & Hid & _). simpl. by rewrite Hid.
Defined.

(** ** Access control *)

Lemma map_chars_app (f : ascii → ascii) (a b : string) :
  Js.map_chars f (a +:+ b) = Js.map_chars f a +:+ Js.map_chars f b.
Proof. induction a as [|c a IH]; simpl; [done|]. by rewrite IH. Qed.

Lemma map_chars_length (f : ascii → ascii) (s : string) :
  String.length (Js.map_chars f s) = String.length s.
Proof. induction s as [|c s IH]; simpl; [done|]. by rewrite IH. Qed.

Lemma startsWith_app (p s : string) : Js.startsWith p (p +:+ s) = true.
Proof.
  induction p as [|c p IH]; simpl; [done|].
  by rewrite decide_True.
Qed.

Lemma slice_from_app (p s : string) :
  JsText.slice_from (String.length p) (p +:+ s) = s.
Proof. induction p as [|c p IH]; simpl; [by destruct s|done]. Qed.

Lemma startsWith_map_chars (f : ascii → ascii) (p s : string) :
  Js.startsWith p (Js.map_chars f s) = true →
  ∃ a b, s = a +:+ b ∧ Js.map_chars f a = p.
Proof.
  revert s. induction p as [|c p IH]; intros s.
  - intros _. by exists "", s.
  - destruct s as [|d s]; simpl; [done|].
    case_decide as Hc; [|done]. intros Hs.
    destruct (IH s Hs) as (a & b & -> & Ha).
    exists (String d a), b. simpl. by rewrite Ha, Hc.
Qed.

(** X8. [getBearerToken] yields a non-empty token exactly for a header
    made of the seven characters of the scheme, [bearer] and a space in any
    mix of cases, followed by text whose trimmed form is that token. *)
Theorem getBearerToken_scheme (authorization token : string) :
  token ≠ "" →
  (getBearerToken authorization = token
   ↔ ∃ scheme rest, authorization = scheme +:+ rest
        ∧ Js.toLowerCase scheme = "bearer " ∧ Js.trim rest = token).
Proof.
  intros Htok. unfold getBearerToken, Js.toLowerCase. split.
  - destruct (Js.startsWith _ _) eqn:Hs; cbn [negb]; [|by intros <-].
    intros Ht.
    destruct (startsWith_map_chars _ _ _ Hs) as (a & b & -> & Ha).
    exists a, b. split_and!; [done..|].
    assert (Hlen : String.length a = 7%nat).
    { by rewrite <-(map_chars_length Js.lower_char), Ha. }
    rewrite <-Hlen, slice_from_app in Ht. done.
  - intros (scheme & rest & -> & Hs & Ht).
    rewrite map_chars_app, Hs, startsWith_app. simpl negb. cbv iota.
    assert (Hlen : String.length scheme = 7%nat).
    { by rewrite <-(map_chars_length Js.lower_char), Hs. }
    by rewrite <-Hlen, slice_from_app.
Qed.

Lemma getBearerToken_scheme_witness :
  getBearerToken "BeArEr   tok-u9 " = "tok-u9".
Proof.
  apply (getBearerToken_scheme "BeArEr   tok-u9 " "tok-u9"); [discriminate|].
  exists "BeArEr ", "  tok-u9 ". split_and!; reflexivity.
Defined.

Section AccessGateProperties.
Variable profiles : list profile.
Variable auth_service : string → string + string.

Lemma requireAuth_cases (authorization : string) (allowedRoles : list string) :
  requireAuth profiles auth_service authorization allowedRoles
  = if decide (getBearerToken authorization = "")
    then Throw (auth_error "Missing bearer token" 401)
    else match auth_service (getBearerToken authorization) with
         | inr msg => Throw (plain_error msg)
         | inl userId =>
             match getProfileByUserId profiles userId with
             | None => Throw (auth_error "Profile not found" 403)
             | Some pr =>
                 if decide (allowedRoles ≠ [] ∧ pr_role pr ∉ allowedRoles)
                 then Throw (auth_error "Forbidden" 403)
                 else Ok (AuthResult userId pr (getBearerToken authorization))
             end
         end.
Proof.
  unfold requireAuth, supabaseAuthUser.
  case_decide as Htok.
  - rewrite Htok. done.
  - apply truthy_true_iff in Htok. rewrite Htok. simpl negb. cbv iota.
    destruct (auth_service _) as [userId|msg]; [|done].
    destruct (getProfileByUserId profiles userId) as [pr|]; [|done].
    destruct (decide (allowedRoles = [])) as [Hr|Hr].
    + rewrite (bool_decide_eq_true_2 _ Hr). simpl.
      rewrite decide_False by tauto. done.
    + rewrite (bool_decide_eq_false_2 _ Hr). simpl.
      destruct (decide (pr_role pr ∈ allowedRoles)) as [Hin|Hin].
      * rewrite (bool_decide_eq_true_2 _ Hin). simpl.
        rewrite decide_False by tauto. done.
      * rewrite (bool_decide_eq_false_2 _ Hin). simpl.
        rewrite decide_True by tauto. done.
Qed.

(** X9. Whoever [requireAuth] lets through presented a non-empty bearer
    token that the identity service resolved to a user; the profile handed
    on is the first row of [profiles] of that very user, and its role is one
    of the allowed roles whenever roles were named. *)
Theorem requireAuth_sound (authorization : string) (allowedRoles : list string)
    (a : auth_result) :
  requireAuth profiles auth_service authorization allowedRoles = Ok a →
  au_token a = getBearerToken authorization
  ∧ au_token a ≠ ""
  ∧ auth_service (au_token a) = inl (au_user a)
  ∧ head (filter (λ p, pr_user_id p = au_user a) profiles) = Some (au_profile a)
  ∧ au_profile a ∈ profiles
  ∧ pr_user_id (au_profile a) = au_user a
  ∧ (allowedRoles ≠ [] → pr_role (au_profile a) ∈ allowedRoles).
Proof.
  rewrite requireAuth_cases.
  case_decide as Htok; [done|].
  destruct (auth_service _) as [userId|msg] eqn:Hsvc; [|done].
  destruct (getProfileByUserId profiles userId) as [pr|] eqn:Hpr; [|done].
  case_decide as Hrole; [done|]. intros [= <-]. simpl.
  split_and!; try done.
  - apply head_Some_elem_of, list_elem_of_filter in Hpr. tauto.
  - apply head_Some_elem_of, list_elem_of_filter in Hpr. tauto.
  - intros Hne. destruct (decide (pr_role pr ∈ allowedRoles)); tauto.
Qed.

(** X10. What [requireAuth] throws: status 401 when the header carries no
    bearer token; the error of the identity service, which bears no status
    and is answered with 500, when the token is not accepted; status 403
    when the user has no profile, or a profile whose role is not among the
    roles named. *)
Theorem requireAuth_refusal (authorization : string) (allowedRoles : list string)
    (e : error) :
  requireAuth profiles auth_service authorization allowedRoles = Throw e →
  (getBearerToken authorization = ""
   ∧ e = auth_error "Missing bearer token" 401 ∧ http_status e = 401)
  ∨ (getBearerToken authorization ≠ ""
     ∧ auth_service (getBearerToken authorization) = inr (message e)
     ∧ status_code e = None ∧ http_status e = 500)
  ∨ (∃ userId,
       getBearerToken authorization ≠ ""
       ∧ auth_service (getBearerToken authorization) = inl userId
       ∧ http_status e = 403
       ∧ ((getProfileByUserId profiles userId = None
           ∧ message e = "Profile not found")
          ∨ (∃ pr, getProfileByUserId profiles userId = Some pr
                   ∧ allowedRoles ≠ [] ∧ (pr_role pr ∉ allowedRoles)
                   ∧ message e = "Forbidden"))).
Proof.
  rewrite requireAuth_cases.
  case_decide as Htok; [intros [= <-]; by left|].
  destruct (auth_service _) as [userId|msg] eqn:Hsvc.
  2:{ intros [= <-]. right. left. done. }
  destruct (getProfileByUserId profiles userId) as [pr|] eqn:Hpr.
  - case_decide as Hrole; [|done]. intros [= <-].
    right. right. exists userId.
    split_and!; try done. right. exists pr. tauto.
  - intros [= <-]. right. right. exists userId.
    split_and!; try done. by left.
Qed.
End AccessGateProperties.

Lemma requireAuth_sound_witness :
  pr_role (au_profile (AuthResult "u9" Sample.staff "tok-u9"))
  ∈ ["admin"; "staff"].
Proof.
  refine (proj2 (proj2 (proj2 (proj2 (proj2 (proj2
    (requireAuth_sound Desk.people Desk.identity "Bearer tok-u9"
       ["admin"; "staff"] (AuthResult "u9" Sample.staff "tok-u9") _)))))) _).
  - reflexivity.
  - discriminate.
Defined.

Lemma requireAuth_refusal_witness :
  requireAuth Desk.people Desk.identity "Bearer tok-u1" ["admin"; "staff"]
  = Throw (auth_error "Forbidden" 403)
  ∧ http_status (auth_error "Forbidden" 403) = 403.
Proof.
  split; [reflexivity|].
  destruct (requireAuth_refusal Desk.people Desk.identity "Bearer tok-u1"
              ["admin"; "staff"] (auth_error "Forbidden" 403) eq_refl)
    as [(H & _)|[(_ & H & _)|(u & _ & _ & H & _)]].
  - discriminate H.
  - discriminate H.
  - exact H.
Defined.

Lemma requireAuth_Ok_inv (profiles : list profile)
    (auth_service : string → string + string) (authorization : string)
    (allowedRoles : list string) (a : auth_result) :
  requireAuth profiles auth_service authorization allowedRoles = Ok a →
  pr_user_id (au_profile a) = au_user a
  ∧ (allowedRoles ≠ [] → pr_role (au_profile a) ∈ allowedRoles).
Proof.
  rewrite requireAuth_cases.
  case_decide as Htok; [done|].
  destruct (auth_service _) as [userId|msg]; [|done].
  destruct (getProfileByUserId profiles userId) as [pr|] eqn:Hpr; [|done].
  case_decide as Hrole; [done|]. intros [= <-]. simpl. split.
  - by apply head_Some_elem_of, list_elem_of_filter in Hpr as [? _].
  - intros Hne. destruct (decide (pr_role pr ∈ allowedRoles)) as [|Hn]; [done|].
    exfalso. apply Hrole. by split.
Qed.

(** ** Reading one order back *)

Lemma head_filter_fmap {A B} (P : B → Prop) `{∀ y, Decision (P y)}
    (f : A → B) (l : list A) :
  head (filter P (f <$> l)) = f <$> head (filter (λ x, P (f x)) l).
Proof.
  induction l as [|x l IH]; [done|].
  rewrite fmap_cons, !filter_cons.
  destruct (decide (P (f x))); [done|]. exact IH.
Qed.

Lemma head_filter_is_Some {A} (P : A → Prop) `{∀ x, Decision (P x)}
    (l : list A) (x : A) :
  x ∈ l → P x → ∃ y, head (filter P l) = Some y ∧ y ∈ l ∧ P y.
Proof.
  intros Hin HP.
  destruct (head (filter P l)) as [y|] eqn:Hh.
  - exists y. split; [done|].
    by apply head_Some_elem_of, list_elem_of_filter in Hh as [? ?].
  - apply head_None in Hh.
    assert (Hx : x ∈ filter P l) by (by apply list_elem_of_filter).
    rewrite Hh in Hx. by apply elem_of_nil in Hx.
Qed.

Lemma read_back_eq (orderCode userId : string) (st : store) :
  read_back orderCode userId st
  = if Js.truthy userId
    then order_view (orders_of_user userId st) st
           <$> head (filter (λ o, o_order_code o = orderCode)
                       (orders_of_user userId st))
    else None.
Proof.
  unfold read_back, getOrderForUserId. unfold mbind, M_bind.
  rewrite listOrdersForUserId_eq. unfold mret, M_ret.
  cbn [fst]. destruct (Js.truthy userId); [|done].
  by rewrite head_filter_fmap.
Qed.

Lemma elem_of_orders_of_user (userId : string) (st : store) (o : order) :
  o ∈ orders_of_user userId st ↔ o ∈ orders st ∧ o_user_id o = userId.
Proof.
  unfold orders_of_user. rewrite elem_of_reverse, list_elem_of_filter.
  rewrite bool_decide_eq_true. tauto.
Qed.

(** Some order of the user carrying the code is read back as soon as there
    is one. *)
Lemma read_back_found (orderCode userId : string) (st : store) (o : order) :
  userId ≠ "" → o ∈ orders st → o_user_id o = userId →
  o_order_code o = orderCode →
  ∃ o', read_back orderCode userId st
        = Some (order_view (orders_of_user userId st) st o')
        ∧ o' ∈ orders st ∧ o_user_id o' = userId ∧ o_order_code o' = orderCode.
Proof.
  intros Hu Hin Huser Hcode.
  rewrite read_back_eq. apply truthy_true_iff in Hu. rewrite Hu.
  destruct (head_filter_is_Some (λ o, o_order_code o = orderCode)
              (orders_of_user userId st) o) as (o' & Hh & Hin' & Hc');
    [by apply elem_of_orders_of_user|done|].
  exists o'. rewrite Hh. apply elem_of_orders_of_user in Hin'. tauto.
Qed.

(** The newest order is the one read back under its own code and user. *)
Lemma read_back_last (orderCode userId : string) (st : store) (o : order) :
  userId ≠ "" → last (orders st) = Some o → o_user_id o = userId →
  o_order_code o = orderCode →
  read_back orderCode userId st
  = Some (order_view (orders_of_user userId st) st o).
Proof.
  intros Hu Hlast Huser Hcode.
  rewrite read_back_eq. apply truthy_true_iff in Hu. rewrite Hu.
  apply last_Some in Hlast as [l' Hl].
  unfold orders_of_user at 2. rewrite Hl, filter_app, reverse_app.
  rewrite filter_cons, decide_True by (by apply bool_decide_eq_true).
  simpl. rewrite filter_cons, decide_True by done. done.
Qed.

(** ** The status route *)

Section RouteProperties.
Variable profiles : list profile.
Variable auth_service : string → string + string.
Variable APP_BASE_URL : string.
Variable encodeURIComponent : string → string.
Variable paymongoCreateCheckoutSession :
  checkout_request → outcome (option checkout_session).
Variable PAYMONGO_WEBHOOK_SECRET : string.
Variable hmac_sha256_hex : string → string → string.
Variable JSON_parse : string → json + string.
Variable JSON_stringify : json → string.
Variable js_String : json → string.

Lemma route_patch_order_status_eq (authorization orderCode status : string)
    (st : store) :
  serve (route_patch_order_status profiles auth_service authorization
           orderCode status) st
  = match requireAuth profiles auth_service authorization ["admin"; "staff"] with
    | Throw e => (respond_error e, st)
    | Ok a =>
        match updateOrderStatus orderCode status (au_profile a) st with
        | (Throw e, st') => (respond_error e, st')
        | (Ok _, st') =>
            (Response 200
               (BodyStatusUpdated
                  (read_back orderCode
                     (from_option o_user_id "" (order_by_code orderCode st'))
                     st')),
             st')
        end
    end.
Proof.
  unfold serve, route_patch_order_status.
  unfold mbind at 1. unfold M_bind at 1. unfold liftO at 1.
  destruct (requireAuth _ _ _ _) as [a|e]; [|done].
  unfold mbind at 1. unfold M_bind at 1.
  destruct (updateOrderStatus _ _ _ st) as [[u|e] st']; [|done].
  unfold mbind at 1. unfold M_bind at 1. unfold select_orders at 1.
  unfold mbind at 1. unfold M_bind at 1.
  rewrite getOrderForUserId_eq. done.
Qed.

Lemma http_status_requireAuth (authorization : string)
    (allowedRoles : list string) (e : error) :
  requireAuth profiles auth_service authorization allowedRoles = Throw e →
  http_status e ∈ [401; 403; 409; 500].
Proof.
  rewrite requireAuth_cases.
  repeat (first [case_decide | case_match]); intros [= <-];
    unfold http_status; simpl; repeat constructor.
Qed.

(** X11. A status update that is not answered with 200 has written
    nothing: the store is the one before the request.  The answer then
    carries an error message and one of the statuses 401 (no bearer token),
    403 (no profile, or neither admin nor staff), 409 (payment of a QRPH
    order not confirmed) and 500 (token not accepted, unknown status,
    unknown order code). *)
Theorem route_patch_order_status_refused (authorization orderCode status : string)
    (st : store) :
  res_status (serve (route_patch_order_status profiles auth_service
                       authorization orderCode status) st).1 ≠ 200 →
  (serve (route_patch_order_status profiles auth_service
            authorization orderCode status) st).2 = st
  ∧ res_status (serve (route_patch_order_status profiles auth_service
                         authorization orderCode status) st).1
    ∈ [401; 403; 409; 500]
  ∧ ∃ msg, res_body (serve (route_patch_order_status profiles auth_service
                              authorization orderCode status) st).1
           = BodyError msg.
Proof.
  rewrite route_patch_order_status_eq.
  destruct (requireAuth _ _ _ _) as [a|e] eqn:Hauth.
  2:{ intros _. simpl. split_and!; [done| |eexists; reflexivity].
      by eapply http_status_requireAuth. }
  rewrite updateOrderStatus_unfold.
  destruct (uiStatusToDbStatus status) as [target|].
  2:{ intros _. simpl. split_and!; [done| |eexists; reflexivity].
      repeat constructor. }
  destruct (order_by_code orderCode st) as [o|].
  2:{ intros _. simpl. split_and!; [done| |eexists; reflexivity].
      repeat constructor. }
  destruct (unpaidQrph o && negb (allowed_before_payment target)).
  - intros _. simpl. split_and!; [done| |eexists; reflexivity].
    repeat constructor.
  - simpl. done.
Qed.

(** X12. The status route changes the store for nobody but an
    authenticated user whose profile has the role admin or staff: whenever
    the store after the request differs from the store before, the answer is
    200, the order code designates an order, and one event is appended to the
    audit log, for that order and under the name of the user who asked;
    products, items and payments are as before.  Either the request named
    one of the seven statuses, and then every order carrying the code holds
    that status and the event names it; or it named a member every object
    inherits, such as [constructor], which the lookup of
    [uiStatusToDbStatus] finds too, and then every order is as before and
    the event names no status. *)
Theorem route_patch_order_status_authorised (authorization orderCode status : string)
    (st : store) :
  (serve (route_patch_order_status profiles auth_service
            authorization orderCode status) st).2 ≠ st →
  ∃ a nextStatus o new_event,
    requireAuth profiles auth_service authorization ["admin"; "staff"] = Ok a
    ∧ pr_role (au_profile a) ∈ ["admin"; "staff"]
    ∧ uiStatusToDbStatus status = Some nextStatus
    ∧ order_by_code orderCode st = Some o
    ∧ res_status (serve (route_patch_order_status profiles auth_service
                           authorization orderCode status) st).1 = 200
    ∧ let st' := (serve (route_patch_order_status profiles auth_service
                           authorization orderCode status) st).2 in
      order_status_events st' = order_status_events st ++ [new_event]
      ∧ e_order_id new_event = o_id o
      ∧ e_changed_by new_event = Some (au_user a)
      ∧ match nextStatus with
        | Plain target =>
            orders st'
            = patch_rows (has_code orderCode) (set_status target) (orders st)
            ∧ e_status new_event = Some target
        | Member key =>
            key = Js.trim status ∧ key ∈ object_prototype_members
            ∧ orders st' = orders st
            ∧ e_status new_event = None
        end
      ∧ products st' = products st ∧ order_items st' = order_items st
      ∧ payments st' = payments st.
Proof.
  rewrite route_patch_order_status_eq.
  destruct (requireAuth _ _ _ _) as [a|e] eqn:Hauth; [|done].
  rewrite updateOrderStatus_unfold.
  destruct (uiStatusToDbStatus status) as [nextStatus|] eqn:Hui; [|done].
  destruct (order_by_code orderCode st) as [o|]; [|done].
  destruct (unpaidQrph o && negb (allowed_before_payment nextStatus)); [done|].
  intros _. exists a, nextStatus, o, (status_update_event o nextStatus (au_profile a)).
  cbn [fst snd].
  destruct (requireAuth_Ok_inv _ _ _ _ _ Hauth) as [Hu Hrole].
  split; [done|]. split; [by apply Hrole|]. split; [done|]. split; [done|].
  split; [done|]. cbv zeta. cbn [order_status_events set_order_status_events].
  split; [done|].
  destruct nextStatus as [target|key]; cbn [status_update_event e_order_id
    e_changed_by e_status].
  - by rewrite Hu.
  - destruct (uiStatusToDbStatus_Member _ _ Hui) as [Hkey Hin].
    rewrite Hu. split_and!; try done.
    cbn [orders set_orders set_order_status_events]. apply patch_rows_member.
Qed.

(** X13. A status update that names one of the seven statuses and goes
    through answers 200 together with the order read back for its owner: an
    order of that code showing the label of the status just written. *)
Theorem route_patch_order_status_refreshed (authorization orderCode input : string)
    (st : store) (a : auth_result) (target : status) (o : order) :
  requireAuth profiles auth_service authorization ["admin"; "staff"] = Ok a →
  uiStatusToDbStatus input = Some (Plain target) →
  order_by_code orderCode st = Some o →
  unpaidQrph o && negb (allowedBeforePayment target) = false →
  o_user_id o ≠ "" →
  ∃ v st',
    serve (route_patch_order_status profiles auth_service
             authorization orderCode input) st
    = (Response 200 (BodyStatusUpdated (Some v)), st')
    ∧ ui_id v = orderCode
    ∧ ui_status v = toUiStatus target.
Proof.
  intros Hauth Htarget Ho Hfree Huser.
  rewrite route_patch_order_status_eq, Hauth.
  rewrite (updateOrderStatus_accepted _ _ _ _ _ _ Htarget Ho Hfree).
  set (st' := set_order_status_events _ _).
  assert (Horders : orders st'
                    = patch_rows (has_code orderCode) (set_status target) (orders st))
    by done.
  assert (Hfirst : order_by_code orderCode st' = Some (set_status target o)).
  { unfold order_by_code in *. rewrite Horders, head_patch_by_code, Ho. done. }
  rewrite Hfirst. cbn [from_option set_status o_user_id].
  apply head_Some_elem_of, list_elem_of_filter in Hfirst as [Hcode Hin].
  apply bool_decide_eq_true in Hcode.
  destruct (read_back_found orderCode (o_user_id o) st' (set_status target o))
    as (o' & Hread & Hin' & _ & Hcode'); [done..|].
  eexists _, st'. rewrite Hread. split; [done|].
  rewrite Horders in Hin'.
  apply patch_rows_status in Hin' as [Hst _].
  split; [done|]. simpl. by rewrite Hst.
Qed.
End RouteProperties.

Lemma route_patch_order_status_refused_witness :
  (serve (route_patch_order_status Desk.people Desk.identity
            "Bearer tok-u9" "ORD-1" "Preparing") Sample.awaiting_payment).2
  = Sample.awaiting_payment.
Proof.
  apply (route_patch_order_status_refused Desk.people Desk.identity
           "Bearer tok-u9" "ORD-1" "Preparing" Sample.awaiting_payment).
  vm_compute. discriminate.
Defined.

Lemma route_patch_order_status_authorised_witness :
  ∃ a, requireAuth Desk.people Desk.identity "Bearer tok-u9" ["admin"; "staff"]
       = Ok a
       ∧ pr_role (au_profile a) ∈ ["admin"; "staff"].
Proof.
  destruct (route_patch_order_status_authorised Desk.people Desk.identity
              "Bearer tok-u9" "ORD-1" "Delivered" Sample.in_transit_store)
    as (a & _ & _ & _ & Hauth & Hrole & _).
  - intros H.
    apply (f_equal (λ s, length (order_status_events s))) in H.
    vm_compute in H. discriminate H.
  - exists a. split; [exact Hauth|exact Hrole].
Defined.

Lemma route_patch_order_status_refreshed_witness :
  ∃ v st',
    serve (route_patch_order_status Desk.people Desk.identity
             "Bearer tok-u9" "ORD-1" "Delivered") Sample.in_transit_store
    = (Response 200 (BodyStatusUpdated (Some v)), st')
    ∧ ui_id v = "ORD-1"
    ∧ ui_status v = "Delivered".
Proof.
  apply (route_patch_order_status_refreshed Desk.people Desk.identity
           "Bearer tok-u9" "ORD-1" "Delivered" Sample.in_transit_store
           (AuthResult "u9" Sample.staff "tok-u9") delivered
           Sample.shipped_order); try reflexivity.
  discriminate.
Defined.

(** ** What [createOrder] answers *)

Lemma filter_Forall_not {A} (P : A → Prop) `{∀ x, Decision (P x)} (l : list A) :
  Forall (λ x, ¬ P x) l → filter P l = [].
Proof.
  induction 1 as [|x l Hx _ IH]; [done|].
  by rewrite filter_cons, decide_False.
Qed.

Lemma filter_Forall_id {A} (P : A → Prop) `{∀ x, Decision (P x)} (l : list A) :
  Forall P l → filter P l = l.
Proof.
  induction 1 as [|x l Hx _ IH]; [done|].
  by rewrite filter_cons, decide_True, IH.
Qed.

(** The view of the newest order of a store whose items were appended last
    under an identifier no earlier item carries. *)
Lemma order_view_new_items (st : store) (shown : list order) (o : order)
    (old : list order_item) (rows : list item_row) :
  order_items st = old ++ (with_order_id (o_id o) <$> rows) →
  o ∈ shown → quote_free (o_id o) →
  (∀ i, i ∈ old → i_order_id i ≠ o_id o) →
  ui_items (order_view shown st o) = shown_item <$> rows.
Proof.
  intros Hitems Hin Hq Hfresh. unfold order_view, toUiOrder. cbn [ui_items].
  rewrite list_filter_filter, Hitems, filter_app.
  rewrite filter_Forall_not, filter_Forall_id.
  - rewrite app_nil_l, <-list_fmap_compose. done.
  - apply Forall_forall. intros i Hi.
    apply list_elem_of_fmap in Hi as (r & -> & _). split; [done|].
    cbn [i_order_id with_order_id].
    apply in_filter_quote_free; [done|].
    apply list_elem_of_fmap. by exists o.
  - apply Forall_forall. intros i Hi [Hid _]. by apply (Hfresh i).
Qed.

Section OrderRouteProperties.
Variable profiles : list profile.
Variable auth_service : string → string + string.
Variable APP_BASE_URL : string.
Variable encodeURIComponent : string → string.
Variable paymongoCreateCheckoutSession :
  checkout_request → outcome (option checkout_session).

(** The order row and the items in the store after a run of [createOrder]
    that passed the checks, with or without checkout session. *)
Lemma createOrder_row (orderCode newId : string) (payload : order_payload)
    (authProfile : option profile) (st st' : store) (r : create_result) :
  createOrder APP_BASE_URL encodeURIComponent paymongoCreateCheckoutSession
    orderCode newId payload authProfile st = (Ok r, st') →
  ∃ rows subtotal o,
    priced_cart payload st = Ok (rows, subtotal)
    ∧ from_option pr_user_id "" authProfile ≠ ""
    ∧ last (orders st') = Some o
    ∧ o_id o = newId ∧ o_order_code o = orderCode
    ∧ o_user_id o = from_option pr_user_id "" authProfile
    ∧ o_subtotal o = subtotal ∧ o_delivery_fee o = deliveryFee subtotal
    ∧ o_total o = (subtotal + deliveryFee subtotal)%Q
    ∧ o_status o = initial_status (isQrphMethod (effective_payment_method payload))
    ∧ order_items st' = order_items st ++ (with_order_id newId <$> rows)
    ∧ cr_order r
      = read_back orderCode (from_option pr_user_id "" authProfile) st'.
Proof.
  rewrite createOrder_eq.
  destruct (negb (required_fields_present _ _ _ _ _)) eqn:Hreq; [done|].
  apply negb_false_iff, required_fields_present_true in Hreq as (Hu & _).
  destruct (priced_cart payload st) as [[rows subtotal]|e] eqn:Hp; [|done].
  cbv zeta.
  destruct (isQrphMethod (effective_payment_method payload)) eqn:Hq.
  - destruct (paymongoCreateCheckoutSession _) as [checkout|e]; [|done].
    intros [= <- <-]. exists rows, subtotal.
    destruct (or_null (checkout ≫= cs_id)) as [sid|]; simpl.
    + eexists. split; [done|]. split; [done|].
      rewrite last_patch_rows_snoc. unfold has_code, new_order at 1. simpl.
      rewrite bool_decide_eq_true_2 by done.
      split; [reflexivity|]. simpl. rewrite Hq. done.
    + eexists. split; [done|]. split; [done|].
      rewrite last_snoc. split; [reflexivity|]. simpl. rewrite Hq. done.
  - intros [= <- <-]. exists rows, subtotal.
    eexists. split; [done|]. split; [done|]. simpl.
    rewrite last_snoc. split; [reflexivity|]. simpl. rewrite Hq. done.
Qed.

(** X14. The order [createOrder] answers with is the order it has just
    written, read back for the requester: it bears the order code, the
    subtotal, delivery fee and total computed from the catalogue, and the
    label [Order Placed] whatever the payment method.  When the identifier
    the store gave the order holds no double quote and no earlier item row
    carries it, the items shown are exactly the priced lines of the cart. *)
Theorem createOrder_returns_order (orderCode newId : string)
    (payload : order_payload) (authProfile : option profile)
    (st st' : store) (r : create_result) :
  createOrder APP_BASE_URL encodeURIComponent paymongoCreateCheckoutSession
    orderCode newId payload authProfile st = (Ok r, st') →
  ∃ v rows subtotal,
    cr_order r = Some v
    ∧ priced_cart payload st = Ok (rows, subtotal)
    ∧ ui_id v = orderCode
    ∧ ui_status v = "Order Placed"
    ∧ ui_subtotal v = subtotal
    ∧ ui_deliveryFee v = deliveryFee subtotal
    ∧ ui_total v = (subtotal + deliveryFee subtotal)%Q
    ∧ (quote_free newId →
       (∀ i, i ∈ order_items st → i_order_id i ≠ newId) →
       ui_items v = shown_item <$> rows).
Proof.
  intros Hrun.
  destruct (createOrder_row _ _ _ _ _ _ _ Hrun)
    as (rows & subtotal & o & Hp & Hu & Hlast & Hid & Hcode & Huser & Hsub
        & Hfee & Htot & Hst & Hitems & Hr).
  rewrite (read_back_last orderCode _ st' o) in Hr by done.
  eexists _, rows, subtotal. split; [exact Hr|]. split; [done|].
  unfold order_view at 1 2 3 4 5. cbn [toUiOrder ui_id ui_status ui_subtotal
    ui_deliveryFee ui_total].
  split_and!; try done.
  - rewrite Hst. by destruct (isQrphMethod _).
  - intros Hq Hfresh.
    apply (order_view_new_items st' _ o (order_items st) rows).
    + by rewrite Hid.
    + apply elem_of_orders_of_user. split; [|done].
      apply last_Some in Hlast as [l' ->]. apply elem_of_app. right.
      by apply list_elem_of_singleton.
    + by rewrite Hid.
    + by rewrite Hid.
Qed.

(** X15. When the payment gateway fails on a QRPH order that passed every
    check, [createOrder] throws the error of the gateway after the order
    has been written: the order stays in the store as its newest order, in
    [pending_payment], with its items, its first status event and a pending
    payment row, without checkout session; the stock is untouched. *)
Theorem createOrder_gateway_failure (orderCode newId : string)
    (payload : order_payload) (authProfile : option profile) (st : store)
    (rows : list item_row) (subtotal : Q) (e : error) :
  required_fields_present authProfile
    (Js.trim (pl_customerName payload)) (Js.trim (pl_contact payload))
    (Js.trim (pl_address payload)) (pl_items payload) = true →
  priced_cart payload st = Ok (rows, subtotal) →
  isQrphMethod (effective_payment_method payload) = true →
  paymongoCreateCheckoutSession
    (checkout_request_for APP_BASE_URL encodeURIComponent orderCode rows)
  = Throw e →
  ∃ st',
    createOrder APP_BASE_URL encodeURIComponent paymongoCreateCheckoutSession
      orderCode newId payload authProfile st = (Throw e, st')
    ∧ orders st'
      = orders st ++ [new_order orderCode newId payload authProfile subtotal]
    ∧ o_status (new_order orderCode newId payload authProfile subtotal)
      = pending_payment
    ∧ o_paymongo_checkout_session_id
        (new_order orderCode newId payload authProfile subtotal) = None
    ∧ order_items st' = order_items st ++ (with_order_id newId <$> rows)
    ∧ length (order_status_events st') = S (length (order_status_events st))
    ∧ payments st'
      = payments st
        ++ [Payment newId "paymongo" pay_pending
              (subtotal + deliveryFee subtotal)%Q "PHP" None None None None]
    ∧ products st' = products st.
Proof.
  intros Hreq Hp Hq Hdown. rewrite createOrder_eq, Hreq, Hp. cbv zeta.
  rewrite Hq, Hdown. eexists. split; [done|]. simpl.
  split_and!; try done.
  - unfold initial_status. by rewrite Hq.
  - by rewrite length_app, Nat.add_1_r.
Qed.

Lemma route_post_orders_eq (orderCode newId authorization : string)
    (payload : order_payload) (st : store) :
  serve (route_post_orders profiles auth_service APP_BASE_URL encodeURIComponent
           paymongoCreateCheckoutSession orderCode newId authorization payload) st
  = match requireAuth profiles auth_service authorization
            ["customer"; "admin"; "staff"] with
    | Throw e => (respond_error e, st)
    | Ok a =>
        match createOrder APP_BASE_URL encodeURIComponent
                paymongoCreateCheckoutSession orderCode newId payload
                (Some (au_profile a)) st with
        | (Throw e, st') => (respond_error e, st')
        | (Ok r, st') => (Response 201 (BodyCreated r), st')
        end
    end.
Proof.
  unfold serve, route_post_orders.
  unfold mbind at 1. unfold M_bind at 1. unfold liftO at 1.
  destruct (requireAuth _ _ _ _) as [a|e]; [|done].
  unfold mbind at 1. unfold M_bind at 1.
  by destruct (createOrder _ _ _ _ _ _ _ st) as [[r|e] st'].
Qed.

(** X16. An order enters the store through the order route only for an
    authenticated user with a profile of role customer, admin or staff, and
    always under the identity of that user: whenever the store after the
    request differs from the store before, it holds one more order, the
    newest, which carries the order code and belongs to the user of the
    token; the stock of every product is as before. *)
Theorem route_post_orders_owner (orderCode newId authorization : string)
    (payload : order_payload) (st : store) :
  (serve (route_post_orders profiles auth_service APP_BASE_URL
            encodeURIComponent paymongoCreateCheckoutSession
            orderCode newId authorization payload) st).2 ≠ st →
  ∃ a o,
    requireAuth profiles auth_service authorization
      ["customer"; "admin"; "staff"] = Ok a
    ∧ pr_role (au_profile a) ∈ ["customer"; "admin"; "staff"]
    ∧ last (orders (serve (route_post_orders profiles auth_service APP_BASE_URL
                             encodeURIComponent paymongoCreateCheckoutSession
                             orderCode newId authorization payload) st).2)
      = Some o
    ∧ length (orders (serve (route_post_orders profiles auth_service APP_BASE_URL
                               encodeURIComponent paymongoCreateCheckoutSession
                               orderCode newId authorization payload) st).2)
      = S (length (orders st))
    ∧ o_order_code o = orderCode ∧ o_id o = newId
    ∧ o_user_id o = au_user a
    ∧ products (serve (route_post_orders profiles auth_service APP_BASE_URL
                         encodeURIComponent paymongoCreateCheckoutSession
                         orderCode newId authorization payload) st).2
      = products st.
Proof.
  rewrite route_post_orders_eq.
  destruct (requireAuth _ _ _ _) as [a|e] eqn:Hauth; [|done].
  destruct (createOrder _ _ _ _ _ _ _ st) as [r st'] eqn:Hrun.
  intros Hne.
  assert (Hst' : (match r with
                  | Ok r0 => (Response 201 (BodyCreated r0), st')
                  | Throw e => (respond_error e, st')
                  end).2 = st') by (by destruct r).
  rewrite Hst' in Hne |- *.
  destruct (createOrder_written _ _ _ _ _ _ _ _ _ _ Hrun)
    as [(e & _ & ->)|(rows & subtotal & session & _ & Hlast & Hlen & _ & Hprod)];
    [done|].
  destruct (requireAuth_Ok_inv _ _ _ _ _ Hauth) as [Hu Hrole].
  eexists _, _. split; [reflexivity|]. split; [by apply Hrole|].
  split; [exact Hlast|]. split; [exact Hlen|].
  destruct session; simpl; by rewrite ?Hu.
Qed.
End OrderRouteProperties.

Lemma createOrder_returns_order_witness :
  ∃ v, ui_id v = "ORD-7" ∧ ui_status v = "Order Placed"
       ∧ ui_items v = [UiItem "P001" "Cola" 55 2 "cola.png"].
Proof.
  destruct (Sample.place "ORD-7" "o7" Sample.cash_cart Sample.catalog)
    as [[r|e] st'] eqn:Hrun; [|vm_compute in Hrun; discriminate Hrun].
  destruct (createOrder_returns_order "https://shop.example" id Sample.gateway
              "ORD-7" "o7" Sample.cash_cart (Some Sample.customer)
              Sample.catalog st' r Hrun)
    as (v & rows & subtotal & _ & Hp & Hid & Hst & _ & _ & _ & Hitems).
  exists v. split_and!; [exact Hid|exact Hst|].
  rewrite Hitems.
  - vm_compute in Hp. injection Hp as <- <-. reflexivity.
  - reflexivity.
  - intros i Hi. by apply elem_of_nil in Hi.
Defined.

Lemma createOrder_gateway_failure_witness :
  ∃ st', createOrder "https://shop.example" id Desk.gateway_down
           "ORD-7" "o7" Sample.qr_cart (Some Sample.customer) Sample.catalog
         = (Throw (plain_error "Failed to create PayMongo checkout session"), st')
         ∧ length (orders st') = 1%nat.
Proof.
  destruct (createOrder_gateway_failure "https://shop.example" id
              Desk.gateway_down "ORD-7" "o7" Sample.qr_cart
              (Some Sample.customer) Sample.catalog
              [ItemRow "pid1" "P001" "Cola" "drinks" "case" "cola.png" 55 2
                       (55 * inject_Z 2)]
              (0 + 55 * inject_Z 2)%Q
              (plain_error "Failed to create PayMongo checkout session"))
    as (st' & Hrun & Horders & _); try reflexivity.
  exists st'. split; [exact Hrun|]. by rewrite Horders.
Defined.

Lemma route_post_orders_owner_witness :
  ∃ o, last (orders (serve (Desk.post_orders Sample.gateway "Bearer tok-u1"
                              Sample.cash_cart) Sample.catalog).2) = Some o
       ∧ o_user_id o = "u1".
Proof.
  destruct (route_post_orders_owner Desk.people Desk.identity
              "https://shop.example" id Sample.gateway "ORD-7" "o7"
              "Bearer tok-u1" Sample.cash_cart Sample.catalog)
    as (a & o & Hauth & _ & Hlast & _ & _ & _ & Huser & _).
  - intros H. apply (f_equal (λ s, length (orders s))) in H.
    vm_compute in H. discriminate H.
  - exists o. split; [exact Hlast|].
    rewrite Huser. vm_compute in Hauth. by injection Hauth as <-.
Defined.

(** ** The webhook route *)

Section WebhookRouteProperties.
Variable PAYMONGO_WEBHOOK_SECRET : string.
Variable hmac_sha256_hex : string → string → string.
Variable JSON_parse : string → json + string.
Variable JSON_stringify : json → string.
Variable js_String : json → string.

Lemma route_paymongo_webhook_eq (now rawBody signature : string) (st : store) :
  serve (route_paymongo_webhook PAYMONGO_WEBHOOK_SECRET hmac_sha256_hex
           JSON_parse JSON_stringify js_String now rawBody signature) st
  = match verifyPaymongoWebhookSignature PAYMONGO_WEBHOOK_SECRET
            hmac_sha256_hex rawBody signature with
    | Throw e => (respond_error e, st)
    | Ok false => (Response 401 (BodyError "Invalid PayMongo signature"), st)
    | Ok true =>
        match (if Js.truthy rawBody then JSON_parse rawBody
               else inl (JObj [])) with
        | inr msg => (respond_error (plain_error msg), st)
        | inl event =>
            if is_paid_event (Some event)
            then
              let a := event_args JSON_stringify js_String (Some event) in
              if event_recorded (w_eventId a) st
              then (Response 200 BodyReceived, st)
              else
                match resolved_order a st with
                | None =>
                    (respond_error (plain_error "Order not found for webhook."),
                     st)
                | Some order =>
                    (Response 200 BodyReceived,
                     payment_recorded a order
                       (stock_deducted order (paid_orders now a order st)))
                end
            else (Response 200 BodyReceived, st)
        end
    end.
Proof.
  unfold serve, route_paymongo_webhook.
  unfold mbind at 1. unfold M_bind at 1. unfold liftO at 1.
  destruct (verifyPaymongoWebhookSignature _ _ _ _) as [[|]|e]; [|done..].
  cbn [negb]. cbv iota.
  unfold mbind at 1. unfold M_bind at 1. unfold liftO at 1.
  destruct (Js.truthy rawBody).
  - destruct (JSON_parse rawBody) as [event|msg]; [|done].
    unfold mbind at 1. unfold M_bind at 1.
    destruct (is_paid_event (Some event)); [|done].
    unfold mbind at 1. unfold M_bind at 1.
    rewrite markOrderPaidFromWebhook_eq. cbv zeta.
    destruct (event_recorded _ st); [done|].
    by destruct (resolved_order _ st).
  - unfold mbind at 1. unfold M_bind at 1.
    destruct (is_paid_event (Some (JObj []))) eqn:Hp; [|done].
    by vm_compute in Hp.
Qed.

(** X17. The webhook route writes only for a notification that carries
    a valid signature and announces a payment: whenever the store after the
    request differs from the store before, the signature check has answered
    true, the body is a JSON text whose event type is
    [checkout_session.payment.paid] or [payment.paid], the event was not yet
    recorded, the order it designates exists, the answer is 200, and the
    store is the one the payment confirmation leaves. *)
Theorem route_paymongo_webhook_guarded (now rawBody signature : string)
    (st : store) :
  (serve (route_paymongo_webhook PAYMONGO_WEBHOOK_SECRET hmac_sha256_hex
            JSON_parse JSON_stringify js_String now rawBody signature) st).2
  ≠ st →
  verifyPaymongoWebhookSignature PAYMONGO_WEBHOOK_SECRET hmac_sha256_hex
    rawBody signature = Ok true
  ∧ ∃ event order,
      JSON_parse rawBody = inl event
      ∧ (is_text (event_type (Some event)) "checkout_session.payment.paid" = true
         ∨ is_text (event_type (Some event)) "payment.paid" = true)
      ∧ event_recorded
          (w_eventId (event_args JSON_stringify js_String (Some event))) st
        = false
      ∧ resolved_order (event_args JSON_stringify js_String (Some event)) st
        = Some order
      ∧ serve (route_paymongo_webhook PAYMONGO_WEBHOOK_SECRET hmac_sha256_hex
                 JSON_parse JSON_stringify js_String now rawBody signature) st
        = (Response 200 BodyReceived,
           (markOrderPaidFromWebhook now
              (event_args JSON_stringify js_String (Some event)) st).2).
Proof.
  rewrite route_paymongo_webhook_eq.
  destruct (verifyPaymongoWebhookSignature _ _ _ _) as [[|]|e]; [|done..].
  destruct (Js.truthy rawBody).
  2:{ change (is_paid_event (Some (JObj []))) with false. done. }
  destruct (JSON_parse rawBody) as [event|msg]; [|done].
  destruct (is_paid_event (Some event)) eqn:Hpaid; [|done].
  cbv zeta.
  destruct (event_recorded _ st) eqn:Hrec; [done|].
  destruct (resolved_order _ st) as [order|] eqn:Hres; [|done].
  intros _. split; [done|]. exists event, order.
  rewrite markOrderPaidFromWebhook_eq, Hrec, Hres.
  split_and!; try done.
  unfold is_paid_event in Hpaid. by apply orb_true_iff in Hpaid.
Qed.

(** X18. A notification the webhook route does not answer with 200 leaves
    the store as it was.  The answer is then 401, exactly when the signature
    check has answered false, or 500: for a secret that is not configured,
    a body that is no JSON text, or a paid event whose order is not
    found. *)
Theorem route_paymongo_webhook_refused (now rawBody signature : string)
    (st : store) :
  res_status
    (serve (route_paymongo_webhook PAYMONGO_WEBHOOK_SECRET hmac_sha256_hex
              JSON_parse JSON_stringify js_String now rawBody signature) st).1
  ≠ 200 →
  (serve (route_paymongo_webhook PAYMONGO_WEBHOOK_SECRET hmac_sha256_hex
            JSON_parse JSON_stringify js_String now rawBody signature) st).2
  = st
  ∧ (verifyPaymongoWebhookSignature PAYMONGO_WEBHOOK_SECRET hmac_sha256_hex
       rawBody signature = Ok false
     ∧ (serve (route_paymongo_webhook PAYMONGO_WEBHOOK_SECRET hmac_sha256_hex
                 JSON_parse JSON_stringify js_String now rawBody signature) st).1
       = Response 401 (BodyError "Invalid PayMongo signature")
     ∨ verifyPaymongoWebhookSignature PAYMONGO_WEBHOOK_SECRET hmac_sha256_hex
         rawBody signature ≠ Ok false
       ∧ res_status
           (serve (route_paymongo_webhook PAYMONGO_WEBHOOK_SECRET
                     hmac_sha256_hex JSON_parse JSON_stringify js_String
                     now rawBody signature) st).1
         = 500).
Proof.
  rewrite route_paymongo_webhook_eq.
  destruct (verifyPaymongoWebhookSignature _ _ _ _) as [[|]|e] eqn:Hv.
  - destruct (Js.truthy rawBody).
    2:{ change (is_paid_event (Some (JObj []))) with false. done. }
    destruct (JSON_parse rawBody) as [event|msg].
    2:{ intros _. split; [done|]. right. done. }
    destruct (is_paid_event (Some event)); [|done].
    cbv zeta. destruct (event_recorded _ st); [done|].
    destruct (resolved_order _ st) as [order|]; [done|].
    intros _. split; [done|]. right. done.
  - intros _. split; [done|]. left. done.
  - intros _. split; [done|]. right. split; [done|].
    unfold verifyPaymongoWebhookSignature in Hv.
    destruct (negb _); [by injection Hv as <-|].
    by destruct (_ || _).
Qed.
End WebhookRouteProperties.

Lemma route_paymongo_webhook_guarded_witness :
  serve (Desk.webhook "paid" "t=1,te=mac:whsec_1:1.paid") Sample.awaiting_payment
  = (Response 200 BodyReceived,
     (markOrderPaidFromWebhook "2025-04-14T08:00:00.000Z" Sample.first_event
        Sample.awaiting_payment).2).
Proof.
  destruct (route_paymongo_webhook_guarded "whsec_1" Desk.hmac Desk.parse
              (λ _, "{}") (λ _, "") "2025-04-14T08:00:00.000Z"
              "paid" "t=1,te=mac:whsec_1:1.paid" Sample.awaiting_payment)
    as (_ & event & order & Hparse & _ & _ & _ & Hrun).
  - intros H. apply (f_equal (λ s, length (order_status_events s))) in H.
    vm_compute in H. discriminate H.
  - injection Hparse as <-. exact Hrun.
Defined.

Lemma route_paymongo_webhook_refused_witness :
  (serve (Desk.webhook "paid" "t=1,te=forged") Sample.awaiting_payment).2
  = Sample.awaiting_payment.
Proof.
  apply (route_paymongo_webhook_refused "whsec_1" Desk.hmac Desk.parse
           (λ _, "{}") (λ _, "") "2025-04-14T08:00:00.000Z"
           "paid" "t=1,te=forged" Sample.awaiting_payment).
  vm_compute. discriminate.
Defined.

Section EventProperties.
Variable JSON_stringify : json → string.
Variable js_String : json → string.

(** X19. From a notification of a paid checkout session the webhook route
    reads the order code in the metadata of the session, the identifier of
    the session, the identifier of its first payment and the identifier of
    the event, an empty text counting as absent, and it takes the event for
    a payment. *)
Theorem event_args_checkout_paid (eventId session orderCode paymentId : string) :
  event_args JSON_stringify js_String
    (Some (checkout_paid_event eventId session orderCode paymentId))
  = WebhookArgs (or_null (Some orderCode)) (or_null (Some session))
      (or_null (Some paymentId)) eventId
      (JSON_stringify (checkout_paid_event eventId session orderCode paymentId))
  ∧ is_paid_event
      (Some (checkout_paid_event eventId session orderCode paymentId)) = true.
Proof.
  split; [|reflexivity].
  destruct eventId, session, orderCode, paymentId; reflexivity.
Qed.
End EventProperties.

(** ** What the lifecycle keeps *)

Lemma stock_of_products (pid : string) (st st' : store) :
  products st' = products st → stock_of pid st' = stock_of pid st.
Proof. unfold stock_of. by intros ->. Qed.

Lemma products_stock_deducted (order : order) (st : store) :
  products (stock_deducted order st)
  = if stock_marker_present (o_id order) st then products st
    else products (deductStockForOrder (o_id order) st).2.
Proof. unfold stock_deducted. by destruct (stock_marker_present _ _). Qed.

(** X20. A payment confirmation never raises a stock and never makes one
    negative: the stock the store reports for a product that had [s] cases,
    [s] not negative, is afterwards between 0 and [s]. *)
Theorem markOrderPaidFromWebhook_stock_bounds (now : string) (a : webhook_args)
    (st : store) (pid : string) (s : Z) :
  stock_of pid st = Some s →
  0 ≤ s →
  ∃ s', stock_of pid (markOrderPaidFromWebhook now a st).2 = Some s'
        ∧ 0 ≤ s' ≤ s.
Proof.
  intros Hs Hpos. rewrite markOrderPaidFromWebhook_eq.
  destruct (event_recorded _ st); [exists s; split; [done|lia]|].
  destruct (resolved_order a st) as [order|]; [|exists s; split; [done|lia]].
  cbn [snd].
  rewrite (stock_of_products pid (stock_deducted order (paid_orders now a order st)))
    by done.
  unfold stock_of at 1. rewrite products_stock_deducted.
  destruct (stock_marker_present _ _); [exists s; split; [done|lia]|].
  destruct (deductStockForOrder_stock (paid_orders now a order st)
              (o_id order) pid s Hs Hpos) as [_ Hafter].
  unfold stock_of in Hafter at 1. rewrite Hafter.
  eexists. split; [done|].
  assert (0 ≤ ordered_qty (o_id order) pid (paid_orders now a order st)).
  { unfold ordered_qty. apply valid_qty_sum_nonneg.
    apply Forall_forall. intros i Hi.
    by apply list_elem_of_filter in Hi as [? _]. }
  lia.
Qed.

Lemma markOrderPaidFromWebhook_stock_bounds_witness :
  ∃ s', stock_of "pid1"
          (markOrderPaidFromWebhook "2025-04-14T08:00:00.000Z" Sample.first_event
             Sample.awaiting_payment).2 = Some s'
        ∧ 0 ≤ s' ≤ 10.
Proof.
  apply (markOrderPaidFromWebhook_stock_bounds "2025-04-14T08:00:00.000Z"
           Sample.first_event Sample.awaiting_payment "pid1" 10);
    [reflexivity|lia].
Defined.

(** X21. Once a confirmation has gone through for an order that is the
    first of its code, the guard on unpaid QRPH orders is lifted: a status
    update to any of the seven statuses succeeds on the store the
    confirmation leaves, and the order then holds that status, its payment
    status being [paid]. *)
Theorem updateOrderStatus_after_confirmation (now : string) (a : webhook_args)
    (st : store) (o : order) (input : string) (target : status)
    (actor : profile) :
  event_recorded (w_eventId a) st = false →
  resolved_order a st = Some o →
  order_by_code (o_order_code o) st = Some o →
  uiStatusToDbStatus input = Some (Plain target) →
  ∃ u st2,
    updateOrderStatus (o_order_code o) input actor
      (markOrderPaidFromWebhook now a st).2 = (Ok u, st2)
    ∧ (lifecycle_view <$> order_by_code (o_order_code o) st2)
      = Some (o_id o, target, pay_paid).
Proof.
  intros Hrec Hres Hfirst Htarget.
  rewrite markOrderPaidFromWebhook_eq, Hrec, Hres. cbn [snd].
  set (st1 := payment_recorded a o (stock_deducted o (paid_orders now a o st))).
  assert (Horders : orders st1 = orders (paid_orders now a o st)).
  { unfold st1. by rewrite orders_payment_recorded, orders_stock_deducted. }
  assert (Hfirst1 : ∃ sid pay, order_by_code (o_order_code o) st1
                               = Some (mark_paid now sid pay o)).
  { eexists _, _. unfold order_by_code in *. rewrite Horders.
    unfold paid_orders. cbn [orders set_orders].
    rewrite (head_filter_patch (has_code (o_order_code o))) by done.
    rewrite Hfirst. cbn [fmap option_fmap option_map].
    by rewrite bool_decide_eq_true_2. }
  destruct Hfirst1 as (sid & pay & Hfirst1).
  assert (Hpaid : unpaidQrph (mark_paid now sid pay o) = false).
  { unfold unpaidQrph. cbn [o_payment_status mark_paid].
    change (bool_decide _) with true. by rewrite andb_false_r. }
  rewrite (updateOrderStatus_accepted _ _ _ _ _ _ Htarget Hfirst1)
    by (by rewrite Hpaid).
  eexists _, _. split; [done|].
  unfold order_by_code in *. cbn [orders set_order_status_events set_orders].
  rewrite head_patch_by_code, Hfirst1. done.
Qed.

Lemma updateOrderStatus_after_confirmation_witness :
  ∃ u st2,
    updateOrderStatus "ORD-1" "Preparing" Sample.staff
      (markOrderPaidFromWebhook "2025-04-14T08:00:00.000Z" Sample.first_event
         Sample.awaiting_payment).2 = (Ok u, st2)
    ∧ (lifecycle_view <$> order_by_code "ORD-1" st2)
      = Some ("o1", preparing, pay_paid).
Proof.
  apply (updateOrderStatus_after_confirmation "2025-04-14T08:00:00.000Z"
           Sample.first_event Sample.awaiting_payment Sample.qr_order
           "Preparing" preparing Sample.staff); reflexivity.
Defined.

Section LifecycleProperties.
Variable APP_BASE_URL : string.
Variable encodeURIComponent : string → string.
Variable paymongoCreateCheckoutSession :
  checkout_request → outcome (option checkout_session).

(** X22. The audit log only grows: placing an order, updating a status
    and confirming a payment leave every status event already recorded in
    place and unchanged, whether they succeed or throw; what they add comes
    after. *)
Theorem status_events_append_only :
  (∀ orderCode newId payload authProfile st,
     order_status_events st
     `prefix_of`
     order_status_events
       (createOrder APP_BASE_URL encodeURIComponent
          paymongoCreateCheckoutSession orderCode newId payload authProfile st).2)
  ∧ (∀ orderCode input actor st,
       order_status_events st
       `prefix_of`
       order_status_events (updateOrderStatus orderCode input actor st).2)
  ∧ (∀ now a st,
       order_status_events st
       `prefix_of`
       order_status_events (markOrderPaidFromWebhook now a st).2).
Proof.
  split_and!.
  - intros. rewrite createOrder_eq.
    destruct (negb _); [done|].
    destruct (priced_cart payload st) as [[rows subtotal]|e]; [|done].
    cbv zeta. destruct (isQrphMethod _).
    + destruct (paymongoCreateCheckoutSession _) as [checkout|e].
      * destruct (or_null (checkout ≫= cs_id)); by apply prefix_app_r.
      * by apply prefix_app_r.
    + by apply prefix_app_r.
  - intros. rewrite updateOrderStatus_unfold.
    destruct (uiStatusToDbStatus input); [|done].
    destruct (order_by_code orderCode st); [|done].
    destruct (_ && _); [done|]. by apply prefix_app_r.
  - intros. rewrite markOrderPaidFromWebhook_eq.
    destruct (event_recorded _ st); [done|].
    destruct (resolved_order a st) as [order|]; [|done].
    cbn [snd]. apply prefix_app_r. unfold stock_deducted.
    destruct (stock_marker_present _ _); [done|]. by apply prefix_app_r.
Qed.

(** X23. Stock moves at payment confirmation only: placing an order,
    whatever its payment method, and updating a status, a cancellation
    included, leave every product row as it was. *)
Theorem products_untouched_outside_confirmation :
  (∀ orderCode newId payload authProfile st,
     products
       (createOrder APP_BASE_URL encodeURIComponent
          paymongoCreateCheckoutSession orderCode newId payload authProfile st).2
     = products st)
  ∧ (∀ orderCode input actor st,
       products (updateOrderStatus orderCode input actor st).2 = products st).
Proof.
  split.
  - intros. rewrite createOrder_eq.
    destruct (negb _); [done|].
    destruct (priced_cart payload st) as [[rows subtotal]|e]; [|done].
    cbv zeta. destruct (isQrphMethod _); [|done].
    destruct (paymongoCreateCheckoutSession _) as [checkout|e]; [|done].
    by destruct (or_null (checkout ≫= cs_id)).
  - intros. rewrite updateOrderStatus_unfold.
    destruct (uiStatusToDbStatus input); [|done].
    destruct (order_by_code orderCode st); [|done].
    by destruct (_ && _).
Qed.
End LifecycleProperties.

(** ** The fields of a signature header *)

Lemma string_app_nil_r (s : string) : s +:+ "" = s.
Proof.
  induction s as [|c s IH]; [done|].
  change (String c s +:+ "") with (String c (s +:+ "")). by rewrite IH.
Qed.

Lemma string_app_assoc (a b c : string) : (a +:+ b) +:+ c = a +:+ (b +:+ c).
Proof.
  induction a as [|x a IH]; [done|].
  change ((String x a +:+ b) +:+ c) with (String x ((a +:+ b) +:+ c)).
  by rewrite IH.
Qed.

Lemma rev_app_append (s1 s2 : string) :
  String.rev_app s1 s2 = String.rev s1 +:+ s2.
Proof.
  revert s2. induction s1 as [|a s1 IH]; intros s2; [done|].
  unfold String.rev. simpl. rewrite (IH (String a s2)), (IH (String a "")).
  by rewrite string_app_assoc.
Qed.

Lemma rev_String (c : ascii) (s : string) :
  String.rev (String c s) = String.rev s +:+ String c "".
Proof. unfold String.rev at 1. simpl. apply rev_app_append. Qed.

Lemma split_go_plain (sep : ascii) (a cur : string) :
  JsText.count_char sep a = 0%nat →
  Js.split_go sep cur a = [String.rev cur +:+ a].
Proof.
  revert cur. induction a as [|c a IH]; intros cur Hc.
  - simpl. by rewrite string_app_nil_r.
  - simpl in Hc. case_decide as Hsep; [done|]. simpl in Hc.
    simpl. rewrite decide_False by done.
    rewrite IH by done.
    by rewrite rev_String, string_app_assoc.
Qed.

Lemma split_go_app (sep : ascii) (a b cur : string) :
  JsText.count_char sep a = 0%nat →
  Js.split_go sep cur (a +:+ String sep b)
  = (String.rev cur +:+ a) :: Js.split_go sep "" b.
Proof.
  revert cur. induction a as [|c a IH]; intros cur Hc.
  - change ("" +:+ String sep b) with (String sep b).
    simpl. rewrite decide_True by done. by rewrite string_app_nil_r.
  - simpl in Hc. case_decide as Hsep; [done|]. simpl in Hc.
    change (String c a +:+ String sep b) with (String c (a +:+ String sep b)).
    simpl. rewrite decide_False by done.
    rewrite IH by done.
    by rewrite rev_String, string_app_assoc.
Qed.

Lemma split_join (sep : ascii) (parts : list string) :
  Forall (λ x, JsText.count_char sep x = 0%nat) parts →
  parts ≠ [] →
  Js.split sep (JsText.join (String sep "") parts) = parts.
Proof.
  unfold Js.split. induction 1 as [|x parts Hx Hparts IH]; [done|]. intros _.
  destruct parts as [|y parts].
  - simpl. by rewrite split_go_plain.
  - change (JsText.join (String sep "") (x :: y :: parts))
      with (x +:+ String sep (JsText.join (String sep "") (y :: parts))).
    rewrite split_go_app by done. simpl String.rev.
    by rewrite IH.
Qed.

Lemma entry_of_part_field (k v : string) :
  JsText.count_char "="%char k = 0%nat →
  JsText.count_char "="%char v = 0%nat →
  entry_of_part (k +:+ "=" +:+ v)
  = if Js.truthy k && Js.truthy v then Some (Js.trim k, Js.trim v) else None.
Proof.
  intros Hk Hv. unfold entry_of_part, Js.split.
  change (k +:+ "=" +:+ v) with (k +:+ String "="%char v).
  rewrite split_go_app by done. rewrite split_go_plain by done. done.
Qed.

Lemma parsePaymongoSignature_fields (fields : list (string * string)) :
  Forall (λ kv, plain_field kv.1 ∧ plain_field kv.2) fields →
  parsePaymongoSignature (signature_header fields)
  = foldl (λ out kv, if kept_field kv
                     then <[Js.trim kv.1 := Js.trim kv.2]> out else out)
      ∅ fields.
Proof.
  intros Hplain. unfold parsePaymongoSignature, signature_header.
  destruct fields as [|kv0 fields0]; [done|].
  rewrite split_join; [|
    apply Forall_fmap; eapply Forall_impl; [exact Hplain|];
    intros [k v] [[Hk _] [Hv _]]; simpl in *;
    rewrite !count_char_app, Hk, Hv; done |done].
  generalize (∅ : gmap string string).
  induction Hplain as [|[k v] fields [[_ Hk] [_ Hv]] _ IH]; [done|].
  intros out. rewrite fmap_cons. cbn [foldl fst snd].
  rewrite entry_of_part_field by done.
  rewrite IH. unfold kept_field. cbn [fst snd].
  destruct (Js.truthy k && Js.truthy v); [|done]. cbn [andb].
  destruct (decide (Js.trim k = "__proto__")) as [Hp|Hp].
  - by rewrite (bool_decide_eq_true_2 _ Hp).
  - by rewrite (bool_decide_eq_false_2 _ Hp).
Qed.

(** X24. [parsePaymongoSignature] reads back the fields a header was
    written with: for a header of fields [key=value] joined by commas, keys
    and values holding neither comma nor equals sign, the entry under a key
    is the trimmed value of the last field of that trimmed key among the
    fields that leave an entry, those whose key and value are not empty and
    whose trimmed key is not [__proto__]; there is no entry under a name
    that no such field carries.  A field written under [__proto__] leaves no
    entry: the assignment goes to the setter every object inherits, which
    drops a text. *)
Theorem parsePaymongoSignature_roundtrip (fields : list (string * string))
    (key : string) :
  Forall (λ kv, plain_field kv.1 ∧ plain_field kv.2) fields →
  parsePaymongoSignature (signature_header fields) !! key
  = (λ kv, Js.trim kv.2)
      <$> last (filter (λ kv, kept_field kv = true ∧ Js.trim kv.1 = key) fields)
  ∧ parsePaymongoSignature (signature_header fields) !! "__proto__" = None.
Proof.
  intros Hplain. rewrite parsePaymongoSignature_fields by done. clear Hplain.
  assert (Hlookup : ∀ key,
            foldl (λ out kv, if kept_field kv
                             then <[Js.trim kv.1 := Js.trim kv.2]> out else out)
              (∅ : gmap string string) fields !! key
            = (λ kv, Js.trim kv.2)
                <$> last (filter (λ kv, kept_field kv = true ∧ Js.trim kv.1 = key)
                            fields)).
  { clear key. intros key.
    induction fields as [|[k v] fields IH] using rev_ind; [done|].
    rewrite foldl_app, filter_app, last_app. cbn [foldl].
    rewrite filter_cons, filter_nil.
    destruct (kept_field (k, v)) eqn:Hkept.
    - destruct (decide (Js.trim k = key)) as [<-|Hne].
      + rewrite decide_True by done. cbn [last fst snd].
        by rewrite lookup_insert_eq.
      + rewrite decide_False by tauto. cbn [last].
        rewrite lookup_insert_ne by done. exact IH.
    - rewrite decide_False by (by intros [? _]). cbn [last]. exact IH. }
  split; [apply Hlookup|].
  rewrite Hlookup, filter_Forall_not; [done|].
  apply Forall_forall. intros [k v] _ [Hkept Hk].
  unfold kept_field in Hkept. cbn [fst snd] in *.
  rewrite (bool_decide_eq_true_2 _ Hk), andb_false_r in Hkept. done.
Qed.

Lemma parsePaymongoSignature_roundtrip_witness :
  parsePaymongoSignature "t= 1713081600,te=9f2c ,__proto__=x,li=,te=77aa" !! "te"
  = Some "77aa"
  ∧ parsePaymongoSignature "t= 1713081600,te=9f2c ,__proto__=x,li=,te=77aa"
    !! "__proto__" = None.
Proof.
  apply (parsePaymongoSignature_roundtrip
           [("t", " 1713081600"); ("te", "9f2c "); ("__proto__", "x");
            ("li", ""); ("te", "77aa")]
           "te").
  repeat constructor.
Defined.

(** ** The amount asked of the payment gateway *)

Lemma toCentavos_exact (price : Q) (c : Z) :
  price == c # 100 → toCentavos price = c.
Proof.
  intros H. unfold toCentavos.
  assert (H' : (price * (100 # 1) + (1 # 2) == (2 * c + 1) # 2)%Q).
  { rewrite H. unfold Qeq. simpl. lia. }
  rewrite (Qfloor_comp _ _ H'). unfold Qfloor.
  symmetry. apply (Z.div_unique _ _ _ 1); lia.
Qed.

Lemma request_amount_lines (rows : list item_row) (z : Z) (q : Q) :
  Forall (λ r, whole_centavos (r_unit_price r)) rows →
  inject_Z z == q * 100 →
  inject_Z (foldl (λ acc li, acc + li_amount li * li_quantity li) z
              ((λ it, LineItem "PHP" (toCentavos (r_unit_price it))
                               (r_name it) (r_qty it)) <$> rows))
  == foldl (λ acc r, (acc + r_unit_price r * inject_Z (r_qty r))%Q) q rows * 100.
Proof.
  intros Hrows. revert z q.
  induction Hrows as [|r rows [c Hc] _ IH]; intros z q Hz; [done|].
  rewrite fmap_cons. cbn [foldl li_amount li_quantity]. apply IH.
  rewrite (toCentavos_exact _ c Hc), inject_Z_plus, inject_Z_mult, Hz, Hc.
  unfold Qeq, Qmult, Qplus. simpl. lia.
Qed.

(** X25. The checkout session of a QRPH order is asked for the items
    alone: with the prices of the catalogue in whole centavos, the line
    items of the request, one per priced line with its name and quantity,
    add up to the subtotal of the order in centavos, that is to the total
    recorded on the order and its payment row less the delivery fee. *)
Theorem checkout_request_amount (APP_BASE_URL : string)
    (encodeURIComponent : string → string) (orderCode newId : string)
    (payload : order_payload) (authProfile : option profile) (st : store)
    (rows : list item_row) (subtotal : Q) :
  priced_cart payload st = Ok (rows, subtotal) →
  Forall (λ p, whole_centavos (p_price p)) (products st) →
  (λ li, (li_name li, li_quantity li))
    <$> cr_lineItems (checkout_request_for APP_BASE_URL encodeURIComponent
                        orderCode rows)
  = (λ r, (r_name r, r_qty r)) <$> rows
  ∧ inject_Z (request_amount
                (checkout_request_for APP_BASE_URL encodeURIComponent
                   orderCode rows))
    == subtotal * 100
  ∧ inject_Z (request_amount
                (checkout_request_for APP_BASE_URL encodeURIComponent
                   orderCode rows))
    == (o_total (new_order orderCode newId payload authProfile subtotal)
        - o_delivery_fee (new_order orderCode newId payload authProfile subtotal))
       * 100.
Proof.
  intros Hp Hprices.
  destruct (priced_cart_ok _ _ _ _ Hp) as (skuQty & _ & _ & Hlines & -> & _).
  assert (Hrows : Forall (λ r, whole_centavos (r_unit_price r)) rows).
  { apply Forall_forall. intros r Hr.
    apply list_elem_of_lookup in Hr as [i Hi].
    destruct (Forall2_lookup_r _ _ _ _ _ Hlines Hi)
      as (entry & _ & _ & _ & p & Hin & _ & _ & _ & _ & _ & Hprice & _).
    rewrite Hprice. rewrite Forall_forall in Hprices. by apply Hprices. }
  assert (Hsum : inject_Z (request_amount
                             (checkout_request_for APP_BASE_URL
                                encodeURIComponent orderCode rows))
                 == sum_lines rows * 100).
  { unfold request_amount, checkout_request_for, sum_lines.
    cbn [cr_lineItems]. by apply request_amount_lines. }
  split_and!.
  - unfold checkout_request_for. cbn [cr_lineItems].
    by rewrite <- list_fmap_compose.
  - exact Hsum.
  - rewrite Hsum. cbn [new_order o_total o_delivery_fee]. ring.
Qed.

Lemma checkout_request_amount_witness :
  request_amount
    (checkout_request_for "https://shop.example" id "ORD-7"
       [ItemRow "pid1" "P001" "Cola" "drinks" "case" "cola.png" 55 2
                (55 * inject_Z 2)])
  = 11000.
Proof.
  destruct (checkout_request_amount "https://shop.example" id "ORD-7" "o7"
              Sample.qr_cart (Some Sample.customer) Sample.catalog
              [ItemRow "pid1" "P001" "Cola" "drinks" "case" "cola.png" 55 2
                       (55 * inject_Z 2)]
              (0 + 55 * inject_Z 2)%Q)
    as (_ & Hsum & _).
  - reflexivity.
  - repeat constructor.
    + exists 5500. reflexivity.
    + exists 0. reflexivity.
  - reflexivity.
Defined.

(** ** The active delivery *)

Lemma head_filter_split {A} (P : A → Prop) `{∀ x, Decision (P x)} (l : list A) :
  match head (filter P l) with
  | Some x => ∃ l1 l2, l = l1 ++ x :: l2 ∧ Forall (λ y, ¬ P y) l1 ∧ P x
  | None => Forall (λ y, ¬ P y) l
  end.
Proof.
  induction l as [|y l IH]; [by constructor|].
  rewrite filter_cons. destruct (decide (P y)) as [Hy|Hy].
  - exists [], l. by split_and!.
  - destruct (head (filter P l)) as [x|].
    + destruct IH as (l1 & l2 & -> & Hl1 & Hx).
      exists (y :: l1), l2. split_and!; [done| |done]. by constructor.
    + by constructor.
Qed.

Lemma is_active_status_terminal (s : status) :
  is_active_status (toUiStatus s) = negb (terminal s).
Proof. by destruct s. Qed.

Section DeliveryProperties.
Variable profiles : list profile.

Lemma listAllOrdersDetailed_eq (st : store) :
  listAllOrdersDetailed profiles st
  = (Ok (detailed_view profiles st <$> reverse (orders st)), st).
Proof.
  unfold listAllOrdersDetailed. unfold mbind at 1. unfold M_bind at 1.
  unfold select_orders at 1. rewrite filter_all.
  unfold detailed_view, order_view.
  destruct (reverse (orders st)) as [|o os] eqn:Hrev; [done|].
  unfold_monad. done.
Qed.

(** X26. The delivery panel reads the store without writing to it and
    shows the newest order still under way, that is neither delivered nor
    cancelled; when every order is delivered or cancelled it shows the newest
    order, and nothing only when the store holds no order. *)
Theorem getPanelDelivery_active (st : store) :
  ∃ shown,
    getPanelDelivery profiles st = (Ok shown, st)
    ∧ (shown = None ↔ orders st = [])
    ∧ (∀ d, shown = Some d →
         ∃ o earlier later,
           d = detailed_view profiles st o
           ∧ orders st = earlier ++ o :: later
           ∧ Forall (λ x, terminal (o_status x) = true) later
           ∧ (terminal (o_status o) = true →
              later = [] ∧ Forall (λ x, terminal (o_status x) = true) earlier)).
Proof.
  unfold getPanelDelivery. unfold mbind, M_bind.
  rewrite listAllOrdersDetailed_eq. unfold mret, M_ret.
  eexists. split; [done|].
  rewrite head_filter_fmap.
  pose proof (head_filter_split
                (λ o, is_active_status
                        (ui_status (do_view (detailed_view profiles st o))) = true)
                (reverse (orders st))) as Hsplit.
  destruct (head (filter _ (reverse (orders st)))) as [o|] eqn:Hh.
  - destruct Hsplit as (l1 & l2 & Hl & Hl1 & Ho).
    apply (f_equal reverse) in Hl.
    rewrite reverse_involutive, reverse_app, reverse_cons, <- app_assoc in Hl.
    cbn [fmap option_fmap option_map]. split.
    + split; [done|]. intros Hnil. rewrite Hnil in Hl.
      by destruct (reverse l2).
    + intros d [= <-]. exists o, (reverse l2), (reverse l1).
      cbn in Ho. rewrite is_active_status_terminal in Ho.
      apply negb_true_iff in Ho.
      split_and!; [done|done| |congruence].
      apply Forall_reverse. eapply Forall_impl; [exact Hl1|].
      intros x Hx. cbn in Hx. rewrite is_active_status_terminal in Hx.
      by destruct (terminal (o_status x)).
  - cbn [fmap option_fmap option_map].
    assert (Hall : Forall (λ x, terminal (o_status x) = true) (orders st)).
    { apply Forall_reverse in Hsplit. rewrite reverse_involutive in Hsplit.
      eapply Forall_impl; [exact Hsplit|].
      intros x Hx. cbn in Hx. rewrite is_active_status_terminal in Hx.
      by destruct (terminal (o_status x)). }
    destruct (orders st) as [|o0 os] eqn:Horders using rev_ind; [done|].
    rewrite reverse_app. cbn [reverse fmap list_fmap head app]. split.
    + split; [done|]. intros Hnil. by destruct os.
    + intros d [= <-]. exists o0, os, [].
      split_and!; [done|done|by constructor|].
      intros _. split; [done|]. by apply Forall_app in Hall as [? _].
Qed.
End DeliveryProperties.

(** ** The cart and the labels of the client pages *)

Lemma cartCount_from (cart : list client_cart_line) (z : Z) :
  foldl (λ a b, a + cl_qty b) z cart = z + cartCount cart.
Proof.
  unfold cartCount. revert z.
  induction cart as [|line cart IH]; intros z; simpl; [lia|].
  rewrite (IH (z + cl_qty line)), (IH (0 + cl_qty line)). lia.
Qed.

Lemma cartCount_cons (line : client_cart_line) (cart : list client_cart_line) :
  cartCount (line :: cart) = cl_qty line + cartCount cart.
Proof. unfold cartCount at 1. simpl. by rewrite cartCount_from. Qed.

(** X27. What the three cart operations do to the number of cases in the
    cart: [addToCart] adds the quantity asked for; [updateQty] adds its
    delta to the first line of the product, or takes the whole line away
    when nothing would be left of it, and changes nothing for a product that
    is not in the cart; [removeItem] takes away every line of the
    product. *)
Theorem cartCount_operations (cart : list client_cart_line) (pid : string)
    (qty : Z) :
  cartCount (addToCart cart pid qty) = cartCount cart + qty
  ∧ cartCount (updateQty cart pid qty)
    = cartCount cart
      + match head (filter (λ line, has_line pid line = true) cart) with
        | Some line => if cl_qty line + qty <=? 0 then - cl_qty line else qty
        | None => 0
        end
  ∧ cartCount cart
    = cartCount (removeItem cart pid)
      + cartCount (filter (λ line, has_line pid line = true) cart).
Proof.
  split_and!.
  - induction cart as [|line cart IH]; [done|].
    cbn [addToCart]. destruct (has_line pid line).
    + rewrite !cartCount_cons. simpl. lia.
    + rewrite !cartCount_cons, IH. lia.
  - induction cart as [|line cart IH]; [done|].
    cbn [updateQty]. rewrite filter_cons.
    destruct (has_line pid line) eqn:Hl.
    + rewrite decide_True by done. cbn [head].
      destruct (cl_qty line + qty <=? 0); rewrite !cartCount_cons; simpl; lia.
    + rewrite decide_False by done. rewrite !cartCount_cons, IH. lia.
  - unfold removeItem, has_line. induction cart as [|line cart IH]; [done|].
    rewrite !filter_cons.
    destruct (decide (cl_productId line = pid)) as [Hl|Hl].
    + rewrite decide_False by (by intros H; apply H).
      rewrite decide_True by (by apply bool_decide_eq_true).
      rewrite !cartCount_cons. lia.
    + rewrite decide_True by done.
      rewrite decide_False by (by rewrite bool_decide_eq_true).
      rewrite !cartCount_cons. lia.
Qed.

Lemma addToCart_ids (cart : list client_cart_line) (pid : string) (qty : Z) :
  cl_productId <$> addToCart cart pid qty
  = if decide (pid ∈ cl_productId <$> cart) then cl_productId <$> cart
    else (cl_productId <$> cart) ++ [pid].
Proof.
  induction cart as [|line cart IH]; [done|].
  cbn [addToCart]. unfold has_line.
  destruct (decide (cl_productId line = pid)) as [Hl|Hl].
  - rewrite (bool_decide_eq_true_2 _ Hl). rewrite !fmap_cons. cbn [cl_productId].
    rewrite decide_True; [done|]. rewrite Hl. by left.
  - rewrite (bool_decide_eq_false_2 _ Hl). rewrite !fmap_cons, IH.
    destruct (decide (pid ∈ cl_productId <$> cart)) as [Hin|Hin].
    + rewrite decide_True; [done|]. by right.
    + rewrite decide_False; [done|].
      rewrite elem_of_cons. intros [?|?]; [by apply Hl|done].
Qed.

Lemma updateQty_ids (cart : list client_cart_line) (pid : string) (delta : Z) :
  (cl_productId <$> updateQty cart pid delta) `sublist_of` (cl_productId <$> cart).
Proof.
  induction cart as [|line cart IH]; [done|].
  cbn [updateQty]. destruct (has_line pid line).
  - destruct (cl_qty line + delta <=? 0).
    + rewrite fmap_cons. by apply sublist_cons.
    + by rewrite !fmap_cons.
  - rewrite !fmap_cons. by apply sublist_skip.
Qed.

Lemma removeItem_ids (cart : list client_cart_line) (pid : string) :
  cl_productId <$> removeItem cart pid
  = filter (λ k, k ≠ pid) (cl_productId <$> cart).
Proof.
  unfold removeItem. induction cart as [|line cart IH]; [done|].
  rewrite fmap_cons, !filter_cons.
  destruct (decide (cl_productId line ≠ pid)); [|done].
  by rewrite fmap_cons, IH.
Qed.

(** X28. The cart operations keep the cart well formed, one line per
    product and every quantity positive: [addToCart] with a positive
    quantity, [updateQty] with any delta and [removeItem] each turn a
    well-formed cart into a well-formed cart; after [addToCart] the product
    is in the cart, after [removeItem] it is not. *)
Theorem cart_operations_well_formed (cart : list client_cart_line)
    (pid : string) (qty : Z) :
  well_formed_cart cart →
  (0 < qty → well_formed_cart (addToCart cart pid qty))
  ∧ pid ∈ cl_productId <$> addToCart cart pid qty
  ∧ well_formed_cart (updateQty cart pid qty)
  ∧ well_formed_cart (removeItem cart pid)
  ∧ pid ∉ cl_productId <$> removeItem cart pid.
Proof.
  intros [Hnd Hpos]. split_and!.
  - intros Hqty. split.
    + rewrite addToCart_ids. case_decide as Hin; [done|].
      apply NoDup_app. split_and!; [done| |apply NoDup_singleton].
      intros x Hx Hx'. apply list_elem_of_singleton in Hx'. by subst.
    + clear Hnd. induction Hpos as [|line cart Hline Hrest IH].
      * by repeat constructor.
      * cbn [addToCart]. destruct (has_line pid line).
        -- constructor; [simpl; lia|done].
        -- by constructor.
  - rewrite addToCart_ids. case_decide as Hin; [done|].
    apply elem_of_app. right. by apply list_elem_of_singleton.
  - split.
    + exact (sublist_NoDup _ _ Hnd (updateQty_ids cart pid qty)).
    + clear Hnd. induction Hpos as [|line cart Hline Hrest IH]; [done|].
      cbn [updateQty]. destruct (has_line pid line).
      * destruct (cl_qty line + qty <=? 0) eqn:Hle; [done|].
        apply Z.leb_gt in Hle. by constructor.
      * by constructor.
  - split.
    + rewrite removeItem_ids. by apply NoDup_filter.
    + unfold removeItem. apply Forall_forall. intros line Hline.
      apply list_elem_of_filter in Hline as [_ Hline].
      rewrite Forall_forall in Hpos. by apply Hpos.
  - rewrite removeItem_ids, list_elem_of_filter. tauto.
Qed.

Lemma cart_operations_well_formed_witness :
  well_formed_cart (updateQty [ClientCartLine "P001" 1; ClientCartLine "P002" 3]
                      "P001" (-1)).
Proof.
  apply (cart_operations_well_formed
           [ClientCartLine "P001" 1; ClientCartLine "P002" 3] "P001" (-1)).
  split.
  - apply (bool_decide_unpack _). reflexivity.
  - repeat constructor.
Defined.

(** X29. The labels of the client pages agree with those of the server:
    [normalizeStatusLabel] shows every status the server stores under the
    label [toUiStatus] gives it and leaves such a label as it is; and the
    step of the progress bar, [currentStatusIndex], is for such a label a
    number from 0 to 4 that never goes back along the chain of the
    lifecycle, advancing by one at each step but the one from
    [pending_payment] to [order_placed], which share a label. *)
Theorem normalizeStatusLabel_agrees (s : status) :
  normalizeStatusLabel (status_str s) = Plain (toUiStatus s)
  ∧ normalizeStatusLabel (toUiStatus s) = Plain (toUiStatus s)
  ∧ ∃ n, currentStatusIndex (toUiStatus s) = Plain n
         ∧ 0 ≤ n ≤ 4
         ∧ (∀ s', successor s = Some s' →
              currentStatusIndex (toUiStatus s')
              = Plain (n + (if decide (s = pending_payment) then 0 else 1))).
Proof.
  destruct s; (split; [reflexivity|]); (split; [reflexivity|]);
    (eexists; split; [reflexivity|]); (split; [lia|]);
    intros s' Hs; cbn in Hs; by simplify_eq.
Qed.

(** X30. The delivery fee of the cart page and the one [createOrder]
    charges are the same for every subtotal but 0, where the page shows no
    fee and the server charges the flat fee. *)
Theorem clientDeliveryFee_agrees (subtotal : Q) :
  clientDeliveryFee subtotal = deliveryFee subtotal ↔ ¬ subtotal == 0.
Proof.
  unfold clientDeliveryFee, deliveryFee.
  destruct (Qle_bool 800 subtotal) eqn:Hle.
  - split; [|done]. intros _ H0. apply Qle_bool_iff in Hle.
    rewrite H0 in Hle. by apply Qle_not_lt in Hle.
  - destruct (Qeq_bool subtotal 0) eqn:Heq.
    + apply Qeq_bool_iff in Heq. split; [done|]. by intros H.
    + split; [|done]. intros _ H0. apply Qeq_bool_iff in H0. congruence.
Qed.
